(** * luksmeta-monitor-hack: a shallow embedding and its checked properties

    The program under study is [pkg/storaged/luksmeta-monitor-hack.py]: a
    hundred lines of Python that decode Clevis policies out of JWE protected
    headers ([b64_decode], [get_clevis_config_from_protected_header],
    [get_clevis_config_from_jwe]), assemble the key-slot table of a LUKS
    device from the output of [cryptsetup] and [luksmeta] ([info]) and print
    that table whenever a udev event changes it ([monitor]).

    Layout of the development:
    - [Py]: the Python values the script manipulates and the builtins whose
      behaviour is fixed by the language (truthiness, dict access, [==],
      [split], [splitlines], [re.fullmatch] on the three fixed patterns);
    - [PyLib]: the library entry points the script calls ([base64], [json],
      [bytes.decode], [int]) taken as an interface, so every theorem holds
      for whatever these functions do;
    - [Host]: the processes the script talks to ([subprocess.run],
      [Popen], [readline]) as a state-passing interface over a world [W];
    - the five functions of the script, line by line;
    - [Ref]: an executable instance of [PyLib] following CPython, [Sim]: a
      scripted host, and [Examples]: headers, dumps and worlds, used to run
      the script on concrete inputs;
    - the vocabulary of the statements, then the theorems.

    Exceptions are values ([Raise]): the script catches none, so an
    exception raised anywhere ends [info] and [monitor]. *)

From Stdlib Require Import ZArith List String Ascii Bool Arith Lia.
From Stdlib Require Import Floats.SpecFloat.
From Stdlib Require Import Numbers.DecimalString.
Import ListNotations.

Set Warnings "-register-all".

Local Open Scope string_scope.
Local Open Scope list_scope.
Local Open Scope Z_scope.

(* ================================================================== *)
(** ** Exceptions and results *)

(** The exception classes the script can meet.  [binascii.Error],
    [UnicodeDecodeError] and [json.JSONDecodeError] are subclasses of
    [ValueError]; [FileNotFoundError] and [PermissionError] of [OSError]. *)
Inductive exn : Type :=
| ValueError
| TypeError
| KeyError
| AttributeError
| OverflowError
| RecursionError
| OSError
| CalledProcessError.

(** A Python expression either evaluates to a value or raises. *)
Inductive result (A : Type) : Type :=
| Ok (a : A)
| Raise (e : exn).

Arguments Ok {A} a.
Arguments Raise {A} e.

Definition bind {A B : Type} (r : result A) (k : A -> result B) : result B :=
  match r with
  | Ok a => k a
  | Raise e => Raise e
  end.

Notation "x <- r ;; k" := (bind r (fun x => k))
  (at level 61, r at next level, right associativity).

(** [for x in xs: acc = body(acc, x)], stopping at the first exception. *)
Fixpoint for_each {A S : Type} (body : S -> A -> result S) (xs : list A) (acc : S)
  : result S :=
  match xs with
  | [] => Ok acc
  | x :: xs' => acc' <- body acc x ;; for_each body xs' acc'
  end.

(* ================================================================== *)
(** ** Python values and builtins *)

Module Py.

(** [str] and [bytes] are both carried by [string]: a [bytes] object is its
    bytes, a [str] is the UTF-8 encoding of its code points (so ASCII text
    is itself). *)
Abbreviation str := string (only parsing).
Abbreviation bytes := string (only parsing).

(** The values [json.loads] produces, plus dictionaries with the scalar keys
    that [{ "pin": pin, pin: { } }] can create.  A [float] is an IEEE
    binary64 number in the Standard Library's [spec_float]. *)
Inductive value : Type :=
| VNone
| VBool (b : bool)
| VInt (z : Z)
| VFloat (f : spec_float)
| VStr (s : str)
| VList (l : list value)
| VDict (d : list (value * value)).

(** A [dict]: its items in insertion order, keys pairwise different. *)
Abbreviation dict := (list (value * value)) (only parsing).

(** *** Characters and strings *)

Definition tab : ascii := ascii_of_nat 9.
Definition LF : ascii := ascii_of_nat 10.
Definition CR : ascii := ascii_of_nat 13.
Definition dquote : ascii := ascii_of_nat 34.

(** A byte [10xxxxxx] continues a UTF-8 sequence; every other byte starts a
    code point. *)
Definition is_continuation (c : ascii) : bool :=
  let n := nat_of_ascii c in (128 <=? n)%nat && (n <? 192)%nat.

(** [len(s)] for a [str]: the number of code points. *)
Fixpoint py_len (s : str) : nat :=
  match s with
  | EmptyString => O
  | String c s' => if is_continuation c then py_len s' else S (py_len s')
  end.

(** [c * n] for a one-character string [c]. *)
Fixpoint str_repeat (c : ascii) (n : nat) : string :=
  match n with
  | O => EmptyString
  | S n' => String c (str_repeat c n')
  end.

(** [s.startswith(p)]. *)
Fixpoint startswith (s p : string) : bool :=
  match p, s with
  | EmptyString, _ => true
  | String a p', String b s' => Ascii.eqb a b && startswith s' p'
  | String _ _, EmptyString => false
  end.

(** [p in s] for two [bytes] objects: [p] occurs in [s] as a substring. *)
Fixpoint contains (s p : string) : bool :=
  startswith s p ||
  match s with
  | EmptyString => false
  | String _ s' => contains s' p
  end.

(** [s.split(sep)[0]] for a one-character separator: what stands before
    its first occurrence, the whole of [s] when there is none. *)
Fixpoint split_first (sep : ascii) (s : string) : string :=
  match s with
  | EmptyString => EmptyString
  | String c s' => if Ascii.eqb c sep then EmptyString else String c (split_first sep s')
  end.

(** [s.rstrip(b"\n")]. *)
Fixpoint rstrip_newline (s : string) : string :=
  match s with
  | EmptyString => EmptyString
  | String c s' =>
      match rstrip_newline s' with
      | EmptyString => if Ascii.eqb c LF then EmptyString else String c EmptyString
      | rest => String c rest
      end
  end.

(** [bytes.splitlines()]: lines end at [\n], [\r] or [\r\n]; the line ends
    are dropped and no empty line is added after the last one.  [cur] is
    the line being read. *)
Fixpoint splitlines_from (s cur : string) : list string :=
  match s with
  | EmptyString => if (String.length cur =? 0)%nat then [] else [cur]
  | String c s' =>
      if Ascii.eqb c LF then cur :: splitlines_from s' EmptyString
      else if Ascii.eqb c CR then
        match s' with
        | String c' s'' =>
            if Ascii.eqb c' LF then cur :: splitlines_from s'' EmptyString
            else cur :: splitlines_from s' EmptyString
        | EmptyString => cur :: splitlines_from s' EmptyString
        end
      else splitlines_from s' (cur ++ String c EmptyString)
  end.

Definition splitlines (s : bytes) : list bytes := splitlines_from s EmptyString.

(** The characters of a [str], for [for c in s]: one string per code
    point. *)
Fixpoint chars_from (s cur : string) : list string :=
  match s with
  | EmptyString => if (String.length cur =? 0)%nat then [] else [cur]
  | String c s' =>
      if is_continuation c || (String.length cur =? 0)%nat
      then chars_from s' (cur ++ String c EmptyString)
      else cur :: chars_from s' (String c EmptyString)
  end.

Definition chars (s : str) : list str := chars_from s EmptyString.

(** *** Decimal digits *)

Definition is_digit (c : ascii) : bool :=
  let n := nat_of_ascii c in (48 <=? n)%nat && (n <=? 57)%nat.

Definition digit_value (c : ascii) : Z := Z.of_nat (nat_of_ascii c) - 48.

(** The number a run of decimal digits denotes, most significant first. *)
Fixpoint decimal_from (acc : Z) (ds : string) : Z :=
  match ds with
  | EmptyString => acc
  | String c ds' => decimal_from (10 * acc + digit_value c) ds'
  end.

Definition decimal (ds : string) : Z := decimal_from 0 ds.

(** [str(n)] for an [int]. *)
Definition str_of_int (n : Z) : str := NilZero.string_of_int (Z.to_int n).

(** The longest prefix of digits, and what follows it. *)
Fixpoint span_digits (s : string) : string * string :=
  match s with
  | EmptyString => (EmptyString, EmptyString)
  | String c s' =>
      if is_digit c
      then let (ds, rest) := span_digits s' in (String c ds, rest)
      else (EmptyString, s)
  end.

(** [s] without its prefix [p], when it has that prefix. *)
Fixpoint strip_prefix (p s : string) : option string :=
  match p, s with
  | EmptyString, _ => Some s
  | String a p', String b s' => if Ascii.eqb a b then strip_prefix p' s' else None
  | String _ _, EmptyString => None
  end.

(** [re.fullmatch(pre ([0-9]+) post, line)] for literal [pre] and [post],
    [post] not starting with a digit: the text of group 1 on a match.  The
    three patterns of the script have this shape. *)
Definition fullmatch_number (pre post : string) (line : bytes) : option bytes :=
  match strip_prefix pre line with
  | None => None
  | Some after =>
      let (ds, rest) := span_digits after in
      if (String.length ds =? 0)%nat then None
      else if String.eqb rest post then Some ds else None
  end.

(** *** Truthiness, equality, dictionaries *)

(** [bool(v)], as [if v:] tests it. *)
Definition truthy (v : value) : bool :=
  match v with
  | VNone => false
  | VBool b => b
  | VInt z => negb (z =? 0)
  | VFloat (S754_zero _) => false
  | VFloat _ => true
  | VStr s => negb (String.length s =? 0)%nat
  | VList l => negb (List.length l =? 0)%nat
  | VDict d => negb (List.length d =? 0)%nat
  end.

(** Only lists and dicts among these values are unhashable. *)
Definition hashable (v : value) : bool :=
  match v with
  | VList _ | VDict _ => false
  | _ => true
  end.

(** [float == int], compared exactly as Python does. *)
Definition float_eq_int (f : spec_float) (z : Z) : bool :=
  match f with
  | S754_zero _ => z =? 0
  | S754_finite s m e =>
      let v := if s then Z.neg m else Z.pos m in
      if 0 <=? e then z =? v * 2 ^ e else z * 2 ^ (- e) =? v
  | _ => false
  end.

(** [float == float] between container members.  Every [NaN] that
    [json.loads] returns is the one object [json.decoder.NaN], and
    containers compare members by identity first, so [NaN] matches itself
    here. *)
Definition float_eq (f g : spec_float) : bool :=
  match f, g with
  | S754_nan, S754_nan => true
  | _, _ => SFeqb f g
  end.

Definition int_of_bool (b : bool) : Z := if b then 1 else 0.

(** [a == b] (for members of containers: [a is b or a == b]).  [bool] is a
    subtype of [int]; numbers compare by value across [bool], [int] and
    [float]; dicts compare as sets of items, lists in order. *)
Fixpoint py_eq (a b : value) {struct a} : bool :=
  match a, b with
  | VNone, VNone => true
  | VBool x, VBool y => Bool.eqb x y
  | VBool x, VInt y => int_of_bool x =? y
  | VInt x, VBool y => x =? int_of_bool y
  | VInt x, VInt y => x =? y
  | VBool x, VFloat g => float_eq_int g (int_of_bool x)
  | VInt x, VFloat g => float_eq_int g x
  | VFloat f, VBool y => float_eq_int f (int_of_bool y)
  | VFloat f, VInt y => float_eq_int f y
  | VFloat f, VFloat g => float_eq f g
  | VStr s, VStr t => String.eqb s t
  | VList la, VList lb =>
      (fix members (la lb : list value) : bool :=
         match la, lb with
         | [], [] => true
         | x :: la', y :: lb' => py_eq x y && members la' lb'
         | _, _ => false
         end) la lb
  | VDict da, VDict db =>
      (List.length da =? List.length db)%nat &&
      (fix items (da : list (value * value)) : bool :=
         match da with
         | [] => true
         | (k, v) :: da' =>
             match find (fun kv => py_eq k (fst kv)) db with
             | Some (_, v') => py_eq v v'
             | None => false
             end && items da'
         end) da
  | _, _ => false
  end.

(** [a != b]. *)
Definition py_ne (a b : value) : bool := negb (py_eq a b).

(** The item of [d] stored under a key equal to [k]. *)
Fixpoint dict_find (k : value) (d : dict) : option value :=
  match d with
  | [] => None
  | (k', v) :: d' => if py_eq k k' then Some v else dict_find k d'
  end.

(** [d[k] = v] for a hashable [k]: an existing key keeps its place (and its
    key object), a new one goes last. *)
Fixpoint dict_set (k v : value) (d : dict) : dict :=
  match d with
  | [] => [(k, v)]
  | (k', v') :: d' =>
      if py_eq k k' then (k', v) :: d' else (k', v') :: dict_set k v d'
  end.

(** [d[k] = v] for any [k]: unhashable keys raise. *)
Definition setitem (d : dict) (k v : value) : result dict :=
  if hashable k then Ok (dict_set k v d) else Raise TypeError.

(** [k in d] and [k not in d]. *)
Definition contains_key (d : dict) (k : value) : result bool :=
  if hashable k
  then Ok (match dict_find k d with Some _ => true | None => false end)
  else Raise TypeError.

(** [obj.get(key, default)] with a string literal [key]: only dicts have
    the method among these values. *)
Definition get (obj : value) (key : str) (default : value) : result value :=
  match obj with
  | VDict d =>
      Ok (match dict_find (VStr key) d with Some v => v | None => default end)
  | _ => Raise AttributeError
  end.

(** [obj[key]] with a string literal [key]: a dict looks the key up, [None]
    and numbers are not subscriptable, lists and strings take no string
    index. *)
Definition getitem (obj : value) (key : str) : result value :=
  match obj with
  | VDict d =>
      match dict_find (VStr key) d with
      | Some v => Ok v
      | None => Raise KeyError
      end
  | _ => Raise TypeError
  end.

(** [d[k]] where [d] is [None] or a dict and [k] any value. *)
Definition getitem_opt (d : option dict) (k : value) : result value :=
  match d with
  | None => Raise TypeError
  | Some items =>
      if hashable k
      then match dict_find k items with
           | Some v => Ok v
           | None => Raise KeyError
           end
      else Raise TypeError
  end.

(** [for x in obj]: the members of a list, the characters of a string, the
    keys of a dict; nothing else is iterable. *)
Definition iter (obj : value) : result (list value) :=
  match obj with
  | VList l => Ok l
  | VStr s => Ok (map VStr (chars s))
  | VDict d => Ok (map fst d)
  | _ => Raise TypeError
  end.

(** [s.split(".")[0]]: a method of [str] only. *)
Definition split_dot_first (v : value) : result value :=
  match v with
  | VStr s => Ok (VStr (split_first "." s))
  | _ => Raise AttributeError
  end.

(** What [json.dumps] is given for an optional dict. *)
Definition value_of_opt (d : option dict) : value :=
  match d with
  | None => VNone
  | Some items => VDict items
  end.

End Py.

Import Py.

(* ================================================================== *)
(** ** The library and the host, as interfaces *)

(** What the script asks of Python's library.  Each field is the named
    function with the arguments the script gives it.  [recursion_limit] is
    the number of Python frames the decoder may still stack when [info]
    calls it: going deeper raises [RecursionError].  [int_max_str_digits]
    bounds the digits [int] converts (0: no bound). *)
Class PyLib : Type := {
  urlsafe_b64decode : str -> result bytes;
  utf8_decode : bytes -> result str;
  json_loads : str -> result value;
  json_dumps : value -> result str;
  int_of_value : value -> result Z;
  int_max_str_digits : nat;
  recursion_limit : nat
}.

(** A finished child process: [subprocess.CompletedProcess]. *)
Record completed : Type := Completed {
  returncode : Z;
  stdout : bytes
}.

(** The world the script runs in, seen through the calls it makes.  Each
    call may change the world; [subprocess.run] raises when the program
    cannot be started. *)
Class Host (W : Type) : Type := {
  subprocess_run : list string -> W -> result completed * W;
  subprocess_popen : list string -> W -> result unit * W;
  popen_readline : W -> bytes * W
}.

(** *** Computations that read or change a state and may raise *)

Definition M (S A : Type) : Type := S -> result A * S.

Definition ret {S A : Type} (a : A) : M S A := fun s => (Ok a, s).

Definition lift {S A : Type} (r : result A) : M S A := fun s => (r, s).

Definition mbind {S A B : Type} (m : M S A) (k : A -> M S B) : M S B :=
  fun s =>
    match m s with
    | (Ok a, s') => k a s'
    | (Raise e, s') => (Raise e, s')
    end.

Notation "x <~ m ;; k" := (mbind m (fun x => k))
  (at level 61, m at next level, right associativity).

(** The stateful [for] loop. *)
Fixpoint mfor_each {S A T : Type} (body : T -> A -> M S T) (xs : list A) (acc : T)
  : M S T :=
  match xs with
  | [] => ret acc
  | x :: xs' => acc' <~ body acc x ;; mfor_each body xs' acc'
  end.

(** A computation on the world, run where standard output is tracked
    beside it. *)
Definition on_world {W A : Type} (m : M W A) : M (W * list str) A :=
  fun s =>
    match m (fst s) with
    | (r, w') => (r, (w', snd s))
    end.

(* ================================================================== *)
(** ** The policy decoder *)

Section Decoder.

Context {L : PyLib}.

(** [int(ds)] for the digits a pattern matched. *)
Definition int_of_digits (ds : bytes) : result Z :=
  if ((0 <? int_max_str_digits) && (int_max_str_digits <? String.length ds))%nat
  then Raise ValueError
  else Ok (decimal ds).

(** The number of [=] that [b64_decode] appends to [data]. *)
Definition padding_length (data : str) : Z :=
  (4 - Z.of_nat (py_len data) mod 4) mod 4.

(** [[
def b64_decode(data):
    return base64.urlsafe_b64decode(data + '=' * ((4 - len(data) % 4) % 4))
]]
    Of the values at hand only a [str] has both a length and a [+] with a
    [str]. *)
Definition b64_decode (data : value) : result bytes :=
  match data with
  | VStr s => urlsafe_b64decode (s ++ str_repeat "=" (Z.to_nat (padding_length s)))%string
  | _ => Raise TypeError
  end.

(** The body of [for jwe in jwes:], given the decoded child [subconf]:
[[
    subpin = subconf["pin"]
    if subpin not in subpins:
        subpins[subpin] = [ subconf[subpin] ]
    else:
        subpins[subpin].append(subconf[subpin])
]] *)
Definition add_subpin (subpins : dict) (subconf : option dict) : result dict :=
  subpin <- getitem_opt subconf (VStr "pin") ;;
  present <- contains_key subpins subpin ;;
  payload <- getitem_opt subconf subpin ;;
  if negb present
  then Ok (dict_set subpin (VList [payload]) subpins)
  else
    match dict_find subpin subpins with
    | Some (VList payloads) =>
        Ok (dict_set subpin (VList (payloads ++ [payload])) subpins)
    | _ => Raise AttributeError
    end.

(** [[
def get_clevis_config_from_protected_header(protected_header):
    header = b64_decode(protected_header).decode("utf-8")
    header_object = json.loads(header)
    clevis = header_object.get("clevis", None)
    if clevis:
        pin = clevis.get("pin", None)
        if pin == "tang":
            return clevis
        elif pin == "sss":
            subpins = { }
            jwes = clevis["sss"]["jwe"]
            for jwe in jwes:
                subconf = get_clevis_config_from_jwe(jwe)
                ...
            return { "pin": "sss", "sss": { "t": clevis["sss"]["t"], "pins": subpins } }
        else:
            return { "pin": pin, pin: { } }

def get_clevis_config_from_jwe(jwe):
    return get_clevis_config_from_protected_header(jwe.split(".")[0])
]]
    The result is [None] (falling off the end) or a dict.  [depth] counts
    the frames that may still be stacked; each call takes one. *)
Fixpoint get_clevis_config_from_protected_header (depth : nat) (protected_header : value)
  {struct depth} : result (option dict) :=
  match depth with
  | O => Raise RecursionError
  | S depth' =>
      raw <- b64_decode protected_header ;;
      header <- utf8_decode raw ;;
      header_object <- json_loads header ;;
      clevis <- get header_object "clevis" VNone ;;
      if truthy clevis then
        pin <- get clevis "pin" VNone ;;
        if py_eq pin (VStr "tang") then
          match clevis with
          | VDict items => Ok (Some items)
          | _ => Raise AttributeError
          end
        else if py_eq pin (VStr "sss") then
          sss <- getitem clevis "sss" ;;
          jwes <- getitem sss "jwe" ;;
          members <- iter jwes ;;
          subpins <- for_each
                       (fun subpins jwe =>
                          subconf <- get_clevis_config_from_jwe depth' jwe ;;
                          add_subpin subpins subconf)
                       members [] ;;
          sss' <- getitem clevis "sss" ;;
          t <- getitem sss' "t" ;;
          Ok (Some [ (VStr "pin", VStr "sss");
                     (VStr "sss", VDict [ (VStr "t", t); (VStr "pins", VDict subpins) ]) ])
        else
          literal <- setitem [ (VStr "pin", pin) ] pin (VDict []) ;;
          Ok (Some literal)
      else Ok None
  end
with get_clevis_config_from_jwe (depth : nat) (jwe : value)
  {struct depth} : result (option dict) :=
  match depth with
  | O => Raise RecursionError
  | S depth' =>
      first <- split_dot_first jwe ;;
      get_clevis_config_from_protected_header depth' first
  end.

End Decoder.

(* ================================================================== *)
(** ** The slot-state builder *)

(** The local variables of [info] that the loop over the dump changes.
    [slots] is the dict keyed by slot number, in insertion order. *)
Record scan_state : Type := Scan {
  slots : list (Z * value);
  version : Z;
  max_slots : Z;
  in_luks2_slot_section : bool;
  in_luks2_token_section : bool
}.

(** [slot in slots]. *)
Fixpoint slots_mem (slot : Z) (d : list (Z * value)) : bool :=
  match d with
  | [] => false
  | (k, _) :: d' => (slot =? k) || slots_mem slot d'
  end.

(** [slots[slot]], when there is one. *)
Fixpoint slots_find (slot : Z) (d : list (Z * value)) : option value :=
  match d with
  | [] => None
  | (k, v) :: d' => if slot =? k then Some v else slots_find slot d'
  end.

(** [slots[slot] = entry]: a known slot keeps its place, a new one goes
    last. *)
Fixpoint slots_set (slot : Z) (entry : value) (d : list (Z * value)) : list (Z * value) :=
  match d with
  | [] => [(slot, entry)]
  | (k, v) :: d' =>
      if slot =? k then (k, entry) :: d' else (k, v) :: slots_set slot entry d'
  end.

(** [{ "Index": { "v": slot } }]. *)
Definition bare_entry (slot : Z) : dict :=
  [ (VStr "Index", VDict [ (VStr "v", VInt slot) ]) ].

(** [{ "Index": { "v": slot }, "ClevisConfig": { "v": config } }]. *)
Definition clevis_entry (slot : Z) (config : str) : dict :=
  [ (VStr "Index", VDict [ (VStr "v", VInt slot) ]);
    (VStr "ClevisConfig", VDict [ (VStr "v", VStr config) ]) ].

(** [{ "version": version, "slots": ..., "max_slots": max_slots }]. *)
Definition state_dict (version : Z) (entries : list value) (max_slots : Z) : value :=
  VDict [ (VStr "version", VInt version);
          (VStr "slots", VList entries);
          (VStr "max_slots", VInt max_slots) ].

(** The fixed UUID under which Clevis stores its data in LUKSMeta. *)
Definition clevis_uuid : string := "cb6e8904-81ff-40da-a84a-07ab9ab5715e".

Section Builder.

Context {L : PyLib} {W : Type} {H : Host W}.

(** Lines 55-63: the section flags, the version and the slot limit. *)
Definition info_sections (line : bytes) (st : scan_state) : scan_state :=
  let st1 :=
    if negb (startswith line " " || startswith line (String tab ""))
    then Scan (slots st) (version st) (max_slots st) false false
    else st in
  if String.eqb line "Keyslots:"
  then Scan (slots st1) 2 32 true (in_luks2_token_section st1)
  else if String.eqb line "Tokens:"
  then Scan (slots st1) (version st1) (max_slots st1) (in_luks2_slot_section st1) true
  else st1.

(** Lines 65-68: the pattern for a slot line. *)
Definition slot_match (line : bytes) (st : scan_state) : option bytes :=
  if in_luks2_slot_section st
  then fullmatch_number "  " ": luks2" line
  else fullmatch_number "Key Slot " ": ENABLED" line.

(** Lines 69-81: a slot line.  For version 1 the slot's policy is loaded
    from LUKSMeta; the entry is stored only if the slot has none yet. *)
Definition info_slot_line (dev : str) (line : bytes) (st : scan_state) : M W scan_state :=
  match slot_match line st with
  | None => ret st
  | Some digits =>
      slot <~ lift (int_of_digits digits) ;;
      let entry := bare_entry slot in
      entry <~ (if version st =? 1 then
                  luksmeta <~ subprocess_run
                    [ "luksmeta"; "load"; "-d"; dev; "-s"; str_of_int slot;
                      "-u"; clevis_uuid ] ;;
                  if returncode luksmeta =? 0 then
                    jwe <~ lift (utf8_decode (stdout luksmeta)) ;;
                    conf <~ lift (get_clevis_config_from_jwe recursion_limit (VStr jwe)) ;;
                    text <~ lift (json_dumps (value_of_opt conf)) ;;
                    ret (dict_set (VStr "ClevisConfig") (VDict [ (VStr "v", VStr text) ]) entry)
                  else ret entry
                else ret entry) ;;
      if negb (slots_mem slot (slots st))
      then ret (Scan (slots_set slot (VDict entry) (slots st)) (version st) (max_slots st)
                     (in_luks2_slot_section st) (in_luks2_token_section st))
      else ret st
  end.

(** Lines 92-95: the loop over the token's key slots. *)
Definition assign_slot (config : str) (d : list (Z * value)) (slot_str : value)
  : result (list (Z * value)) :=
  slot <- int_of_value slot_str ;;
  Ok (slots_set slot (VDict (clevis_entry slot config)) d).

(** Lines 83-95: a token line.  The token is exported and, when it is a
    Clevis token, its policy is written into every slot it names. *)
Definition info_token_line (dev : str) (line : bytes) (st : scan_state) : M W scan_state :=
  if in_luks2_token_section st then
    match fullmatch_number "  " ": clevis" line with
    | None => ret st
    | Some id =>
        token <~ subprocess_run [ "cryptsetup"; "token"; "export"; dev; "--token-id"; id ] ;;
        if returncode token =? 0 then
          text <~ lift (utf8_decode (stdout token)) ;;
          token_object <~ lift (json_loads text) ;;
          type <~ lift (get token_object "type" VNone) ;;
          if py_eq type (VStr "clevis") then
            jwe <~ lift (getitem token_object "jwe") ;;
            protected <~ lift (getitem jwe "protected") ;;
            conf <~ lift (get_clevis_config_from_protected_header recursion_limit protected) ;;
            config <~ lift (json_dumps (value_of_opt conf)) ;;
            keyslots <~ lift (get token_object "keyslots" (VList [])) ;;
            members <~ lift (iter keyslots) ;;
            slots' <~ lift (for_each (assign_slot config) members (slots st)) ;;
            ret (Scan slots' (version st) (max_slots st)
                      (in_luks2_slot_section st) (in_luks2_token_section st))
          else ret st
        else ret st
    end
  else ret st.

(** Lines 55-95: the body of [for line in result.stdout.splitlines():]. *)
Definition info_line (dev : str) (st : scan_state) (line : bytes) : M W scan_state :=
  st' <~ info_slot_line dev line (info_sections line st) ;;
  info_token_line dev line st'.

(** The state before the first line: lines 44-46 and 52-53. *)
Definition initial_scan : scan_state := Scan [] 1 8 false false.

(** [[
def info(dev):
    slots = { }; version = 1; max_slots = 8
    result = subprocess.run([ "cryptsetup", "luksDump", dev ], ...)
    if result.returncode != 0:
        return { "version": version, "slots": [ ], "max_slots": max_slots }
    ... for line in result.stdout.splitlines(): ...
    return { "version": version, "slots": list(slots.values()), "max_slots": max_slots }
]] *)
Definition info (dev : str) : M W value :=
  result <~ subprocess_run [ "cryptsetup"; "luksDump"; dev ] ;;
  if negb (returncode result =? 0)
  then ret (state_dict 1 [] 8)
  else
    st <~ mfor_each (info_line dev) (splitlines (stdout result)) initial_scan ;;
    ret (state_dict (version st) (map snd (slots st)) (max_slots st)).

(* ================================================================== *)
(** ** The change monitor *)

(** The local variables of [monitor] once the loop is entered. *)
Record monitor_state : Type := Monitor {
  path : bytes;
  old_infos : value
}.

(** [sys.stdout.write(text); sys.stdout.flush()]. *)
Definition write (text : str) : M (W * list str) unit :=
  fun s => (Ok tt, (fst s, snd s ++ [text])).

(** [subprocess.check_output(argv)]: the output of a child that exits
    with 0. *)
Definition check_output (argv : list string) : M W bytes :=
  done <~ subprocess_run argv ;;
  if returncode done =? 0 then ret (stdout done) else lift (Raise CalledProcessError).

(** Lines 100-106: what [monitor] does before its loop. *)
Definition monitor_start (dev : str) : M (W * list str) monitor_state :=
  out <~ on_world (check_output [ "udevadm"; "info"; "-q"; "path"; dev ]) ;;
  let path := rstrip_newline out in
  _ <~ on_world (subprocess_popen
                   [ "stdbuf"; "-o"; "L"; "udevadm"; "monitor"; "-u"; "-s"; "block" ]) ;;
  old_infos <~ on_world (info dev) ;;
  text <~ lift (json_dumps old_infos) ;;
  _ <~ write (text ++ String LF "")%string ;;
  ret (Monitor path old_infos).

(** Lines 108-114: one turn of [while True:]. *)
Definition monitor_turn (dev : str) (st : monitor_state) : M (W * list str) monitor_state :=
  line <~ on_world (fun w => let (l, w') := popen_readline w in (Ok l, w')) ;;
  if contains line (path st) then
    new_infos <~ on_world (info dev) ;;
    if py_ne new_infos (old_infos st) then
      text <~ lift (json_dumps new_infos) ;;
      _ <~ write (text ++ String LF "")%string ;;
      ret (Monitor (path st) new_infos)
    else ret st
  else ret st.

(** The first [n] turns of the loop. *)
Fixpoint monitor_loop (dev : str) (n : nat) (st : monitor_state)
  : M (W * list str) monitor_state :=
  match n with
  | O => ret st
  | S n' => st' <~ monitor_turn dev st ;; monitor_loop dev n' st'
  end.

(** [monitor(dev)], observed after [n] turns of its endless loop. *)
Definition monitor (dev : str) (n : nat) : M (W * list str) monitor_state :=
  st <~ monitor_start dev ;;
  monitor_loop dev n st.

End Builder.

(* ================================================================== *)
(** ** A reference library, following CPython *)

(** An executable instance of [PyLib], written after CPython 3.11
    ([binascii.a2b_base64], the UTF-8 codec, [json.scanner],
    [json.encoder], [int]).  The theorems do not depend on it: it serves to
    run the script on concrete inputs. *)
Module Ref.

(** *** [base64.urlsafe_b64decode] *)

Definition is_ascii (c : ascii) : bool := (nat_of_ascii c <? 128)%nat.

Fixpoint all_ascii (s : string) : bool :=
  match s with
  | EmptyString => true
  | String c s' => is_ascii c && all_ascii s'
  end.

(** The six bits a character stands for, once [-] and [_] are read as [+]
    and [/]; characters outside the alphabet have none. *)
Definition sextet (c : ascii) : option Z :=
  let n := Z.of_nat (nat_of_ascii c) in
  if (65 <=? n) && (n <=? 90) then Some (n - 65)
  else if (97 <=? n) && (n <=? 122) then Some (n - 71)
  else if (48 <=? n) && (n <=? 57) then Some (n + 4)
  else if (n =? 43) || (n =? 45) then Some 62
  else if (n =? 47) || (n =? 95) then Some 63
  else None.

Definition byte_of_Z (z : Z) : ascii := ascii_of_nat (Z.to_nat (Z.land z 255)).

(** [binascii.a2b_base64] without [strict_mode]: characters outside the
    alphabet are skipped; a complete run of padding ends the data, and what
    follows it is ignored; data that stops inside a quad is an error.
    [quad_pos] is the position in the current quad, [leftchar] the bits not
    yet written, [pads] the [=] seen since the last data character and
    [out] the bytes written, last first. *)
Fixpoint a2b_base64 (s : string) (quad_pos : nat) (leftchar : Z) (pads : nat)
  (out : list ascii) : result bytes :=
  match s with
  | EmptyString =>
      if (quad_pos =? 0)%nat then Ok (string_of_list_ascii (rev out))
      else Raise ValueError
  | String c s' =>
      if Ascii.eqb c "=" then
        if (2 <=? quad_pos)%nat then
          if (4 <=? quad_pos + S pads)%nat then Ok (string_of_list_ascii (rev out))
          else a2b_base64 s' quad_pos leftchar (S pads) out
        else a2b_base64 s' quad_pos leftchar pads out
      else
        match sextet c with
        | None => a2b_base64 s' quad_pos leftchar pads out
        | Some v =>
            match quad_pos with
            | 0%nat => a2b_base64 s' 1%nat v 0%nat out
            | 1%nat =>
                a2b_base64 s' 2%nat (Z.land v 15) 0%nat
                  (byte_of_Z (Z.lor (Z.shiftl leftchar 2) (Z.shiftr v 4)) :: out)
            | 2%nat =>
                a2b_base64 s' 3%nat (Z.land v 3) 0%nat
                  (byte_of_Z (Z.lor (Z.shiftl leftchar 4) (Z.shiftr v 2)) :: out)
            | _ =>
                a2b_base64 s' 0%nat 0 0%nat
                  (byte_of_Z (Z.lor (Z.shiftl leftchar 6) v) :: out)
            end
        end
  end.

Definition urlsafe_b64decode (s : str) : result bytes :=
  if all_ascii s then a2b_base64 s 0%nat 0 0%nat [] else Raise ValueError.

(** *** [bytes.decode("utf-8")] *)

Definition in_range (lo hi : nat) (c : ascii) : bool :=
  let n := nat_of_ascii c in (lo <=? n)%nat && (n <=? hi)%nat.

(** Well-formed UTF-8 (no overlong forms, no surrogates, nothing above
    U+10FFFF). *)
Fixpoint utf8_valid (fuel : nat) (s : string) : bool :=
  match fuel with
  | O => false
  | S fuel' =>
      match s with
      | EmptyString => true
      | String a s1 =>
          if is_ascii a then utf8_valid fuel' s1
          else
            match s1 with
            | EmptyString => false
            | String b s2 =>
                if in_range 194 223 a then in_range 128 191 b && utf8_valid fuel' s2
                else
                  match s2 with
                  | EmptyString => false
                  | String c s3 =>
                      if in_range 224 239 a then
                        (if in_range 224 224 a then in_range 160 191 b
                         else if in_range 237 237 a then in_range 128 159 b
                         else in_range 128 191 b)
                        && in_range 128 191 c && utf8_valid fuel' s3
                      else
                        match s3 with
                        | EmptyString => false
                        | String d s4 =>
                            in_range 240 244 a
                            && (if in_range 240 240 a then in_range 144 191 b
                                else if in_range 244 244 a then in_range 128 143 b
                                else in_range 128 191 b)
                            && in_range 128 191 c && in_range 128 191 d
                            && utf8_valid fuel' s4
                        end
                  end
            end
      end
  end.

Definition utf8_decode (b : bytes) : result str :=
  if utf8_valid (S (String.length b)) b then Ok b else Raise ValueError.

(** The UTF-8 form of a code point (surrogates included, in the same
    three-byte form, since a [str] may hold them). *)
Definition utf8_encode (cp : Z) : string :=
  let cont (z : Z) := byte_of_Z (Z.lor 128 (Z.land z 63)) in
  if cp <? 128 then String (byte_of_Z cp) ""
  else if cp <? 2048 then
    String (byte_of_Z (Z.lor 192 (Z.shiftr cp 6))) (String (cont cp) "")
  else if cp <? 65536 then
    String (byte_of_Z (Z.lor 224 (Z.shiftr cp 12)))
      (String (cont (Z.shiftr cp 6)) (String (cont cp) ""))
  else
    String (byte_of_Z (Z.lor 240 (Z.shiftr cp 18)))
      (String (cont (Z.shiftr cp 12))
         (String (cont (Z.shiftr cp 6)) (String (cont cp) ""))).

(** The code points of a [str], from its UTF-8 form. *)
Fixpoint code_points (fuel : nat) (s : string) : list Z :=
  match fuel with
  | O => []
  | S fuel' =>
      match s with
      | EmptyString => []
      | String a s1 =>
          let n := Z.of_nat (nat_of_ascii a) in
          let low (c : ascii) := Z.land (Z.of_nat (nat_of_ascii c)) 63 in
          if n <? 192 then n :: code_points fuel' s1
          else
            match s1 with
            | EmptyString => [n]
            | String b s2 =>
                if n <? 224 then
                  (Z.shiftl (Z.land n 31) 6 + low b) :: code_points fuel' s2
                else
                  match s2 with
                  | EmptyString => [n]
                  | String c s3 =>
                      if n <? 240 then
                        (Z.shiftl (Z.land n 15) 12 + Z.shiftl (low b) 6 + low c)
                        :: code_points fuel' s3
                      else
                        match s3 with
                        | EmptyString => [n]
                        | String d s4 =>
                            (Z.shiftl (Z.land n 7) 18 + Z.shiftl (low b) 12
                             + Z.shiftl (low c) 6 + low d)
                            :: code_points fuel' s4
                        end
                  end
            end
      end
  end.

(** *** Numbers: [int], [float] and their texts *)

(** The limits of a default CPython 3.11. *)
Definition int_max_str_digits : nat := 4300.
Definition recursion_limit : nat := 1000.

Fixpoint all_digits (s : string) : bool :=
  match s with
  | EmptyString => true
  | String c s' => is_digit c && all_digits s'
  end.

Fixpoint count_digits (s : string) : nat :=
  match s with
  | EmptyString => O
  | String c s' => if is_digit c then S (count_digits s') else count_digits s'
  end.

(** [repr(n)] for an [int], as [json.dumps] writes it. *)
Definition int_repr (n : Z) : result str :=
  let text := str_of_int n in
  if (int_max_str_digits <? count_digits text)%nat then Raise ValueError else Ok text.

(** The binary64 number nearest to [(-1)^neg * digits * 10^e10], as
    [float(text)] rounds (to nearest, ties to even).  [ndigits] bounds the
    number of digits of [digits]; it only serves to cut off exponents that
    overflow or underflow whatever the digits. *)
Definition float_of_decimal (neg : bool) (digits : Z) (ndigits e10 : Z) : spec_float :=
  match digits with
  | Zpos d =>
      if 310 <? ndigits + e10 then S754_infinity neg
      else if ndigits + e10 <? -330 then S754_zero neg
      else
        let num := if 0 <=? e10 then Z.to_pos (Zpos d * 10 ^ e10) else d in
        let den := if 0 <=? e10 then 1%positive else Z.to_pos (10 ^ (- e10)) in
        SFdiv 53 1024 (S754_finite neg num 0) (S754_finite false den 0)
  | _ => S754_zero neg
  end.

(** [d * 10^k] compared with [z * 2^b], exactly. *)
Definition compare_scaled (d k z b : Z) : comparison :=
  let lhs := d * 10 ^ (Z.max k 0) * 2 ^ (Z.max (- b) 0) in
  let rhs := z * 10 ^ (Z.max (- k) 0) * 2 ^ (Z.max b 0) in
  lhs ?= rhs.

(** [floor (m * 2^e / 10^k)]. *)
Definition floor_scaled (m e k : Z) : Z :=
  (m * 2 ^ (Z.max e 0) * 10 ^ (Z.max (- k) 0))
  / (2 ^ (Z.max (- e) 0) * 10 ^ (Z.max k 0)).

(** [floor (log10 (m * 2^e))], from an estimate by the binary logarithm
    corrected by exact comparisons. *)
Definition floor_log10 (m e : Z) : Z :=
  let est := ((Z.log2 m + e) * 30103) / 100000 in
  let up (g : Z) :=
    match compare_scaled 1 (g + 1) m e with Gt => g | _ => g + 1 end in
  let down (g : Z) :=
    match compare_scaled 1 g m e with Gt => g - 1 | _ => g end in
  up (up (down (down est))).

(** The shortest decimal that reads back as the float [m * 2^e], with [n]
    digits: [Some (d, k)] for the decimal [d * 10^k] when one of the two
    [n]-digit decimals around the float rounds to it, the nearer one if both
    do. *)
Definition shortest_with (m e e10 n : Z) : option (Z * Z) :=
  let k := e10 - n + 1 in
  let b := e - 2 in
  let boundary := (m =? 2 ^ 52) && (-1074 <? e) in
  let lo := 4 * m - (if boundary then 1 else 2) in
  let hi := 4 * m + 2 in
  let inside (d : Z) :=
    match compare_scaled d k lo b, compare_scaled d k hi b with
    | Gt, Lt => true
    | Eq, Lt | Gt, Eq => Z.even m
    | _, _ => false
    end in
  let d0 := floor_scaled m e k in
  let d1 := d0 + 1 in
  match inside d0, inside d1 with
  | true, false => Some (d0, k)
  | false, true => Some (d1, k)
  | true, true =>
      match compare_scaled (2 * d0 + 1) k (8 * m) b with
      | Gt => Some (d0, k)
      | Lt => Some (d1, k)
      | Eq => Some (if Z.even d0 then d0 else d1, k)
      end
  | false, false => None
  end.

Fixpoint shortest_from (fuel : nat) (m e e10 n : Z) : Z * Z :=
  match fuel with
  | O => (floor_scaled m e (e10 - 16), e10 - 16)
  | S fuel' =>
      match shortest_with m e e10 n with
      | Some dk => dk
      | None => shortest_from fuel' m e e10 (n + 1)
      end
  end.

(** A decimal text without its trailing zeros, and how many were dropped. *)
Fixpoint strip_zeros (s : string) : string * Z :=
  match s with
  | EmptyString => (EmptyString, 0)
  | String c s' =>
      match strip_zeros s' with
      | (EmptyString, z) =>
          if Ascii.eqb c "0" then (EmptyString, z + 1) else (String c EmptyString, z)
      | (rest, z) => (String c rest, z)
      end
  end.

(** [repr] of a positive float from its digits [ds] and the place [decpt]
    of the decimal point: plain notation when [-4 < decpt <= 16], else
    scientific with at least two exponent digits. *)
Definition format_repr (ds : string) (decpt : Z) : string :=
  let n := Z.of_nat (String.length ds) in
  if (decpt <=? -4) || (16 <? decpt) then
    let ex := decpt - 1 in
    let mant :=
      match ds with
      | String c EmptyString => ds
      | String c rest => String c (String "." rest)
      | EmptyString => ds
      end in
    let et := str_of_int (Z.abs ex) in
    (mant ++ "e" ++ (if (ex <? 0)%Z then "-" else "+")
          ++ (if (String.length et <? 2)%nat then "0" else "") ++ et)%string
  else if decpt <=? 0 then
    ("0." ++ str_repeat "0" (Z.to_nat (- decpt)) ++ ds)%string
  else if n <=? decpt then
    (ds ++ str_repeat "0" (Z.to_nat (decpt - n)) ++ ".0")%string
  else
    (substring 0 (Z.to_nat decpt) ds ++ "."
       ++ substring (Z.to_nat decpt) (Z.to_nat (n - decpt)) ds)%string.

(** [float.__repr__], with the names [json.dumps] gives the values that
    are not numbers. *)
Definition float_repr (f : spec_float) : str :=
  match f with
  | S754_nan => "NaN"
  | S754_infinity false => "Infinity"
  | S754_infinity true => "-Infinity"
  | S754_zero false => "0.0"
  | S754_zero true => "-0.0"
  | S754_finite s m e =>
      let (d, k) := shortest_from 17 (Zpos m) e (floor_log10 (Zpos m) e) 1 in
      let (ds, dropped) := strip_zeros (str_of_int d) in
      ((if s then "-" else "")
         ++ format_repr ds (Z.of_nat (String.length ds) + dropped + k))%string
  end.

(** *** [json.loads] *)

Definition is_json_space (c : ascii) : bool :=
  Ascii.eqb c " " || Ascii.eqb c tab || Ascii.eqb c LF || Ascii.eqb c CR.

Fixpoint skip_space (s : string) : string :=
  match s with
  | String c s' => if is_json_space c then skip_space s' else s
  | EmptyString => s
  end.

Definition hex_value (c : ascii) : option Z :=
  let n := Z.of_nat (nat_of_ascii c) in
  if (48 <=? n) && (n <=? 57) then Some (n - 48)
  else if (65 <=? n) && (n <=? 70) then Some (n - 55)
  else if (97 <=? n) && (n <=? 102) then Some (n - 87)
  else None.

(** The four hexadecimal digits of a [\uXXXX] escape and what follows. *)
Definition hex4 (s : string) : option (Z * string) :=
  match s with
  | String a (String b (String c (String d rest))) =>
      match hex_value a, hex_value b, hex_value c, hex_value d with
      | Some x, Some y, Some z, Some w => Some (4096 * x + 256 * y + 16 * z + w, rest)
      | _, _, _, _ => None
      end
  | _ => None
  end.

(** The character a one-letter escape stands for. *)
Definition simple_escape (c : ascii) : option ascii :=
  if Ascii.eqb c dquote || Ascii.eqb c "\" || Ascii.eqb c "/" then Some c
  else if Ascii.eqb c "b" then Some (ascii_of_nat 8)
  else if Ascii.eqb c "f" then Some (ascii_of_nat 12)
  else if Ascii.eqb c "n" then Some LF
  else if Ascii.eqb c "r" then Some CR
  else if Ascii.eqb c "t" then Some tab
  else None.

(** [scanstring] in strict mode, after the opening quote: the string and
    what follows its closing quote.  A high surrogate escape directly
    followed by a low one makes one character. *)
Fixpoint scan_string (fuel : nat) (s acc : string) : result (string * string) :=
  match fuel with
  | O => Raise ValueError
  | S fuel' =>
      match s with
      | EmptyString => Raise ValueError
      | String c s' =>
          if Ascii.eqb c dquote then Ok (acc, s')
          else if Ascii.eqb c "\" then
            match s' with
            | EmptyString => Raise ValueError
            | String e s'' =>
                if Ascii.eqb e "u" then
                  match hex4 s'' with
                  | None => Raise ValueError
                  | Some (hi, rest) =>
                      let single := scan_string fuel' rest (acc ++ utf8_encode hi) in
                      if (55296 <=? hi) && (hi <=? 56319) then
                        match rest with
                        | String b1 (String b2 rest') =>
                            if Ascii.eqb b1 "\" && Ascii.eqb b2 "u" then
                              match hex4 rest' with
                              | None => Raise ValueError
                              | Some (lo, rest'') =>
                                  if (56320 <=? lo) && (lo <=? 57343) then
                                    scan_string fuel' rest''
                                      (acc ++ utf8_encode
                                                (65536 + Z.shiftl (hi - 55296) 10 + (lo - 56320)))
                                  else single
                              end
                            else single
                        | _ => single
                        end
                      else single
                  end
                else
                  match simple_escape e with
                  | Some x => scan_string fuel' s'' (acc ++ String x "")
                  | None => Raise ValueError
                  end
            end
          else if (nat_of_ascii c <? 32)%nat then Raise ValueError
          else scan_string fuel' s' (acc ++ String c "")
      end
  end.

(** The number at the head of [s], as the scanner matches it: an optional
    minus, then 0 or a run of digits not starting with 0, then optionally a
    point with digits, then optionally [e] or [E] with a signed run of
    digits.  It is an [int] without fraction and exponent, else a
    [float]. *)
Definition scan_number (s : string) : result (value * string) :=
  let (neg, s1) :=
    match s with
    | String "-" s' => (true, s')
    | _ => (false, s)
    end in
  let (ip, s2) :=
    match s1 with
    | String "0" s' => ("0", s')
    | _ => span_digits s1
    end in
  if (String.length ip =? 0)%nat then Raise ValueError
  else
    let (fp, s3) :=
      match s2 with
      | String "." s' =>
          let (ds, rest) := span_digits s' in
          if (String.length ds =? 0)%nat then (EmptyString, s2) else (ds, rest)
      | _ => (EmptyString, s2)
      end in
    let '(has_exp, ev, s4) :=
      match s3 with
      | String c s' =>
          if Ascii.eqb c "e" || Ascii.eqb c "E" then
            let (eneg, s'') :=
              match s' with
              | String "-" t => (true, t)
              | String "+" t => (false, t)
              | _ => (false, s')
              end in
            let (ds, rest) := span_digits s'' in
            if (String.length ds =? 0)%nat then (false, 0, s3)
            else (true, if eneg then - decimal ds else decimal ds, rest)
          else (false, 0, s3)
      | _ => (false, 0, s3)
      end in
    if negb has_exp && (String.length fp =? 0)%nat then
      if (int_max_str_digits <? String.length ip)%nat then Raise ValueError
      else Ok (VInt (if neg then - decimal ip else decimal ip), s4)
    else
      let digits := (ip ++ fp)%string in
      Ok (VFloat (float_of_decimal neg (decimal digits)
                    (Z.of_nat (String.length digits))
                    (ev - Z.of_nat (String.length fp))), s4).

(** The scanner.  [fuel] bounds the steps (the length of the text is
    enough), [depth] the nesting of arrays and objects that is left before
    [RecursionError].  [scan_items] reads an array after its first value,
    [scan_pairs] an object from a key on. *)
Fixpoint scan_once (fuel depth : nat) (s : string) {struct fuel}
  : result (value * string) :=
  match fuel with
  | O => Raise ValueError
  | S fuel' =>
      match s with
      | EmptyString => Raise ValueError
      | String c s' =>
          if Ascii.eqb c dquote then
            r <- scan_string fuel' s' "" ;; Ok (VStr (fst r), snd r)
          else if Ascii.eqb c "{" then
            match depth with
            | O => Raise RecursionError
            | S depth' =>
                match skip_space s' with
                | String "}" rest => Ok (VDict [], rest)
                | body => r <- scan_pairs fuel' depth' body [] ;; Ok (VDict (fst r), snd r)
                end
            end
          else if Ascii.eqb c "[" then
            match depth with
            | O => Raise RecursionError
            | S depth' =>
                match skip_space s' with
                | String "]" rest => Ok (VList [], rest)
                | body =>
                    first <- scan_once fuel' depth' body ;;
                    r <- scan_items fuel' depth' (snd first) [fst first] ;;
                    Ok (VList (fst r), snd r)
                end
            end
          else
            match strip_prefix "null" s, strip_prefix "true" s, strip_prefix "false" s with
            | Some rest, _, _ => Ok (VNone, rest)
            | _, Some rest, _ => Ok (VBool true, rest)
            | _, _, Some rest => Ok (VBool false, rest)
            | _, _, _ =>
                match strip_prefix "NaN" s, strip_prefix "Infinity" s,
                      strip_prefix "-Infinity" s with
                | Some rest, _, _ => Ok (VFloat S754_nan, rest)
                | _, Some rest, _ => Ok (VFloat (S754_infinity false), rest)
                | _, _, Some rest => Ok (VFloat (S754_infinity true), rest)
                | _, _, _ => scan_number s
                end
            end
      end
  end
with scan_items (fuel depth : nat) (s : string) (acc : list value) {struct fuel}
  : result (list value * string) :=
  match fuel with
  | O => Raise ValueError
  | S fuel' =>
      match skip_space s with
      | String "]" rest => Ok (acc, rest)
      | String "," rest =>
          next <- scan_once fuel' depth (skip_space rest) ;;
          scan_items fuel' depth (snd next) (acc ++ [fst next])
      | _ => Raise ValueError
      end
  end
with scan_pairs (fuel depth : nat) (s : string) (acc : dict) {struct fuel}
  : result (dict * string) :=
  match fuel with
  | O => Raise ValueError
  | S fuel' =>
      match s with
      | String c s' =>
          if Ascii.eqb c dquote then
            key <- scan_string fuel' s' "" ;;
            match skip_space (snd key) with
            | String ":" rest =>
                item <- scan_once fuel' depth (skip_space rest) ;;
                let acc' := dict_set (VStr (fst key)) (fst item) acc in
                match skip_space (snd item) with
                | String "}" rest' => Ok (acc', rest')
                | String "," rest' => scan_pairs fuel' depth (skip_space rest') acc'
                | _ => Raise ValueError
                end
            | _ => Raise ValueError
            end
          else Raise ValueError
      | EmptyString => Raise ValueError
      end
  end.

(** [json.loads(s)] for a [str]: one value, with blanks around it at
    most. *)
Definition json_loads (s : str) : result value :=
  r <- scan_once (S (String.length s)) recursion_limit (skip_space s) ;;
  match skip_space (snd r) with
  | EmptyString => Ok (fst r)
  | _ => Raise ValueError
  end.

(** *** [json.dumps] *)

Definition hex_digit (z : Z) : ascii :=
  ascii_of_nat (Z.to_nat (if z <? 10 then 48 + z else 87 + z)).

(** [\uXXXX] for a code unit. *)
Definition u_escape (z : Z) : string :=
  String "\" (String "u"
    (String (hex_digit (Z.land (Z.shiftr z 12) 15))
       (String (hex_digit (Z.land (Z.shiftr z 8) 15))
          (String (hex_digit (Z.land (Z.shiftr z 4) 15))
             (String (hex_digit (Z.land z 15)) ""))))).

(** One character of a string, as [ensure_ascii] writes it. *)
Definition escape_char (cp : Z) : string :=
  if cp =? 34 then String "\" (String dquote "")
  else if cp =? 92 then "\\"
  else if cp =? 10 then "\n"
  else if cp =? 13 then "\r"
  else if cp =? 9 then "\t"
  else if cp =? 8 then "\b"
  else if cp =? 12 then "\f"
  else if (32 <=? cp) && (cp <=? 126) then String (byte_of_Z cp) ""
  else if cp <? 65536 then u_escape cp
  else
    let v := cp - 65536 in
    (u_escape (55296 + Z.shiftr v 10) ++ u_escape (56320 + Z.land v 1023))%string.

(** A [str] between double quotes. *)
Definition quote (s : str) : string :=
  (String dquote (concat "" (map escape_char (code_points (String.length s) s)))
     ++ String dquote "")%string.

(** The text of a dict key: strings as they are, the other scalars by
    their JSON text. *)
Definition key_text (k : value) : result str :=
  match k with
  | VStr s => Ok s
  | VFloat f => Ok (float_repr f)
  | VBool true => Ok "true"
  | VBool false => Ok "false"
  | VNone => Ok "null"
  | VInt z => int_repr z
  | _ => Raise TypeError
  end.

(** [json.dumps(v)] with the default separators; [depth] is the nesting
    left before [RecursionError]. *)
Fixpoint dumps (depth : nat) (v : value) {struct v} : result str :=
  match v with
  | VNone => Ok "null"
  | VBool true => Ok "true"
  | VBool false => Ok "false"
  | VInt z => int_repr z
  | VFloat f => Ok (float_repr f)
  | VStr s => Ok (quote s)
  | VList l =>
      match depth with
      | O => Raise RecursionError
      | S depth' =>
          body <- (fix members (l : list value) (first : bool) : result string :=
                     match l with
                     | [] => Ok EmptyString
                     | x :: l' =>
                         t <- dumps depth' x ;;
                         rest <- members l' false ;;
                         Ok ((if first then "" else ", ") ++ t ++ rest)%string
                     end) l true ;;
          Ok ("[" ++ body ++ "]")%string
      end
  | VDict d =>
      match depth with
      | O => Raise RecursionError
      | S depth' =>
          body <- (fix items (d : list (value * value)) (first : bool) : result string :=
                     match d with
                     | [] => Ok EmptyString
                     | (k, x) :: d' =>
                         kt <- key_text k ;;
                         t <- dumps depth' x ;;
                         rest <- items d' false ;;
                         Ok ((if first then "" else ", ") ++ quote kt ++ ": " ++ t ++ rest)%string
                     end) d true ;;
          Ok ("{" ++ body ++ "}")%string
      end
  end.

Definition json_dumps (v : value) : result str := dumps recursion_limit v.

(** *** [int(x)] *)

Definition is_int_space (c : ascii) : bool :=
  let n := nat_of_ascii c in ((9 <=? n) && (n <=? 13) || (n =? 32))%nat.

Fixpoint lstrip_space (s : string) : string :=
  match s with
  | String c s' => if is_int_space c then lstrip_space s' else s
  | EmptyString => s
  end.

(** Digits with single underscores between them, then blanks only.
    [prev] tells whether the last character read was a digit. *)
Fixpoint int_body (s : string) (prev : bool) (acc : Z) : option Z :=
  match s with
  | EmptyString => if prev then Some acc else None
  | String c s' =>
      if is_digit c then int_body s' true (10 * acc + digit_value c)
      else if Ascii.eqb c "_" then
        if prev then
          match s' with
          | String c' _ => if is_digit c' then int_body s' false acc else None
          | EmptyString => None
          end
        else None
      else if is_int_space c && prev then
        match lstrip_space s' with
        | EmptyString => Some acc
        | _ => None
        end
      else None
  end.

(** [int(x)]: numbers are truncated towards zero, strings are read in base
    ten.  Only the ASCII blanks and digits are known here. *)
Definition int_of_value (v : value) : result Z :=
  match v with
  | VInt z => Ok z
  | VBool b => Ok (int_of_bool b)
  | VFloat S754_nan => Raise ValueError
  | VFloat (S754_infinity _) => Raise OverflowError
  | VFloat (S754_zero _) => Ok 0
  | VFloat (S754_finite s m e) =>
      let mag := if 0 <=? e then Zpos m * 2 ^ e else Zpos m / 2 ^ (- e) in
      Ok (if s then - mag else mag)
  | VStr text =>
      if (int_max_str_digits <? count_digits text)%nat then Raise ValueError
      else
        let t := lstrip_space text in
        let (neg, body) :=
          match t with
          | String "-" t' => (true, t')
          | String "+" t' => (false, t')
          | _ => (false, t)
          end in
        match int_body body false 0 with
        | Some z => Ok (if neg then - z else z)
        | None => Raise ValueError
        end
  | _ => Raise TypeError
  end.

(** The reference library. *)
Definition lib : PyLib :=
  Build_PyLib urlsafe_b64decode utf8_decode json_loads json_dumps int_of_value
    int_max_str_digits recursion_limit.

End Ref.

(* ================================================================== *)
(** ** A scripted host *)

(** A world made of a table of programs and a feed of udev events.  A
    program absent from the table cannot be started.  Reading an event
    installs the table that comes with it (the device changed, then udev
    said so); an exhausted feed reads as end of file. *)
Module Sim.

Definition table : Type := list (list string * result completed).

Record world : Type := World {
  programs : table;
  events : list (bytes * table)
}.

Fixpoint argv_eqb (a b : list string) : bool :=
  match a, b with
  | [], [] => true
  | x :: a', y :: b' => String.eqb x y && argv_eqb a' b'
  | _, _ => false
  end.

Fixpoint lookup (argv : list string) (t : table) : result completed :=
  match t with
  | [] => Raise OSError
  | (a, r) :: t' => if argv_eqb argv a then r else lookup argv t'
  end.

Definition run (argv : list string) (w : world) : result completed * world :=
  (lookup argv (programs w), w).

Definition popen (argv : list string) (w : world) : result unit * world :=
  (Ok tt, w).

Definition readline (w : world) : bytes * world :=
  match events w with
  | [] => (EmptyString, w)
  | (line, t) :: rest => (line, World t rest)
  end.

Definition host : Host world := Build_Host world run popen readline.

(** Lines of text, each ended by a line feed. *)
Fixpoint unlines (ls : list string) : string :=
  match ls with
  | [] => EmptyString
  | l :: ls' => (l ++ String LF (unlines ls'))%string
  end.

(** A text written with apostrophes where JSON has double quotes. *)
Fixpoint json_text (s : string) : string :=
  match s with
  | EmptyString => EmptyString
  | String c s' => String (if Ascii.eqb c "'" then dquote else c) (json_text s')
  end.

End Sim.

(* ================================================================== *)
(** ** Vocabulary of the statements *)

(** A decoded child of an [sss] policy: its pin name and its payload. *)
Abbreviation child := (string * value)%type (only parsing).

Section Vocabulary.

Context {L : PyLib}.

(** Lines 19-20: the JSON value a protected header holds. *)
Definition header_object (protected_header : value) : result value :=
  raw <- b64_decode protected_header ;;
  header <- utf8_decode raw ;;
  json_loads header.

(** Padding by hand: append [=] until the length is a multiple of four. *)
Fixpoint pad_manually (fuel : nat) (s : str) : str :=
  match fuel with
  | O => s
  | S fuel' =>
      if (py_len s mod 4 =? 0)%nat then s
      else pad_manually fuel' (s ++ "=")%string
  end.


(** [jwe] decodes, at depth [n], to a descriptor whose pin is named
    [fst c] and whose payload under that name is [snd c]. *)
Definition decodes_to (n : nat) (jwe : value) (c : child) : Prop :=
  exists subconf : dict,
    get_clevis_config_from_jwe n jwe = Ok (Some subconf) /\
    dict_find (VStr "pin") subconf = Some (VStr (fst c)) /\
    dict_find (VStr (fst c)) subconf = Some (snd c).

(** The pin names of the children, each once, in order of first
    occurrence.  [seen] holds the names met so far. *)
Fixpoint first_occurrences (seen names : list str) : list str :=
  match names with
  | [] => []
  | p :: names' =>
      if existsb (String.eqb p) seen
      then first_occurrences seen names'
      else p :: first_occurrences (p :: seen) names'
  end.

(** The payloads of the children whose pin is [p], in input order. *)
Definition payloads_of (p : str) (children : list child) : list value :=
  map snd (filter (fun c => String.eqb (fst c) p) children).

(** The grouped mapping of the specification: pin name to the sequence of
    that pin's payloads. *)
Definition group_by_pin (children : list child) : dict :=
  map (fun p => (VStr p, VList (payloads_of p children)))
      (first_occurrences [] (map fst children)).

(** The dict whose keys are the strings [names], in that order, the value
    under [q] being [F q]. *)
Definition keyed (F : str -> value) (names : list str) : dict :=
  map (fun q => (VStr q, F q)) names.

(** The descriptor of an [sss] policy with threshold [t] and grouped
    children [pins]. *)
Definition sss_descriptor (t : value) (pins : dict) : dict :=
  [ (VStr "pin", VStr "sss");
    (VStr "sss", VDict [ (VStr "t", t); (VStr "pins", VDict pins) ]) ].

(** The states emitted by a run are pairwise different from one to the
    next. *)
Fixpoint no_repeat (states : list value) : Prop :=
  match states with
  | a :: ((b :: _) as rest) => py_ne b a = true /\ no_repeat rest
  | _ => True
  end.

(** The entries [info] builds: a slot number alone, or with the text of a
    policy. *)
Inductive entry_shaped : value -> Prop :=
| shaped_bare (slot : Z) : entry_shaped (VDict (bare_entry slot))
| shaped_clevis (slot : Z) (config : str) :
    entry_shaped (VDict (clevis_entry slot config)).

(** The states [info] builds. *)
Definition state_shaped (s : value) : Prop :=
  exists (v m : Z) (entries : list value),
    s = state_dict v entries m /\ Forall entry_shaped entries.

(** The line [monitor] writes for a state. *)
Definition emitted_line (text : str) : str := (text ++ String LF "")%string.

(** [lines] are the lines written for [states], one each, in order. *)
Definition lines_of (states : list value) (lines : list str) : Prop :=
  Forall2 (fun s l => exists text, json_dumps s = Ok text /\ l = emitted_line text)
          states lines.

End Vocabulary.

(* ================================================================== *)
(** ** Concrete inputs *)

Module Examples.

Import Sim.

(** Protected headers, base64url without padding.  [tang1] and [tang2]
    hold [{"alg":"ECDH-ES","clevis":{"pin":"tang","tang":{"url":...}}}]. *)
Definition tang1 : str :=
  "eyJhbGciOiJFQ0RILUVTIiwiY2xldmlzIjp7InBpbiI6InRhbmciLCJ0YW5nIjp7InVybCI6Imh0dHA6Ly90YW5nMS5leGFtcGxlIn19fQ".
Definition tang2 : str :=
  "eyJhbGciOiJFQ0RILUVTIiwiY2xldmlzIjp7InBpbiI6InRhbmciLCJ0YW5nIjp7InVybCI6Imh0dHA6Ly90YW5nMi5leGFtcGxlIn19fQ".

(** Compact JWEs: header, no encrypted key, then iv, ciphertext and tag. *)
Definition jwe1 : str := (tang1 ++ "..aXY.Y3Q.dGFn")%string.
Definition jwe2 : str := (tang2 ++ "..aXY.Y3Q.dGFn")%string.

(** [{"alg":"dir","clevis":{"pin":"sss","sss":{"t":2,"jwe":[jwe1,jwe2]}}}]. *)
Definition sss12 : str :=
  "eyJhbGciOiJkaXIiLCJjbGV2aXMiOnsicGluIjoic3NzIiwic3NzIjp7InQiOjIsImp3ZSI6WyJleUpoYkdjaU9pSkZRMFJJTFVWVElpd2lZMnhsZG1seklqcDdJbkJwYmlJNkluUmhibWNpTENKMFlXNW5JanA3SW5WeWJDSTZJbWgwZEhBNkx5OTBZVzVuTVM1bGVHRnRjR3hsSW4xOWZRLi5hWFkuWTNRLmRHRm4iLCJleUpoYkdjaU9pSkZRMFJJTFVWVElpd2lZMnhsZG1seklqcDdJbkJwYmlJNkluUmhibWNpTENKMFlXNW5JanA3SW5WeWJDSTZJbWgwZEhBNkx5OTBZVzVuTWk1bGVHRnRjR3hsSW4xOWZRLi5hWFkuWTNRLmRHRm4iXX19fQ".

(** [{"clevis":{}}], [{"clevis":null}], [{"alg":"dir"}]. *)
Definition empty_clevis : str := "eyJjbGV2aXMiOnt9fQ".
Definition null_clevis : str := "eyJjbGV2aXMiOm51bGx9".
Definition no_clevis : str := "eyJhbGciOiJkaXIifQ".

(** [{"clevis":{"pin":"pin"}}], [{"clevis":{"pin":["x"]}}] and
    [{"clevis":{"pin":"tpm2","tpm2":{"hash":"sha256"}}}]. *)
Definition pin_pin : str := "eyJjbGV2aXMiOnsicGluIjoicGluIn19".
Definition pin_list : str := "eyJjbGV2aXMiOnsicGluIjpbIngiXX19".
Definition pin_tpm2 : str :=
  "eyJjbGV2aXMiOnsicGluIjoidHBtMiIsInRwbTIiOnsiaGFzaCI6InNoYTI1NiJ9fX0".

(** The base64url form of the eight bytes [not json]. *)
Definition not_json : str := "bm90IGpzb24".

(** The payloads of [tang1] and [tang2]. *)
Definition cfg1 : value := VDict [ (VStr "url", VStr "http://tang1.example") ].
Definition cfg2 : value := VDict [ (VStr "url", VStr "http://tang2.example") ].

Definition dev : str := "/dev/sda5".

(** A version 2 dump with key slots 0 and 2 and no token. *)
Definition dump_slots : bytes :=
  unlines [ "LUKS header information";
            "Version:        2";
            "Keyslots:";
            "  0: luks2";
            String tab "Key:        512 bits";
            "  2: luks2";
            String tab "Key:        512 bits";
            "Tokens:";
            "Digests:";
            "  0: pbkdf2" ].

(** The same dump with token 0, a Clevis token. *)
Definition dump_token : bytes :=
  unlines [ "LUKS header information";
            "Version:        2";
            "Keyslots:";
            "  0: luks2";
            String tab "Key:        512 bits";
            "  2: luks2";
            String tab "Key:        512 bits";
            "Tokens:";
            "  0: clevis";
            String tab "Keyslot:    2";
            "Digests:";
            "  0: pbkdf2" ].

(** What [cryptsetup token export] prints for a token over key slot 2
    whose protected header is [protected]. *)
Definition token_json (protected : str) : bytes :=
  (json_text "{'type':'clevis','keyslots':['2'],'jwe':{'ciphertext':'Y3Q','encrypted_key':'','iv':'aXY','protected':'"
     ++ protected ++ json_text "','tag':'dGFn'}}")%string.

(** A version 1 dump with key slot 0 enabled. *)
Definition dump_v1 : bytes :=
  unlines [ "LUKS header information for /dev/sda5";
            "";
            "Version:        1";
            "Cipher name:    aes";
            "Key Slot 0: ENABLED";
            String tab "Iterations:             1000000";
            "Key Slot 1: DISABLED" ].

Definition luksDump : list string := [ "cryptsetup"; "luksDump"; dev ].
Definition luksmeta_load0 : list string :=
  [ "luksmeta"; "load"; "-d"; dev; "-s"; "0"; "-u"; clevis_uuid ].
Definition token_export : list string :=
  [ "cryptsetup"; "token"; "export"; dev; "--token-id"; "0" ].
Definition udevadm_path : list string := [ "udevadm"; "info"; "-q"; "path"; dev ].

Definition sys_path : bytes := "/devices/pci0000:00/0000:00:1f.2/ata1/host0/block/sda/sda5".

(** The device with two key slots and no token. *)
Definition table_slots : table :=
  [ (luksDump, Ok (Completed 0 dump_slots));
    (udevadm_path, Ok (Completed 0 (sys_path ++ String LF "")%string)) ].

(** The device once a tang token protects key slot 2. *)
Definition table_tang : table :=
  [ (luksDump, Ok (Completed 0 dump_token));
    (token_export, Ok (Completed 0 (token_json tang1)));
    (udevadm_path, Ok (Completed 0 (sys_path ++ String LF "")%string)) ].

(** The device with a token whose protected header is not JSON. *)
Definition table_broken : table :=
  [ (luksDump, Ok (Completed 0 dump_token));
    (token_export, Ok (Completed 0 (token_json not_json))) ].

(** A version 1 device whose slot 0 has the JWE [jwe1] in LUKSMeta. *)
Definition table_legacy : table :=
  [ (luksDump, Ok (Completed 0 dump_v1));
    (luksmeta_load0, Ok (Completed 0 jwe1)) ].

(** The same with a JWE whose protected header is not JSON. *)
Definition table_legacy_broken : table :=
  [ (luksDump, Ok (Completed 0 dump_v1));
    (luksmeta_load0, Ok (Completed 0 (not_json ++ "..aXY.Y3Q.dGFn")%string)) ].

(** A device that is not a LUKS container: [cryptsetup] exits with 1. *)
Definition table_plain : table :=
  [ (luksDump, Ok (Completed 1 EmptyString)) ].

(** A machine without [cryptsetup]. *)
Definition table_bare : table := [].

Definition world_slots : world := World table_slots [].
Definition world_tang : world := World table_tang [].
Definition world_broken : world := World table_broken [].
Definition world_plain : world := World table_plain [].
Definition world_bare : world := World table_bare [].
Definition world_legacy : world := World table_legacy [].
Definition world_legacy_broken : world := World table_legacy_broken [].

(** A session: the device starts with two bare slots; an event for
    another disk arrives; an event for this disk arrives with nothing
    changed; then the token is added and udev reports it twice. *)
Definition change_event : bytes :=
  ("UDEV  [1024.5] change   " ++ sys_path ++ " (block)")%string.
Definition other_event : bytes :=
  "UDEV  [1000.1] change   /devices/virtual/block/loop0 (block)".

Definition world_session : world :=
  World table_slots
    [ (other_event, table_tang);
      (change_event, table_slots);
      (change_event, table_tang);
      (change_event, table_tang) ].

End Examples.

(* ================================================================== *)
(** ** Vocabulary of the further properties *)

(** [v] is a JSON object. *)
Definition is_dict (v : value) : bool :=
  match v with
  | VDict _ => true
  | _ => false
  end.

(** [s] has no ["."]. *)
Fixpoint dotless (s : string) : bool :=
  match s with
  | EmptyString => true
  | String c s' => negb (Ascii.eqb c ".") && dotless s'
  end.

(** [s] is made of decimal digits. *)
Fixpoint digits_only (s : string) : bool :=
  match s with
  | EmptyString => true
  | String c s' => is_digit c && digits_only s'
  end.

(** The number of payloads a grouped mapping holds, over all its pins. *)
Fixpoint payload_count (pins : list (value * value)) : nat :=
  match pins with
  | [] => O
  | (_, VList payloads) :: pins' => (List.length payloads + payload_count pins')%nat
  | _ :: pins' => payload_count pins'
  end.

(** [entry["Index"]["v"]], when it is there and an [int]. *)
Definition entry_index (entry : value) : option Z :=
  match getitem entry "Index" with
  | Ok index =>
      match getitem index "v" with
      | Ok (VInt slot) => Some slot
      | _ => None
      end
  | Raise _ => None
  end.

(** [st] with [entry] stored under [slot] unless the slot has an entry:
    lines 80-81. *)
Definition with_new_slot (slot : Z) (entry : value) (st : scan_state) : scan_state :=
  if slots_mem slot (slots st) then st
  else Scan (slots st ++ [(slot, entry)]) (version st) (max_slots st)
            (in_luks2_slot_section st) (in_luks2_token_section st).

Section Events.

Context {W : Type} {H : Host W}.

(** None of the next [n] lines of the event feed contains [path]. *)
Fixpoint quiet (n : nat) (path : bytes) (w : W) : Prop :=
  match n with
  | O => True
  | S n' =>
      let (line, w') := popen_readline w in
      contains line path = false /\ quiet n' path w'
  end.

(** The world after [n] lines of the event feed were read. *)
Fixpoint after_reads (n : nat) (w : W) : W :=
  match n with
  | O => w
  | S n' => after_reads n' (snd (popen_readline w))
  end.

End Events.

(** Further inputs. *)
Module Cases.

Import Sim.

(** The JSON texts [[1]] and [{"clevis":"abc"}]. *)
Definition json_list : str := "WzFd".
Definition clevis_text : str := "eyJjbGV2aXMiOiJhYmMifQ".

(** [{"clevis":{"pin":"tang","note":1}}]. *)
Definition tang_alone : str := "eyJjbGV2aXMiOnsicGluIjoidGFuZyIsIm5vdGUiOjF9fQ".

(** An sss policy whose only child has the header [{"alg":"dir"}]. *)
Definition sss_child_none : str :=
  "eyJjbGV2aXMiOnsicGluIjoic3NzIiwic3NzIjp7InQiOjEsImp3ZSI6WyJleUpoYkdjaU9pSmthWElpZlEuLmFYWS5ZM1EuZEdGbiJdfX19".

(** An sss policy without threshold: [{"clevis":{"pin":"sss","sss":{"jwe":[]}}}]. *)
Definition sss_no_threshold : str := "eyJjbGV2aXMiOnsicGluIjoic3NzIiwic3NzIjp7Imp3ZSI6W119fX0".

(** A version 1 device whose slot 0 has no Clevis data: [luksmeta] exits
    with 2. *)
Definition world_legacy_empty : world :=
  World [ (Examples.luksDump, Ok (Completed 0 Examples.dump_v1));
          (Examples.luksmeta_load0, Ok (Completed 2 EmptyString)) ] [].

(** A device whose token 0 cannot be exported. *)
Definition world_token_lost : world :=
  World [ (Examples.luksDump, Ok (Completed 0 Examples.dump_token));
          (Examples.token_export, Ok (Completed 1 EmptyString)) ] [].

(** A device whose token 0 is of another type. *)
Definition world_token_foreign : world :=
  World [ (Examples.luksDump, Ok (Completed 0 Examples.dump_token));
          (Examples.token_export,
           Ok (Completed 0 (json_text "{'type':'luks2-keyring','keyslots':['2']}"))) ] [].

(** A device that [udevadm] does not know. *)
Definition world_no_udev : world :=
  World [ (Examples.udevadm_path, Ok (Completed 4 EmptyString)) ] [].

(** A device that [udevadm] knows and [cryptsetup] cannot be run on. *)
Definition world_no_cryptsetup : world :=
  World [ (Examples.udevadm_path,
           Ok (Completed 0 (Examples.sys_path ++ String LF EmptyString)%string)) ] [].

(** A device that [udevadm] knows, with the token of [table_broken]. *)
Definition world_broken_token : world :=
  World ((Examples.udevadm_path,
          Ok (Completed 0 (Examples.sys_path ++ String LF EmptyString)%string))
         :: Examples.table_broken) [].

(** Three events for other disks. *)
Definition world_elsewhere : world :=
  World Examples.table_slots
    [ (Examples.other_event, Examples.table_tang);
      (Examples.other_event, Examples.table_tang);
      (Examples.other_event, Examples.table_tang) ].

End Cases.

(* ================================================================== *)
(** ** Proof tools *)

(** Case analysis on every test of a computation in [H], outermost
    first. *)
Ltac mcases H :=
  unfold mbind, lift, ret in H;
  repeat match type of H with
         | context [match ?x with _ => _ end] => destruct x eqn:?
         end.

(** The same, innermost first. *)
Ltac mcases_in H :=
  unfold mbind, lift, ret in H;
  repeat match type of H with
         | context [match ?x with _ => _ end] =>
             lazymatch x with
             | context [match _ with _ => _ end] => fail
             | _ => destruct x eqn:?
             end
         end.


(* ================================================================== *)
(** ** Facts about the builtins *)

Lemma append_assoc (a b c : string) : ((a ++ b) ++ c = a ++ (b ++ c))%string.
Proof.
  induction a as [|x a IH]; simpl; [reflexivity|].
  now rewrite IH.
Qed.

Lemma append_empty_r (a : string) : (a ++ "" = a)%string.
Proof.
  induction a as [|x a IH]; simpl; [reflexivity|].
  now rewrite IH.
Qed.

Lemma py_len_pad (s : str) : py_len (s ++ "=")%string = S (py_len s).
Proof.
  induction s as [|c s IH]; simpl; [reflexivity|].
  destruct (is_continuation c); now rewrite IH.
Qed.

(** Equality with a string literal holds for that string only. *)
Lemma py_eq_str (v : value) (s : str) : py_eq v (VStr s) = true -> v = VStr s.
Proof.
  destruct v; simpl; try discriminate.
  intros E. apply String.eqb_eq in E. now subst.
Qed.

Lemma py_eq_str_refl (s : str) : py_eq (VStr s) (VStr s) = true.
Proof. simpl. apply String.eqb_refl. Qed.

Lemma bind_ok {A B : Type} (r : result A) (k : A -> result B) (a : A) :
  r = Ok a -> bind r k = k a.
Proof. intros ->. reflexivity. Qed.

Lemma bind_raise {A B : Type} (r : result A) (k : A -> result B) (e : exn) :
  r = Raise e -> bind r k = Raise e.
Proof. intros ->. reflexivity. Qed.

(** A loop whose body succeeds wherever another body does succeeds
    wherever the loop of that body does, with the same result. *)
Lemma for_each_ext_ok {A S : Type} (f g : S -> A -> result S) (xs : list A) :
  (forall acc x r, f acc x = Ok r -> g acc x = Ok r) ->
  forall acc r, for_each f xs acc = Ok r -> for_each g xs acc = Ok r.
Proof.
  intros Hfg. induction xs as [|x xs IH]; intros acc r; [trivial|].
  cbn [for_each]. destruct (f acc x) as [acc'|e] eqn:E; [|discriminate].
  rewrite (Hfg _ _ _ E). cbn [bind]. apply IH.
Qed.

(* ================================================================== *)
(** ** The policy decoder *)

Section DecoderFacts.

Context {L : PyLib}.

(** The number of padding characters, in [nat]. *)
Lemma padding_length_nat (s : str) :
  Z.to_nat (padding_length s) = ((4 - py_len s mod 4) mod 4)%nat.
Proof.
  unfold padding_length.
  pose proof (Nat.mod_upper_bound (py_len s) 4 ltac:(lia)) as Hb.
  rewrite <- (Nat2Z.id ((4 - py_len s mod 4) mod 4)).
  f_equal.
  rewrite Nat2Z.inj_mod, Nat2Z.inj_sub by lia.
  now rewrite Nat2Z.inj_mod.
Qed.

Lemma mod4_succ (k : nat) :
  (k mod 4 <> 0 -> (4 - k mod 4) mod 4 = S ((4 - S k mod 4) mod 4))%nat.
Proof.
  intros Hk.
  pose proof (Nat.mod_upper_bound k 4 ltac:(lia)) as Hb.
  assert (E : (S k mod 4 = (k mod 4 + 1) mod 4)%nat).
  { replace (S k) with (k + 1)%nat by lia.
    rewrite Nat.Div0.add_mod. reflexivity. }
  rewrite E.
  destruct (k mod 4)%nat as [|[|[|[|r]]]]; try lia; reflexivity.
Qed.

(** Padding by hand appends exactly the computed number of [=]. *)
Lemma pad_manually_spec (fuel : nat) (s : str) :
  ((4 - py_len s mod 4) mod 4 <= fuel)%nat ->
  pad_manually fuel s = (s ++ str_repeat "=" ((4 - py_len s mod 4) mod 4))%string.
Proof.
  revert s. induction fuel as [|fuel IH]; intros s Hf.
  - replace ((4 - py_len s mod 4) mod 4)%nat with 0%nat by lia.
    simpl. now rewrite append_empty_r.
  - cbn [pad_manually]. destruct (Nat.eqb_spec (py_len s mod 4) 0) as [E|E].
    + rewrite E. cbn. now rewrite append_empty_r.
    + pose proof (mod4_succ (py_len s) E) as Hs.
      rewrite IH by (rewrite py_len_pad; lia).
      rewrite py_len_pad, Hs. cbn [str_repeat].
      now rewrite append_assoc.
Qed.

Lemma py_len_repeat_pad (s : str) (n : nat) :
  py_len (s ++ str_repeat "=" n)%string = (py_len s + n)%nat.
Proof.
  revert s. induction n as [|n IH]; intros s; simpl.
  - rewrite append_empty_r. lia.
  - change (String "=" (str_repeat "=" n)) with ("=" ++ str_repeat "=" n)%string.
    rewrite <- append_assoc, IH, py_len_pad. lia.
Qed.

(** C7.  [b64_decode] appends [(4 - len % 4) % 4] characters [=] to its
    argument before it calls [urlsafe_b64decode]; the padded text is the
    one obtained by appending [=] by hand until the length is a multiple of
    four, its length is a multiple of four, and so [b64_decode] and the
    header decoding built on it return what decoding the manually padded
    text returns. *)
Theorem b64_decode_pads_to_multiple_of_four (s : str) :
  let padded := (s ++ str_repeat "=" (Z.to_nat ((4 - Z.of_nat (py_len s) mod 4) mod 4)))%string in
  b64_decode (VStr s) = urlsafe_b64decode padded
  /\ padded = pad_manually 3 s
  /\ (py_len (pad_manually 3 s) mod 4 = 0)%nat
  /\ b64_decode (VStr s) = urlsafe_b64decode (pad_manually 3 s)
  /\ header_object (VStr s) =
       (raw <- urlsafe_b64decode (pad_manually 3 s) ;;
        header <- utf8_decode raw ;;
        json_loads header).
Proof.
  intros padded.
  pose proof (Nat.mod_upper_bound (py_len s) 4 ltac:(lia)) as Hb.
  assert (Hp : padded = pad_manually 3 s).
  { unfold padded. fold (padding_length s).
    rewrite padding_length_nat, pad_manually_spec; [reflexivity|].
    pose proof (Nat.mod_upper_bound (4 - py_len s mod 4) 4 ltac:(lia)). lia. }
  assert (Hd : b64_decode (VStr s) = urlsafe_b64decode padded) by reflexivity.
  repeat split.
  - exact Hp.
  - rewrite <- Hp. unfold padded. fold (padding_length s).
    rewrite padding_length_nat, py_len_repeat_pad.
    rewrite (Nat.div_mod_eq (py_len s) 4) at 1.
    destruct (py_len s mod 4)%nat as [|[|[|[|r]]]]; try lia.
    + replace (4 * (py_len s / 4) + 0 + (4 - 0) mod 4)%nat
        with (0 + (py_len s / 4) * 4)%nat by (simpl; lia).
      now rewrite Nat.Div0.mod_add.
    + replace (4 * (py_len s / 4) + 1 + (4 - 1) mod 4)%nat
        with (0 + (py_len s / 4 + 1) * 4)%nat by (simpl; lia).
      now rewrite Nat.Div0.mod_add.
    + replace (4 * (py_len s / 4) + 2 + (4 - 2) mod 4)%nat
        with (0 + (py_len s / 4 + 1) * 4)%nat by (simpl; lia).
      now rewrite Nat.Div0.mod_add.
    + replace (4 * (py_len s / 4) + 3 + (4 - 3) mod 4)%nat
        with (0 + (py_len s / 4 + 1) * 4)%nat by (simpl; lia).
      now rewrite Nat.Div0.mod_add.
  - now rewrite <- Hp.
  - unfold header_object. now rewrite Hd, Hp.
Qed.

(** What a successful [header_object] went through. *)
Lemma header_object_ok (h v : value) :
  header_object h = Ok v ->
  exists raw header,
    b64_decode h = Ok raw /\ utf8_decode raw = Ok header /\ json_loads header = Ok v.
Proof.
  unfold header_object. intros E.
  destruct (b64_decode h) as [raw|e] eqn:Hb; [|discriminate]. cbn [bind] in E.
  destruct (utf8_decode raw) as [header|e] eqn:Hu; [|discriminate]. cbn [bind] in E.
  exists raw, header. auto.
Qed.

(** The decoder reads its header first: a positive depth and a header
    holding [v] leave the interpretation of [v]. *)
Lemma decoder_reads_header (n : nat) (h v : value) :
  header_object h = Ok v ->
  get_clevis_config_from_protected_header (S n) h =
    (clevis <- get v "clevis" VNone ;;
     if truthy clevis then
       pin <- get clevis "pin" VNone ;;
       if py_eq pin (VStr "tang") then
         match clevis with
         | VDict items => Ok (Some items)
         | _ => Raise AttributeError
         end
       else if py_eq pin (VStr "sss") then
         sss <- getitem clevis "sss" ;;
         jwes <- getitem sss "jwe" ;;
         members <- iter jwes ;;
         subpins <- for_each
                      (fun subpins jwe =>
                         subconf <- get_clevis_config_from_jwe n jwe ;;
                         add_subpin subpins subconf)
                      members [] ;;
         sss' <- getitem clevis "sss" ;;
         t <- getitem sss' "t" ;;
         Ok (Some [ (VStr "pin", VStr "sss");
                    (VStr "sss", VDict [ (VStr "t", t); (VStr "pins", VDict subpins) ]) ])
       else
         literal <- setitem [ (VStr "pin", pin) ] pin (VDict []) ;;
         Ok (Some literal)
     else Ok None).
Proof.
  intros E. destruct (header_object_ok _ _ E) as (raw & header & Hb & Hu & Hj).
  cbn [get_clevis_config_from_protected_header].
  rewrite Hb. cbn [bind]. rewrite Hu. cbn [bind]. rewrite Hj. reflexivity.
Qed.

(** A header that cannot be read makes the decoder raise what the reading
    raised. *)
Lemma decoder_header_raises (n : nat) (h : value) (e : exn) :
  header_object h = Raise e ->
  get_clevis_config_from_protected_header (S n) h = Raise e.
Proof.
  unfold header_object. intros E.
  cbn [get_clevis_config_from_protected_header].
  destruct (b64_decode h) as [raw|e1]; cbn [bind] in *;
    [|now inversion E].
  destruct (utf8_decode raw) as [header|e2]; cbn [bind] in *;
    [|now inversion E].
  now rewrite E.
Qed.

(** One more frame never changes a result the decoder has reached. *)
Lemma decoder_one_more_frame (n : nat) :
  (forall h r, get_clevis_config_from_protected_header n h = Ok r ->
               get_clevis_config_from_protected_header (S n) h = Ok r)
  /\ (forall jwe r, get_clevis_config_from_jwe n jwe = Ok r ->
                    get_clevis_config_from_jwe (S n) jwe = Ok r).
Proof.
  induction n as [|n [IHh IHj]].
  - split; intros ? ? E; discriminate E.
  - assert (Hj : forall jwe r, get_clevis_config_from_jwe (S n) jwe = Ok r ->
                               get_clevis_config_from_jwe (S (S n)) jwe = Ok r).
    { intros jwe r. cbn [get_clevis_config_from_jwe].
      destruct (split_dot_first jwe) as [first|e]; [|discriminate]. cbn [bind].
      apply IHh. }
    split; [|exact Hj].
    intros h r.
    destruct (header_object h) as [v|e] eqn:Hh.
    + rewrite (decoder_reads_header n h v Hh), (decoder_reads_header (S n) h v Hh).
      destruct (get v "clevis" VNone) as [clevis|e]; [|discriminate]. cbn [bind].
      destruct (truthy clevis); [|trivial].
      destruct (get clevis "pin" VNone) as [pin|e]; [|discriminate]. cbn [bind].
      destruct (py_eq pin (VStr "tang")); [trivial|].
      destruct (py_eq pin (VStr "sss")); [|trivial].
      destruct (getitem clevis "sss") as [sss|e]; [|discriminate]. cbn [bind].
      destruct (getitem sss "jwe") as [jwes|e]; [|discriminate]. cbn [bind].
      destruct (iter jwes) as [members|e]; [|discriminate]. cbn [bind].
      destruct (for_each _ members []) as [subpins|e] eqn:Hloop; [|discriminate].
      assert (Hext : for_each
                (fun subpins jwe =>
                   subconf <- get_clevis_config_from_jwe (S n) jwe ;;
                   add_subpin subpins subconf)
                members [] = Ok subpins).
      { revert Hloop. apply for_each_ext_ok. intros acc x r'.
        destruct (get_clevis_config_from_jwe n x) as [sub|e] eqn:Hx; [|discriminate].
        now rewrite (IHj _ _ Hx). }
      rewrite Hext. trivial.
    + rewrite (decoder_header_raises n h e Hh). discriminate.
Qed.

(** A result reached within [n] frames is reached within any larger
    number of frames: the depth is a bound, not an input. *)
Lemma decoder_depth_monotone (n m : nat) (h : value) (r : option (list (value * value))) :
  (n <= m)%nat ->
  get_clevis_config_from_protected_header n h = Ok r ->
  get_clevis_config_from_protected_header m h = Ok r.
Proof.
  induction 1 as [|m _ IH]; [trivial|].
  intros E. apply decoder_one_more_frame. now apply IH.
Qed.

(** C10.  When the header is a JSON object whose [clevis] member is
    present and falsy (null, false, zero, an empty string, list or
    object), the decoder returns [None]; and every header that is a JSON
    object without [clevis] member gets that same result: the test is on
    the value, not on the presence of the key. *)
Theorem falsy_clevis_is_absent (n : nat) (h : value) (items : dict) (clevis : value) :
  header_object h = Ok (VDict items) ->
  dict_find (VStr "clevis") items = Some clevis ->
  truthy clevis = false ->
  get_clevis_config_from_protected_header (S n) h = Ok None
  /\ (forall (h' : value) (items' : dict),
        header_object h' = Ok (VDict items') ->
        dict_find (VStr "clevis") items' = None ->
        get_clevis_config_from_protected_header (S n) h'
        = get_clevis_config_from_protected_header (S n) h).
Proof.
  intros Hh Hc Ht.
  assert (E : get_clevis_config_from_protected_header (S n) h = Ok None).
  { rewrite (decoder_reads_header n h _ Hh).
    unfold get. rewrite Hc. cbn [bind]. now rewrite Ht. }
  split; [exact E|].
  intros h' items' Hh' Hc'. rewrite E, (decoder_reads_header n h' _ Hh').
  unfold get. now rewrite Hc'.
Qed.

(** C8 (amended).  A header that is a JSON object without [clevis] member
    decodes to [None].  A header whose [clevis] member is a non-empty
    object with pin [p], where [p] is null, a boolean, a number or a
    string and differs from ["tang"], ["sss"] and ["pin"], decodes to
    [{"pin": p, p: {}}]. *)
Theorem absent_clevis_and_other_pins (n : nat) (h : value) (items : dict) :
  header_object h = Ok (VDict items) ->
  (dict_find (VStr "clevis") items = None ->
   get_clevis_config_from_protected_header (S n) h = Ok None)
  /\
  (forall (clevis : dict) (p : value),
     dict_find (VStr "clevis") items = Some (VDict clevis) ->
     clevis <> [] ->
     match dict_find (VStr "pin") clevis with Some v => v | None => VNone end = p ->
     hashable p = true ->
     py_eq p (VStr "tang") = false ->
     py_eq p (VStr "sss") = false ->
     py_eq p (VStr "pin") = false ->
     get_clevis_config_from_protected_header (S n) h =
       Ok (Some [ (VStr "pin", p); (p, VDict []) ])).
Proof.
  intros Hh. rewrite (decoder_reads_header n h _ Hh). split.
  - intros Hc. unfold get. now rewrite Hc.
  - intros clevis p Hc Hne Hp Hhash Htang Hsss Hpin.
    unfold get. rewrite Hc. cbn [bind].
    assert (Ht : truthy (VDict clevis) = true).
    { destruct clevis; [congruence|reflexivity]. }
    rewrite Ht, Hp. cbn [bind]. rewrite Htang, Hsss.
    unfold setitem. rewrite Hhash. cbn [bind dict_set]. now rewrite Hpin.
Qed.

End DecoderFacts.

(** C8, witness: a [tpm2] pin. *)
Lemma absent_clevis_and_other_pins_witness :
  (@get_clevis_config_from_protected_header Ref.lib 1000 (VStr Examples.no_clevis) = Ok None)
  /\ @get_clevis_config_from_protected_header Ref.lib 1000 (VStr Examples.pin_tpm2)
     = Ok (Some [ (VStr "pin", VStr "tpm2"); (VStr "tpm2", VDict []) ]).
Proof.
  split.
  - apply (proj1 (@absent_clevis_and_other_pins Ref.lib 999 (VStr Examples.no_clevis)
                    [ (VStr "alg", VStr "dir") ] ltac:(vm_compute; reflexivity))).
    vm_compute; reflexivity.
  - apply (proj2 (@absent_clevis_and_other_pins Ref.lib 999 (VStr Examples.pin_tpm2)
                    [ (VStr "clevis",
                       VDict [ (VStr "pin", VStr "tpm2");
                               (VStr "tpm2", VDict [ (VStr "hash", VStr "sha256") ]) ]) ]
                    ltac:(vm_compute; reflexivity))
             [ (VStr "pin", VStr "tpm2");
               (VStr "tpm2", VDict [ (VStr "hash", VStr "sha256") ]) ]);
      try (vm_compute; reflexivity).
    discriminate.
Defined.

(** C8, counterexample: for the pin value ["pin"] the two keys of the
    literal collide, and the descriptor holds [{}] under ["pin"], not the
    pin. *)
Lemma pin_named_pin_counterexample :
  @header_object Ref.lib (VStr Examples.pin_pin)
    = Ok (VDict [ (VStr "clevis", VDict [ (VStr "pin", VStr "pin") ]) ])
  /\ @get_clevis_config_from_protected_header Ref.lib 1000 (VStr Examples.pin_pin)
     = Ok (Some [ (VStr "pin", VDict []) ])
  /\ @get_clevis_config_from_protected_header Ref.lib 1000 (VStr Examples.pin_pin)
     <> Ok (Some [ (VStr "pin", VStr "pin"); (VStr "pin", VDict []) ])
  /\ @get_clevis_config_from_protected_header Ref.lib 1000 (VStr Examples.pin_list)
     = Raise TypeError.
Proof.
  split; [|split; [|split]]; try (vm_compute; reflexivity).
  vm_compute. discriminate.
Qed.

(** C10, witness: [{"clevis":{}}] and [{"clevis":null}] decode to [None],
    as [{"alg":"dir"}], which has no [clevis] member, does. *)
Lemma falsy_clevis_is_absent_witness :
  @get_clevis_config_from_protected_header Ref.lib 1000 (VStr Examples.empty_clevis) = Ok None
  /\ @get_clevis_config_from_protected_header Ref.lib 1000 (VStr Examples.null_clevis) = Ok None
  /\ @get_clevis_config_from_protected_header Ref.lib 1000 (VStr Examples.no_clevis)
     = @get_clevis_config_from_protected_header Ref.lib 1000 (VStr Examples.empty_clevis).
Proof.
  split; [|split].
  - refine (proj1 (@falsy_clevis_is_absent Ref.lib 999 (VStr Examples.empty_clevis)
                     [ (VStr "clevis", VDict []) ] (VDict []) _ _ _));
      vm_compute; reflexivity.
  - refine (proj1 (@falsy_clevis_is_absent Ref.lib 999 (VStr Examples.null_clevis)
                     [ (VStr "clevis", VNone) ] VNone _ _ _));
      vm_compute; reflexivity.
  - refine (proj2 (@falsy_clevis_is_absent Ref.lib 999 (VStr Examples.empty_clevis)
                     [ (VStr "clevis", VDict []) ] (VDict []) _ _ _)
              (VStr Examples.no_clevis) [ (VStr "alg", VStr "dir") ] _ _);
      vm_compute; reflexivity.
Defined.

(* ================================================================== *)
(** ** Grouping the children of an sss policy *)

Section Grouping.

Context {L : PyLib}.

Lemma keyed_find (F : str -> value) (names : list str) (p : str) :
  dict_find (VStr p) (keyed F names) =
  if existsb (String.eqb p) names then Some (F p) else None.
Proof.
  induction names as [|q names IH]; [reflexivity|].
  cbn [keyed map dict_find existsb py_eq].
  destruct (String.eqb_spec p q) as [->|Hne]; [reflexivity|].
  exact IH.
Qed.

Lemma keyed_set_absent (F : str -> value) (names : list str) (p : str) (v : value) :
  existsb (String.eqb p) names = false ->
  dict_set (VStr p) v (keyed F names) = keyed F names ++ [(VStr p, v)].
Proof.
  induction names as [|q names IH]; [reflexivity|].
  cbn [keyed map dict_set existsb py_eq app].
  destruct (String.eqb p q); [discriminate|].
  intros Hn. cbn [orb] in Hn. f_equal. now apply IH.
Qed.

Lemma existsb_eqb_In (p : str) (names : list str) :
  existsb (String.eqb p) names = true <-> In p names.
Proof.
  rewrite existsb_exists. split.
  - intros (q & Hq & E). apply String.eqb_eq in E. now subst.
  - intros Hp. exists p. split; [exact Hp|apply String.eqb_refl].
Qed.

Lemma keyed_set_present (F : str -> value) (names : list str) (p : str) (v : value) :
  NoDup names ->
  In p names ->
  dict_set (VStr p) v (keyed F names) =
  keyed (fun q => if String.eqb q p then v else F q) names.
Proof.
  induction names as [|q names IH]; intros Hnd Hin; [contradiction|].
  inversion Hnd as [|? ? Hq Hnd']; subst.
  cbn [keyed map dict_set py_eq].
  destruct (String.eqb_spec p q) as [->|Hne].
  - rewrite String.eqb_refl. f_equal.
    apply map_ext_in. intros r Hr.
    destruct (String.eqb_spec r q) as [->|_]; [contradiction|reflexivity].
  - destruct (String.eqb_spec q p) as [->|_]; [congruence|].
    f_equal. apply IH; [exact Hnd'|].
    destruct Hin as [->|Hin]; [congruence|exact Hin].
Qed.

Lemma first_occurrences_fresh (names seen : list str) (q : str) :
  In q (first_occurrences seen names) -> existsb (String.eqb q) seen = false.
Proof.
  revert seen. induction names as [|a names IH]; intros seen; [contradiction|].
  cbn [first_occurrences].
  destruct (existsb (String.eqb a) seen) eqn:Ha.
  - apply IH.
  - intros [->|Hq]; [exact Ha|].
    apply IH in Hq. cbn [existsb] in Hq.
    now apply orb_false_elim in Hq.
Qed.

Lemma first_occurrences_NoDup (names seen : list str) :
  NoDup (first_occurrences seen names).
Proof.
  revert seen. induction names as [|a names IH]; intros seen; [constructor|].
  cbn [first_occurrences].
  destruct (existsb (String.eqb a) seen); [apply IH|].
  constructor; [|apply IH].
  intros Hin. apply first_occurrences_fresh in Hin.
  cbn [existsb] in Hin. now rewrite String.eqb_refl in Hin.
Qed.

Lemma first_occurrences_mem (names seen : list str) (p : str) :
  existsb (String.eqb p) (first_occurrences seen names) =
  existsb (String.eqb p) names && negb (existsb (String.eqb p) seen).
Proof.
  revert seen. induction names as [|a names IH]; intros seen; [reflexivity|].
  cbn [first_occurrences existsb].
  destruct (existsb (String.eqb a) seen) eqn:Ha.
  - rewrite IH. destruct (String.eqb_spec p a) as [->|_]; [|reflexivity].
    rewrite Ha. cbn. now rewrite andb_false_r.
  - cbn [existsb]. rewrite IH. cbn [existsb].
    destruct (String.eqb_spec p a) as [->|_].
    + now rewrite Ha.
    + reflexivity.
Qed.

Lemma first_occurrences_app (names seen : list str) (p : str) :
  first_occurrences seen (names ++ [p]) =
  first_occurrences seen names ++
    (if existsb (String.eqb p) seen || existsb (String.eqb p) names then [] else [p]).
Proof.
  revert seen. induction names as [|a names IH]; intros seen.
  - cbn [app first_occurrences existsb]. rewrite orb_false_r.
    now destruct (existsb (String.eqb p) seen).
  - cbn [app first_occurrences existsb].
    destruct (existsb (String.eqb a) seen) eqn:Ha.
    + rewrite IH. destruct (String.eqb_spec p a) as [->|_]; [|reflexivity].
      now rewrite Ha.
    + rewrite IH. cbn [existsb app].
      destruct (String.eqb_spec p a) as [->|_]; cbn [orb].
      * now rewrite orb_true_r.
      * reflexivity.
Qed.

Lemma payloads_of_app (p : str) (l : list child) (c : child) :
  payloads_of p (l ++ [c]) =
  payloads_of p l ++ (if String.eqb (fst c) p then [snd c] else []).
Proof.
  unfold payloads_of. rewrite filter_app, map_app.
  destruct c as [q v]. simpl.
  destruct (String.eqb q p); reflexivity.
Qed.

Lemma payloads_of_absent (p : str) (l : list child) :
  existsb (String.eqb p) (map fst l) = false -> payloads_of p l = [].
Proof.
  unfold payloads_of. induction l as [|[q v] l IH]; [reflexivity|].
  simpl. intros Hn. apply orb_false_elim in Hn as [Hc Hl].
  rewrite (String.eqb_sym q p), Hc. now apply IH.
Qed.

Lemma group_by_pin_keyed (l : list child) :
  group_by_pin l = keyed (fun p => VList (payloads_of p l)) (first_occurrences [] (map fst l)).
Proof. reflexivity. Qed.

(** The grouped mapping holds, under each pin name met, the payloads of
    that pin. *)
Lemma group_by_pin_find (l : list child) (p : str) :
  dict_find (VStr p) (group_by_pin l) =
  if existsb (String.eqb p) (map fst l) then Some (VList (payloads_of p l)) else None.
Proof.
  rewrite group_by_pin_keyed, keyed_find, first_occurrences_mem.
  cbn [existsb negb]. now rewrite andb_true_r.
Qed.

(** One turn of the loop extends the grouping by one child. *)
Lemma add_subpin_groups (done : list child) (subconf : dict) (c : child) :
  dict_find (VStr "pin") subconf = Some (VStr (fst c)) ->
  dict_find (VStr (fst c)) subconf = Some (snd c) ->
  add_subpin (group_by_pin done) (Some subconf) = Ok (group_by_pin (done ++ [c])).
Proof.
  destruct c as [p payload]. cbn [fst snd]. intros Hpin Hpay.
  unfold add_subpin, getitem_opt, contains_key.
  cbn [hashable]. rewrite Hpin. cbn [bind hashable]. rewrite Hpay. cbn [bind].
  rewrite group_by_pin_find.
  rewrite (group_by_pin_keyed (done ++ [(p, payload)])).
  rewrite map_app. cbn [map fst]. rewrite first_occurrences_app. cbn [existsb orb].
  destruct (existsb (String.eqb p) (map fst done)) eqn:Hmem; cbn [negb].
  - rewrite app_nil_r, group_by_pin_keyed.
    rewrite keyed_set_present.
    + f_equal. apply map_ext. intros q.
      rewrite payloads_of_app. cbn [fst snd].
      rewrite (String.eqb_sym p q).
      destruct (String.eqb_spec q p) as [->|_]; [reflexivity|].
      now rewrite app_nil_r.
    + apply first_occurrences_NoDup.
    + apply existsb_eqb_In. rewrite first_occurrences_mem, Hmem. reflexivity.
  - rewrite group_by_pin_keyed, keyed_set_absent
      by (rewrite first_occurrences_mem, Hmem; reflexivity).
    unfold keyed. rewrite map_app. cbn [map]. f_equal. apply f_equal2.
    + apply map_ext_in. intros q Hq.
      rewrite payloads_of_app. cbn [fst snd].
      destruct (String.eqb_spec p q) as [->|_]; [|now rewrite app_nil_r].
      apply existsb_eqb_In in Hq. rewrite first_occurrences_mem, Hmem in Hq.
      discriminate.
    + rewrite payloads_of_app, payloads_of_absent by exact Hmem.
      cbn [fst snd app]. now rewrite String.eqb_refl.
Qed.

(** The loop over the members groups the children they decode to. *)
Lemma for_each_groups (n : nat) (members : list value) (children : list child) :
  Forall2 (decodes_to n) members children ->
  forall done : list child,
    for_each (fun subpins jwe =>
                subconf <- get_clevis_config_from_jwe n jwe ;;
                add_subpin subpins subconf)
             members (group_by_pin done)
    = Ok (group_by_pin (done ++ children)).
Proof.
  induction 1 as [|jwe c members children (sub & Hdec & Hpin & Hpay) _ IH]; intros done.
  - now rewrite app_nil_r.
  - cbn [for_each]. rewrite Hdec. cbn [bind].
    rewrite (add_subpin_groups done sub c Hpin Hpay). cbn [bind].
    rewrite IH, <- app_assoc. reflexivity.
Qed.

(** C3 (amended).  When the header's pin is ["sss"], [clevis.sss] has the
    members [jwe] and [t], and the first segment of every member of
    [clevis.sss.jwe] decodes to a descriptor with a pin name and a payload
    under that name, the result is the descriptor
    [{"pin": "sss", "sss": {"t": clevis.sss.t, "pins": g}}] where [g] maps
    each pin name, in order of first occurrence, to the payloads of the
    children with that pin, in input order. *)
Theorem sss_groups_children_by_pin (n : nat) (h : value) (items clevis : dict)
  (sss jwes t : value) (members : list value) (children : list child) :
  header_object h = Ok (VDict items) ->
  dict_find (VStr "clevis") items = Some (VDict clevis) ->
  dict_find (VStr "pin") clevis = Some (VStr "sss") ->
  dict_find (VStr "sss") clevis = Some sss ->
  getitem sss "jwe" = Ok jwes ->
  iter jwes = Ok members ->
  Forall2 (decodes_to n) members children ->
  getitem sss "t" = Ok t ->
  get_clevis_config_from_protected_header (S n) h =
    Ok (Some (sss_descriptor t (group_by_pin children))).
Proof.
  intros Hh Hc Hpin Hsss Hjwe Hiter Hch Ht.
  rewrite (decoder_reads_header n h _ Hh).
  unfold get. rewrite Hc. cbn [bind].
  assert (Htr : truthy (VDict clevis) = true).
  { destruct clevis; [discriminate|reflexivity]. }
  rewrite Htr, Hpin. cbn [bind].
  change (py_eq (VStr "sss") (VStr "tang")) with false.
  change (py_eq (VStr "sss") (VStr "sss")) with true.
  cbn iota.
  assert (Hg : getitem (VDict clevis) "sss" = Ok sss).
  { unfold getitem. now rewrite Hsss. }
  rewrite Hg. cbn [bind]. rewrite Hjwe. cbn [bind]. rewrite Hiter. cbn [bind].
  change (@nil (value * value)) with (group_by_pin []).
  rewrite (for_each_groups n members children Hch []). cbn [bind app].
  rewrite Ht. reflexivity.
Qed.

End Grouping.

(** C3, witness: an sss policy with threshold 2 over two tang servers
    decodes to [{"pin": "sss", "sss": {"t": 2, "pins": {"tang": [cfg1,
    cfg2]}}}], the payloads in input order. *)
Lemma sss_two_tang_children_witness :
  @get_clevis_config_from_protected_header Ref.lib 1000 (VStr Examples.sss12) =
    Ok (Some [ (VStr "pin", VStr "sss");
               (VStr "sss",
                VDict [ (VStr "t", VInt 2);
                        (VStr "pins",
                         VDict [ (VStr "tang",
                                  VList [ Examples.cfg1; Examples.cfg2 ]) ]) ]) ]).
Proof.
  pose (sss := VDict [ (VStr "t", VInt 2);
                       (VStr "jwe", VList [ VStr Examples.jwe1; VStr Examples.jwe2 ]) ]).
  pose (clevis := [ (VStr "pin", VStr "sss"); (VStr "sss", sss) ]).
  apply (@sss_groups_children_by_pin Ref.lib 999 (VStr Examples.sss12)
           [ (VStr "alg", VStr "dir"); (VStr "clevis", VDict clevis) ]
           clevis sss (VList [ VStr Examples.jwe1; VStr Examples.jwe2 ]) (VInt 2)
           [ VStr Examples.jwe1; VStr Examples.jwe2 ]
           [ ("tang", Examples.cfg1); ("tang", Examples.cfg2) ]);
    [ vm_compute; reflexivity .. | idtac | vm_compute; reflexivity ].
  apply Forall2_cons; [|apply Forall2_cons; [|apply Forall2_nil]].
  - exists [ (VStr "pin", VStr "tang"); (VStr "tang", Examples.cfg1) ].
    split; [|split]; vm_compute; reflexivity.
  - exists [ (VStr "pin", VStr "tang"); (VStr "tang", Examples.cfg2) ].
    split; [|split]; vm_compute; reflexivity.
Defined.

(** C3, counterexample: an [sss] header whose only child has the header
    [{"alg":"dir"}], which holds no policy, makes the decoder raise
    [TypeError]; an [sss] header without [t] makes it raise [KeyError].
    Neither gives a descriptor. *)
Lemma sss_without_descriptor_counterexample :
  (exists child : str,
     @header_object Ref.lib (VStr Cases.sss_child_none)
       = Ok (VDict [ (VStr "clevis",
                      VDict [ (VStr "pin", VStr "sss");
                              (VStr "sss", VDict [ (VStr "t", VInt 1);
                                                   (VStr "jwe", VList [ VStr child ]) ]) ]) ])
     /\ @get_clevis_config_from_jwe Ref.lib 999 (VStr child) = Ok None)
  /\ @get_clevis_config_from_protected_header Ref.lib 1000 (VStr Cases.sss_child_none)
     = Raise TypeError
  /\ @header_object Ref.lib (VStr Cases.sss_no_threshold)
     = Ok (VDict [ (VStr "clevis",
                    VDict [ (VStr "pin", VStr "sss");
                            (VStr "sss", VDict [ (VStr "jwe", VList []) ]) ]) ])
  /\ @get_clevis_config_from_protected_header Ref.lib 1000 (VStr Cases.sss_no_threshold)
     = Raise KeyError.
Proof.
  split; [|split; [|split]]; [ | vm_compute; reflexivity .. ].
  exists (Examples.no_clevis ++ "..aXY.Y3Q.dGFn")%string.
  split; vm_compute; reflexivity.
Qed.

(* ================================================================== *)
(** ** Stateful computations *)

Lemma mbind_ok {S A B : Type} (m : M S A) (k : A -> M S B) (s s' : S) (a : A) :
  m s = (Ok a, s') -> mbind m k s = k a s'.
Proof. unfold mbind. now intros ->. Qed.

Lemma mbind_raise {S A B : Type} (m : M S A) (k : A -> M S B) (s s' : S) (e : exn) :
  m s = (Raise e, s') -> mbind m k s = (Raise e, s').
Proof. unfold mbind. now intros ->. Qed.

Lemma lift_ok {S A B : Type} (r : result A) (k : A -> M S B) (s : S) (a : A) :
  r = Ok a -> mbind (lift r) k s = k a s.
Proof. intros ->. reflexivity. Qed.

Lemma lift_raise {S A B : Type} (r : result A) (k : A -> M S B) (s : S) (e : exn) :
  r = Raise e -> mbind (lift r) k s = (Raise e, s).
Proof. intros ->. reflexivity. Qed.

(** A loop over [xs ++ ys] is the loop over [xs] followed by the loop over
    [ys]. *)
Lemma mfor_each_app {S A T : Type} (body : T -> A -> M S T) (xs ys : list A)
  (acc : T) (s : S) :
  mfor_each body (xs ++ ys) acc s =
  mbind (mfor_each body xs acc) (fun acc' => mfor_each body ys acc') s.
Proof.
  revert acc s. induction xs as [|x xs IH]; intros acc s; [reflexivity|].
  cbn [app mfor_each]. unfold mbind in *.
  destruct (body acc x s) as [[acc'|e] s']; [|reflexivity].
  apply IH.
Qed.

(** An exception raised by the body at one element ends the loop with that
    exception. *)
Lemma mfor_each_raises {S A T : Type} (body : T -> A -> M S T) (xs ys : list A)
  (x : A) (acc acc' : T) (s s1 s2 : S) (e : exn) :
  mfor_each body xs acc s = (Ok acc', s1) ->
  body acc' x s1 = (Raise e, s2) ->
  mfor_each body (xs ++ x :: ys) acc s = (Raise e, s2).
Proof.
  intros Hxs Hx. rewrite mfor_each_app.
  rewrite (mbind_ok _ _ _ _ _ Hxs). cbn [mfor_each].
  now rewrite (mbind_raise _ _ _ _ _ Hx).
Qed.

(* ================================================================== *)
(** ** The slot-state builder *)

Section BuilderFacts.

Context {L : PyLib} {W : Type} {H : Host W}.

(** C2 (amended).  When [cryptsetup luksDump] exits with a status other
    than 0, [info] returns exactly [{"version": 1, "slots": [],
    "max_slots": 8}].  When the program cannot be started, [info] raises
    the error of the launch. *)
Theorem failed_dump_gives_default_state (dev : str) (w : W) :
  (forall (dump : completed) (w' : W),
     subprocess_run [ "cryptsetup"; "luksDump"; dev ] w = (Ok dump, w') ->
     returncode dump <> 0 ->
     info dev w = (Ok (state_dict 1 [] 8), w'))
  /\
  (forall (e : exn) (w' : W),
     subprocess_run [ "cryptsetup"; "luksDump"; dev ] w = (Raise e, w') ->
     info dev w = (Raise e, w')).
Proof.
  split.
  - intros dump w' Hrun Hrc. unfold info.
    rewrite (mbind_ok _ _ _ _ _ Hrun).
    destruct (Z.eqb_spec (returncode dump) 0) as [E|_]; [contradiction|].
    reflexivity.
  - intros e w' Hrun. unfold info.
    now rewrite (mbind_raise _ _ _ _ _ Hrun).
Qed.

(** A Clevis token whose protected header cannot be read makes the token
    line raise. *)
Lemma token_line_raises (dev : str) (line id : bytes) (st : scan_state) (w w1 : W)
  (token : completed) (text : str) (token_object jwe protected : value)
  (n : nat) (e : exn) :
  in_luks2_token_section st = true ->
  fullmatch_number "  " ": clevis" line = Some id ->
  subprocess_run [ "cryptsetup"; "token"; "export"; dev; "--token-id"; id ] w
    = (Ok token, w1) ->
  returncode token = 0 ->
  utf8_decode (stdout token) = Ok text ->
  json_loads text = Ok token_object ->
  get token_object "type" VNone = Ok (VStr "clevis") ->
  getitem token_object "jwe" = Ok jwe ->
  getitem jwe "protected" = Ok protected ->
  recursion_limit = S n ->
  header_object protected = Raise e ->
  info_token_line dev line st w = (Raise e, w1).
Proof.
  intros Hsec Hm Hrun Hrc Hu Hj Hty Hjwe Hpr Hdepth Hh.
  unfold info_token_line. rewrite Hsec, Hm.
  rewrite (mbind_ok _ _ _ _ _ Hrun). rewrite Hrc. cbn [Z.eqb].
  rewrite (lift_ok _ _ _ _ Hu), (lift_ok _ _ _ _ Hj), (lift_ok _ _ _ _ Hty).
  rewrite py_eq_str_refl.
  rewrite (lift_ok _ _ _ _ Hjwe), (lift_ok _ _ _ _ Hpr).
  rewrite Hdepth.
  now rewrite (lift_raise _ _ _ _ (decoder_header_raises n protected e Hh)).
Qed.

(** A version 1 slot whose LUKSMeta data starts with a header that cannot
    be read makes the slot line raise. *)
Lemma slot_line_raises (dev : str) (line digits : bytes) (st : scan_state) (w w1 : W)
  (slot : Z) (meta : completed) (jwe : str) (n : nat) (e : exn) :
  version st = 1 ->
  slot_match line st = Some digits ->
  int_of_digits digits = Ok slot ->
  subprocess_run [ "luksmeta"; "load"; "-d"; dev; "-s"; str_of_int slot;
                   "-u"; clevis_uuid ] w = (Ok meta, w1) ->
  returncode meta = 0 ->
  utf8_decode (stdout meta) = Ok jwe ->
  recursion_limit = S (S n) ->
  header_object (VStr (split_first "." jwe)) = Raise e ->
  info_slot_line dev line st w = (Raise e, w1).
Proof.
  intros Hv Hm Hi Hrun Hrc Hu Hdepth Hh.
  unfold info_slot_line. rewrite Hm.
  rewrite (lift_ok _ _ _ _ Hi). rewrite Hv. cbn [Z.eqb Pos.eqb].
  unfold mbind at 1. unfold mbind at 1. rewrite Hrun, Hrc. cbn [Z.eqb].
  rewrite (lift_ok _ _ _ _ Hu), Hdepth.
  cbn [get_clevis_config_from_jwe split_dot_first bind].
  now rewrite (lift_raise _ _ _ _ (decoder_header_raises n _ e Hh)).
Qed.

(** C1 (amended).  A protected header whose base64url, UTF-8 or JSON
    decoding fails makes the decoder raise that failure instead of
    returning [None]; and when the header is that of a Clevis token, or of
    the LUKSMeta data of a version 1 slot, met during the scan of the dump,
    [info] raises it too: the slot enumeration is aborted. *)
Theorem decode_failure_aborts_the_scan :
  (forall (n : nat) (h : value) (e : exn),
     header_object h = Raise e ->
     get_clevis_config_from_protected_header (S n) h = Raise e)
  /\
  (forall (dev : str) (w w1 w2 w3 w4 : W) (dump token : completed)
          (before after : list bytes) (line id : bytes) (st st' : scan_state)
          (text : str) (token_object jwe protected : value) (n : nat) (e : exn),
     subprocess_run [ "cryptsetup"; "luksDump"; dev ] w = (Ok dump, w1) ->
     returncode dump = 0 ->
     splitlines (stdout dump) = before ++ line :: after ->
     mfor_each (info_line dev) before initial_scan w1 = (Ok st, w2) ->
     info_slot_line dev line (info_sections line st) w2 = (Ok st', w3) ->
     in_luks2_token_section st' = true ->
     fullmatch_number "  " ": clevis" line = Some id ->
     subprocess_run [ "cryptsetup"; "token"; "export"; dev; "--token-id"; id ] w3
       = (Ok token, w4) ->
     returncode token = 0 ->
     utf8_decode (stdout token) = Ok text ->
     json_loads text = Ok token_object ->
     get token_object "type" VNone = Ok (VStr "clevis") ->
     getitem token_object "jwe" = Ok jwe ->
     getitem jwe "protected" = Ok protected ->
     recursion_limit = S n ->
     header_object protected = Raise e ->
     info dev w = (Raise e, w4))
  /\
  (forall (dev : str) (w w1 w2 w3 : W) (dump meta : completed)
          (before after : list bytes) (line digits : bytes) (st : scan_state)
          (slot : Z) (jwe : str) (n : nat) (e : exn),
     subprocess_run [ "cryptsetup"; "luksDump"; dev ] w = (Ok dump, w1) ->
     returncode dump = 0 ->
     splitlines (stdout dump) = before ++ line :: after ->
     mfor_each (info_line dev) before initial_scan w1 = (Ok st, w2) ->
     version (info_sections line st) = 1 ->
     slot_match line (info_sections line st) = Some digits ->
     int_of_digits digits = Ok slot ->
     subprocess_run [ "luksmeta"; "load"; "-d"; dev; "-s"; str_of_int slot;
                      "-u"; clevis_uuid ] w2 = (Ok meta, w3) ->
     returncode meta = 0 ->
     utf8_decode (stdout meta) = Ok jwe ->
     recursion_limit = S (S n) ->
     header_object (VStr (split_first "." jwe)) = Raise e ->
     info dev w = (Raise e, w3)).
Proof.
  split; [|split].
  - exact decoder_header_raises.
  - intros dev w w1 w2 w3 w4 dump token before after line id st st' text
           token_object jwe protected n e
           Hrun Hrc Hlines Hbefore Hslot Hsec Hm Hexp Hrc' Hu Hj Hty Hjwe Hpr Hdepth Hh.
    unfold info. rewrite (mbind_ok _ _ _ _ _ Hrun). rewrite Hrc. cbn [Z.eqb negb].
    rewrite Hlines.
    assert (Hline : info_line dev st line w2 = (Raise e, w4)).
    { unfold info_line. rewrite (mbind_ok _ _ _ _ _ Hslot).
      exact (token_line_raises dev line id st' w3 w4 token text token_object jwe
               protected n e Hsec Hm Hexp Hrc' Hu Hj Hty Hjwe Hpr Hdepth Hh). }
    now rewrite (mbind_raise _ _ _ _ _
                   (mfor_each_raises _ _ after _ _ _ _ _ _ _ Hbefore Hline)).
  - intros dev w w1 w2 w3 dump meta before after line digits st slot jwe n e
           Hrun Hrc Hlines Hbefore Hv Hm Hi Hmeta Hrc' Hu Hdepth Hh.
    unfold info. rewrite (mbind_ok _ _ _ _ _ Hrun). rewrite Hrc. cbn [Z.eqb negb].
    rewrite Hlines.
    assert (Hline : info_line dev st line w2 = (Raise e, w3)).
    { unfold info_line.
      now rewrite (mbind_raise _ _ _ _ _
                     (slot_line_raises dev line digits _ w2 w3 slot meta jwe n e
                        Hv Hm Hi Hmeta Hrc' Hu Hdepth Hh)). }
    now rewrite (mbind_raise _ _ _ _ _
                   (mfor_each_raises _ _ after _ _ _ _ _ _ _ Hbefore Hline)).
Qed.

End BuilderFacts.

(** C2, witness: a block device that is not a LUKS container. *)
Lemma failed_dump_gives_default_state_witness :
  @info Ref.lib _ Sim.host Examples.dev Examples.world_plain
    = (Ok (state_dict 1 [] 8), Examples.world_plain).
Proof.
  apply (proj1 (@failed_dump_gives_default_state Ref.lib _ Sim.host
                  Examples.dev Examples.world_plain) (Completed 1 "")).
  - reflexivity.
  - discriminate.
Defined.

(** C2, counterexample: where [cryptsetup] cannot be started, [info] does
    not return the default state: it raises [OSError]. *)
Lemma missing_cryptsetup_counterexample :
  @subprocess_run _ Sim.host [ "cryptsetup"; "luksDump"; Examples.dev ] Examples.world_bare
    = (Raise OSError, Examples.world_bare)
  /\ @info Ref.lib _ Sim.host Examples.dev Examples.world_bare
     = (Raise OSError, Examples.world_bare)
  /\ @info Ref.lib _ Sim.host Examples.dev Examples.world_bare
     <> (Ok (state_dict 1 [] 8), Examples.world_bare).
Proof.
  split; [|split]; try reflexivity. discriminate.
Qed.

(** C1, witness: the token of [world_broken] holds the protected header
    [not_json], and so does the LUKSMeta data of slot 0 in
    [world_legacy_broken]. *)
Lemma decode_failure_aborts_the_scan_witness :
  @get_clevis_config_from_protected_header Ref.lib 1000 (VStr Examples.not_json)
    = Raise ValueError
  /\ @info Ref.lib _ Sim.host Examples.dev Examples.world_broken
     = (Raise ValueError, Examples.world_broken)
  /\ @info Ref.lib _ Sim.host Examples.dev Examples.world_legacy_broken
     = (Raise ValueError, Examples.world_legacy_broken).
Proof.
  split; [|split].
  - apply (proj1 (@decode_failure_aborts_the_scan Ref.lib _ Sim.host) 999%nat).
    vm_compute; reflexivity.
  - apply (proj1 (proj2 (@decode_failure_aborts_the_scan Ref.lib _ Sim.host))
             Examples.dev Examples.world_broken Examples.world_broken
             Examples.world_broken Examples.world_broken Examples.world_broken
             (Completed 0 Examples.dump_token)
             (Completed 0 (Examples.token_json Examples.not_json))
             [ "LUKS header information"; "Version:        2"; "Keyslots:";
               "  0: luks2"; String tab "Key:        512 bits";
               "  2: luks2"; String tab "Key:        512 bits"; "Tokens:" ]
             [ String tab "Keyslot:    2"; "Digests:"; "  0: pbkdf2" ]
             "  0: clevis" "0"
             (Scan [ (0, VDict (bare_entry 0)); (2, VDict (bare_entry 2)) ] 2 32 false true)
             (Scan [ (0, VDict (bare_entry 0)); (2, VDict (bare_entry 2)) ] 2 32 false true)
             (Examples.token_json Examples.not_json)
             (VDict [ (VStr "type", VStr "clevis");
                      (VStr "keyslots", VList [ VStr "2" ]);
                      (VStr "jwe",
                       VDict [ (VStr "ciphertext", VStr "Y3Q");
                               (VStr "encrypted_key", VStr "");
                               (VStr "iv", VStr "aXY");
                               (VStr "protected", VStr Examples.not_json);
                               (VStr "tag", VStr "dGFn") ]) ])
             (VDict [ (VStr "ciphertext", VStr "Y3Q");
                      (VStr "encrypted_key", VStr "");
                      (VStr "iv", VStr "aXY");
                      (VStr "protected", VStr Examples.not_json);
                      (VStr "tag", VStr "dGFn") ])
             (VStr Examples.not_json) 999%nat ValueError);
      vm_compute; reflexivity.
  - apply (proj2 (proj2 (@decode_failure_aborts_the_scan Ref.lib _ Sim.host))
             Examples.dev Examples.world_legacy_broken Examples.world_legacy_broken
             Examples.world_legacy_broken Examples.world_legacy_broken
             (Completed 0 Examples.dump_v1)
             (Completed 0 (Examples.not_json ++ "..aXY.Y3Q.dGFn")%string)
             [ "LUKS header information for /dev/sda5"; "";
               "Version:        1"; "Cipher name:    aes" ]
             [ String tab "Iterations:             1000000"; "Key Slot 1: DISABLED" ]
             "Key Slot 0: ENABLED" "0"
             (Scan [] 1 8 false false) 0
             (Examples.not_json ++ "..aXY.Y3Q.dGFn")%string 998%nat ValueError);
      vm_compute; reflexivity.
Defined.

(** C1, counterexample: the header [not_json] is well-formed base64url,
    its bytes are no JSON text; the decoder does not return [None] and
    [info] returns no state: both raise [ValueError]. *)
Lemma invalid_json_header_counterexample :
  @b64_decode Ref.lib (VStr Examples.not_json) = Ok "not json"
  /\ @get_clevis_config_from_protected_header Ref.lib 1000 (VStr Examples.not_json)
     = Raise ValueError
  /\ @get_clevis_config_from_protected_header Ref.lib 1000 (VStr Examples.not_json)
     <> Ok None
  /\ fst (@info Ref.lib _ Sim.host Examples.dev Examples.world_broken)
     = Raise ValueError.
Proof.
  split; [|split; [|split]]; try (vm_compute; reflexivity).
  vm_compute. discriminate.
Qed.

(* ================================================================== *)
(** ** What a line of the dump may change *)

Lemma slots_set_absent (slot : Z) (entry : value) (d : list (Z * value)) :
  slots_mem slot d = false -> slots_set slot entry d = d ++ [(slot, entry)].
Proof.
  induction d as [|[k v] d IH]; [reflexivity|].
  cbn [slots_mem slots_set app]. intros Hm.
  apply orb_false_elim in Hm as [Hk Hd]. rewrite Hk. f_equal. now apply IH.
Qed.

Lemma slots_find_app (k : Z) (v : value) (d extra : list (Z * value)) :
  slots_find k d = Some v -> slots_find k (d ++ extra) = Some v.
Proof.
  induction d as [|[k' v'] d IH]; [discriminate|].
  cbn [slots_find app]. destruct (k =? k'); [trivial|exact IH].
Qed.

Lemma slots_find_set_same (slot : Z) (entry : value) (d : list (Z * value)) :
  slots_find slot (slots_set slot entry d) = Some entry.
Proof.
  induction d as [|[k v] d IH]; cbn [slots_set slots_find].
  - now rewrite Z.eqb_refl.
  - destruct (Z.eqb_spec slot k) as [->|Hne]; cbn [slots_find].
    + now rewrite Z.eqb_refl.
    + destruct (Z.eqb_spec slot k); [contradiction|exact IH].
Qed.

Lemma slots_find_set_other (slot k : Z) (entry : value) (d : list (Z * value)) :
  k <> slot -> slots_find k (slots_set slot entry d) = slots_find k d.
Proof.
  intros Hne. induction d as [|[k' v] d IH]; cbn [slots_set slots_find].
  - destruct (Z.eqb_spec k slot); [contradiction|reflexivity].
  - destruct (Z.eqb_spec slot k') as [->|Hs]; cbn [slots_find].
    + destruct (Z.eqb_spec k k'); [contradiction|reflexivity].
    + destruct (k =? k'); [reflexivity|exact IH].
Qed.

Section LineFacts.

Context {L : PyLib} {W : Type} {H : Host W}.

(** A slot line changes nothing but [slots], and there it adds at most
    one entry, at the end, for a slot that had none. *)
Lemma info_slot_line_frame (dev : str) (line : bytes) (st st' : scan_state) (w w' : W) :
  info_slot_line dev line st w = (Ok st', w') ->
  version st' = version st /\ max_slots st' = max_slots st
  /\ in_luks2_slot_section st' = in_luks2_slot_section st
  /\ in_luks2_token_section st' = in_luks2_token_section st
  /\ (slots st' = slots st
      \/ exists slot entry,
           slots_mem slot (slots st) = false /\
           slots st' = slots st ++ [(slot, entry)]).
Proof.
  unfold info_slot_line. intros E. mcases E;
    inversion E; subst; cbn [version max_slots in_luks2_slot_section
                               in_luks2_token_section slots];
    repeat split; auto;
    right; eexists; eexists; (split; [|apply slots_set_absent]);
    match goal with
    | Hm : negb (slots_mem _ _) = true |- _ => now apply negb_true_iff in Hm
    end.
Qed.

(** A token line changes nothing but [slots]. *)
Lemma info_token_line_frame (dev : str) (line : bytes) (st st' : scan_state) (w w' : W) :
  info_token_line dev line st w = (Ok st', w') ->
  version st' = version st /\ max_slots st' = max_slots st
  /\ in_luks2_slot_section st' = in_luks2_slot_section st
  /\ in_luks2_token_section st' = in_luks2_token_section st.
Proof.
  unfold info_token_line. intros E. mcases E;
    inversion E; subst; cbn [version max_slots in_luks2_slot_section
                               in_luks2_token_section];
    repeat split; auto.
Qed.

(** Outside the token section, or on a line that is no Clevis token line,
    the token step does nothing. *)
Lemma info_token_line_idle (dev : str) (line : bytes) (st : scan_state) (w : W) :
  in_luks2_token_section st = false \/ fullmatch_number "  " ": clevis" line = None ->
  info_token_line dev line st w = (Ok st, w).
Proof.
  unfold info_token_line. intros [->| ->]; [reflexivity|].
  now destruct (in_luks2_token_section st).
Qed.

(** Every entry present before a slot line is present after it. *)
Lemma slot_line_keeps_entries (dev : str) (line : bytes) (st st' : scan_state) (w w' : W) :
  info_slot_line dev line st w = (Ok st', w') ->
  forall k v, slots_find k (slots st) = Some v -> slots_find k (slots st') = Some v.
Proof.
  intros E k v Hk.
  destruct (info_slot_line_frame dev line st st' w w' E)
    as (_ & _ & _ & _ & [-> | (s & en & _ & ->)]).
  - exact Hk.
  - now apply slots_find_app.
Qed.

(** The section flags do not touch the table. *)
Lemma info_sections_slots (line : bytes) (st : scan_state) :
  slots (info_sections line st) = slots st.
Proof.
  unfold info_sections.
  repeat match goal with |- context [if ?b then _ else _] => destruct b end;
    reflexivity.
Qed.

(** A line on which no Clevis token is processed keeps every entry. *)
Lemma idle_line_keeps_entries (dev : str) (line : bytes) (st st' : scan_state) (w w' : W) :
  in_luks2_token_section (info_sections line st) = false
  \/ fullmatch_number "  " ": clevis" line = None ->
  info_line dev st line w = (Ok st', w') ->
  forall k v, slots_find k (slots st) = Some v -> slots_find k (slots st') = Some v.
Proof.
  intros Hidle. unfold info_line, mbind.
  destruct (info_slot_line dev line (info_sections line st) w) as [[st1|e] w1] eqn:E1;
    [|discriminate].
  assert (Hflag : in_luks2_token_section st1 = in_luks2_token_section (info_sections line st))
    by apply (info_slot_line_frame _ _ _ _ _ _ E1).
  rewrite info_token_line_idle by (rewrite Hflag; exact Hidle).
  intros E2 k v Hk. inversion E2; subst.
  apply (slot_line_keeps_entries _ _ _ _ _ _ E1).
  now rewrite info_sections_slots.
Qed.

(** C9.  A slot line (of either version) never replaces the entry of a
    slot that already has one: the table is left as it is or gets one new
    entry at its end, for a slot that had none; every entry present before
    the line is present after it; and when the slot the line names is
    already in the table the whole state is unchanged.  The same holds for
    the whole line whenever no Clevis token is processed on it: only the
    token step overwrites entries. *)
Theorem first_slot_entry_wins (dev : str) (line : bytes) (st st' : scan_state) (w w' : W) :
  info_slot_line dev line st w = (Ok st', w') ->
  (slots st' = slots st
   \/ exists slot entry,
        slots_mem slot (slots st) = false /\ slots st' = slots st ++ [(slot, entry)])
  /\ (forall k v, slots_find k (slots st) = Some v -> slots_find k (slots st') = Some v)
  /\ (forall digits slot,
        slot_match line st = Some digits ->
        int_of_digits digits = Ok slot ->
        slots_mem slot (slots st) = true ->
        st' = st)
  /\ (forall (st0 st2 : scan_state) (w0 w2 : W),
        in_luks2_token_section (info_sections line st0) = false
        \/ fullmatch_number "  " ": clevis" line = None ->
        info_line dev st0 line w0 = (Ok st2, w2) ->
        forall k v, slots_find k (slots st0) = Some v -> slots_find k (slots st2) = Some v).
Proof.
  intros E. split; [|split; [|split]].
  - apply (info_slot_line_frame dev line st st' w w' E).
  - exact (slot_line_keeps_entries dev line st st' w w' E).
  - intros digits slot Hm Hi Hmem. revert E. unfold info_slot_line.
    rewrite Hm. unfold mbind at 1. unfold lift at 1. rewrite Hi.
    unfold mbind. rewrite Hmem. cbn [negb].
    intros E. mcases E; now inversion E.
  - intros st0 st2 w0 w2. apply idle_line_keeps_entries.
Qed.

End LineFacts.

(** C9, witness: a slot line for key slot 0 leaves the entry that slot 0
    already has. *)
Lemma first_slot_entry_wins_witness :
  let first := VDict (clevis_entry 0 "null") in
  let st := Scan [ (0, first) ] 2 32 true false in
  @info_slot_line Ref.lib _ Sim.host Examples.dev "  0: luks2" st Examples.world_slots
    = (Ok st, Examples.world_slots)
  /\ slots_find 0 (slots st) = Some first.
Proof.
  intros first st. split; [reflexivity|].
  apply (proj1 (proj2 (@first_slot_entry_wins Ref.lib _ Sim.host
                         Examples.dev "  0: luks2" st st
                         Examples.world_slots Examples.world_slots eq_refl))).
  reflexivity.
Defined.

(* ================================================================== *)
(** ** The version and the slot limit *)

Section VersionFacts.

Context {L : PyLib} {W : Type} {H : Host W}.

Lemma info_sections_version (line : bytes) (st : scan_state) :
  (version (info_sections line st), max_slots (info_sections line st)) =
  if String.eqb "Keyslots:" line then (2, 32) else (version st, max_slots st).
Proof.
  unfold info_sections. rewrite (String.eqb_sym "Keyslots:" line).
  repeat match goal with |- context [if ?b then _ else _] => destruct b end;
    reflexivity.
Qed.

Lemma info_line_version (dev : str) (line : bytes) (st st' : scan_state) (w w' : W) :
  info_line dev st line w = (Ok st', w') ->
  (version st', max_slots st') =
  if String.eqb "Keyslots:" line then (2, 32) else (version st, max_slots st).
Proof.
  unfold info_line, mbind.
  destruct (info_slot_line dev line (info_sections line st) w) as [[st1|e] w1] eqn:E1;
    [|discriminate].
  intros E2.
  destruct (info_slot_line_frame _ _ _ _ _ _ E1) as (Hv1 & Hm1 & _).
  destruct (info_token_line_frame _ _ _ _ _ _ E2) as (Hv2 & Hm2 & _).
  rewrite Hv2, Hm2, Hv1, Hm1. apply info_sections_version.
Qed.

(** After the scan the version is 2 with limit 32 if the marker line was
    met, and what it was before otherwise. *)
Lemma scan_version (dev : str) (lines : list bytes) (st st' : scan_state) (w w' : W) :
  mfor_each (info_line dev) lines st w = (Ok st', w') ->
  (version st', max_slots st') =
  if existsb (String.eqb "Keyslots:") lines then (2, 32) else (version st, max_slots st).
Proof.
  revert st w. induction lines as [|line lines IH]; intros st w.
  - cbn. intros E. now inversion E.
  - cbn [mfor_each existsb]. unfold mbind.
    destruct (info_line dev st line w) as [[st1|e] w1] eqn:E1; [|discriminate].
    intros E. rewrite (IH _ _ E).
    pose proof (info_line_version _ _ _ _ _ _ E1) as Hv.
    destruct (String.eqb "Keyslots:" line); cbn [orb].
    + inversion Hv as [[Hv1 Hm1]]. rewrite Hv1, Hm1.
      now destruct (existsb (String.eqb "Keyslots:") lines).
    + inversion Hv as [[Hv1 Hm1]]. now rewrite Hv1, Hm1.
Qed.

(** C5.  Every state [info] returns is [{"version": v, "slots": ...,
    "max_slots": m}] with [v] 1 or 2, [m = 8] when [v = 1] and [m = 32]
    when [v = 2]; and [v] is 2 exactly when the dump was obtained and has
    the line [Keyslots:]. *)
Theorem version_fixes_max_slots (dev : str) (w w' : W) (state : value) :
  info dev w = (Ok state, w') ->
  exists (v m : Z) (entries : list value),
    state = state_dict v entries m
    /\ (v = 1 -> m = 8)
    /\ (v = 2 -> m = 32)
    /\ (v = 1 \/ v = 2)
    /\ (v = 2 <->
        exists (dump : completed) (w1 : W),
          subprocess_run [ "cryptsetup"; "luksDump"; dev ] w = (Ok dump, w1)
          /\ returncode dump = 0
          /\ In "Keyslots:" (splitlines (stdout dump))).
Proof.
  unfold info, mbind.
  destruct (subprocess_run [ "cryptsetup"; "luksDump"; dev ] w) as [[dump|e] w1] eqn:Hrun;
    [|discriminate].
  destruct (Z.eqb_spec (returncode dump) 0) as [Hrc|Hrc]; cbn [negb].
  - destruct (mfor_each (info_line dev) (splitlines (stdout dump)) initial_scan w1)
      as [[st|e] w2] eqn:Hscan; [|discriminate].
    intros E. inversion E; subst. clear E.
    pose proof (scan_version _ _ _ _ _ _ Hscan) as Hv. cbn [version max_slots initial_scan] in Hv.
    exists (version st), (max_slots st), (map snd (slots st)).
    destruct (existsb (String.eqb "Keyslots:") (splitlines (stdout dump))) eqn:Hk;
      inversion Hv as [[Hv1 Hm1]]; rewrite ?Hv1, ?Hm1.
    + split; [reflexivity|]. split; [lia|]. split; [reflexivity|].
      split; [now right|]. split; [|reflexivity].
      intros _. exists dump, w1. split; [reflexivity|]. split; [exact Hrc|].
      now apply existsb_eqb_In.
    + split; [reflexivity|]. split; [reflexivity|]. split; [lia|].
      split; [now left|]. split; [lia|].
      intros (dump' & w1' & Hrun' & _ & Hin).
      inversion Hrun'; subst. apply existsb_eqb_In in Hin. congruence.
  - intros E. inversion E; subst. clear E.
    exists 1, 8, []. split; [reflexivity|]. split; [reflexivity|]. split; [lia|].
    split; [now left|]. split; [lia|].
    intros (dump' & w1' & Hrun' & Hrc' & _). inversion Hrun'; subst. contradiction.
Qed.

End VersionFacts.

(** C5, witness: a version 2 dump. *)
Lemma version_fixes_max_slots_witness :
  exists (v m : Z) (entries : list value),
    state_dict 2 [ VDict (bare_entry 0); VDict (bare_entry 2) ] 32 = state_dict v entries m
    /\ (v = 1 -> m = 8)
    /\ (v = 2 -> m = 32)
    /\ (v = 1 \/ v = 2)
    /\ (v = 2 <->
        exists (dump : completed) (w1 : Sim.world),
          @subprocess_run _ Sim.host [ "cryptsetup"; "luksDump"; Examples.dev ]
            Examples.world_slots = (Ok dump, w1)
          /\ returncode dump = 0
          /\ In "Keyslots:" (splitlines (stdout dump))).
Proof.
  apply (@version_fixes_max_slots Ref.lib _ Sim.host Examples.dev
           Examples.world_slots Examples.world_slots).
  vm_compute; reflexivity.
Defined.

(* ================================================================== *)
(** ** Tokens overwrite slot entries *)

Section TokenFacts.

Context {L : PyLib} {W : Type} {H : Host W}.

(** The loop over the key slots of a token stores the token's entry under
    every slot it names and touches no other slot. *)
Lemma assign_slots_spec (config : str) (members : list value) (ints : list Z) :
  Forall2 (fun m z => int_of_value m = Ok z) members ints ->
  forall d : list (Z * value),
  exists d' : list (Z * value),
    for_each (assign_slot config) members d = Ok d'
    /\ (forall slot, In slot ints ->
          slots_find slot d' = Some (VDict (clevis_entry slot config)))
    /\ (forall slot, ~ In slot ints -> slots_find slot d' = slots_find slot d).
Proof.
  induction 1 as [|m z members ints Hm _ IH]; intros d.
  - exists d. split; [reflexivity|]. split; [contradiction|reflexivity].
  - destruct (IH (slots_set z (VDict (clevis_entry z config)) d)) as (d' & Hd' & Hin & Hout).
    exists d'. split; [|split].
    + cbn [for_each]. unfold assign_slot at 1. rewrite Hm. cbn [bind]. exact Hd'.
    + intros slot Hslot.
      destruct (in_dec Z.eq_dec slot ints) as [Hi|Hi]; [now apply Hin|].
      destruct Hslot as [->|Hslot]; [|contradiction].
      rewrite (Hout _ Hi). apply slots_find_set_same.
    + intros slot Hslot.
      rewrite Hout by (intros Hi; apply Hslot; now right).
      apply slots_find_set_other. intros ->. apply Hslot. now left.
Qed.

(** Lines on which no Clevis token is processed keep every entry. *)
Lemma idle_lines_keep_entries (dev : str) (lines : list bytes) :
  Forall (fun l => fullmatch_number "  " ": clevis" l = None) lines ->
  forall (st st' : scan_state) (w w' : W),
    mfor_each (info_line dev) lines st w = (Ok st', w') ->
    forall k v, slots_find k (slots st) = Some v -> slots_find k (slots st') = Some v.
Proof.
  induction 1 as [|line lines Hline _ IH]; intros st st' w w'.
  - cbn. intros E. now inversion E.
  - cbn [mfor_each]. unfold mbind.
    destruct (info_line dev st line w) as [[st1|e] w1] eqn:E1; [|discriminate].
    intros E k v Hk. apply (IH _ _ _ _ E).
    apply (idle_line_keeps_entries dev line st st1 w w1 (or_intror Hline) E1 k v Hk).
Qed.

(** C4 (amended).  On a token line, when the export succeeds, the token
    is of type ["clevis"], its protected header decodes to [conf], [conf]
    has the JSON text [config] and every member of [keyslots] converts to
    an integer, every key slot the token names gets the entry
    [{"Index": {"v": slot}, "ClevisConfig": {"v": config}}], whatever entry
    the slot had; the other slots and the rest of the state are untouched;
    and the entry stays through the lines that follow as long as no further
    Clevis token is processed: slot lines never take it back. *)
Theorem token_entry_overwrites_slot (dev : str) (line id : bytes) (st : scan_state)
  (w w1 : W) (token : completed) (text config : str)
  (token_object jwe protected keyslots : value) (conf : option (list (value * value)))
  (members : list value) (ints : list Z) :
  in_luks2_token_section st = true ->
  fullmatch_number "  " ": clevis" line = Some id ->
  subprocess_run [ "cryptsetup"; "token"; "export"; dev; "--token-id"; id ] w
    = (Ok token, w1) ->
  returncode token = 0 ->
  utf8_decode (stdout token) = Ok text ->
  json_loads text = Ok token_object ->
  get token_object "type" VNone = Ok (VStr "clevis") ->
  getitem token_object "jwe" = Ok jwe ->
  getitem jwe "protected" = Ok protected ->
  get_clevis_config_from_protected_header recursion_limit protected = Ok conf ->
  json_dumps (value_of_opt conf) = Ok config ->
  get token_object "keyslots" (VList []) = Ok keyslots ->
  iter keyslots = Ok members ->
  Forall2 (fun m z => int_of_value m = Ok z) members ints ->
  exists st' : scan_state,
    info_token_line dev line st w = (Ok st', w1)
    /\ (forall slot, In slot ints ->
          slots_find slot (slots st')
          = Some (VDict [ (VStr "Index", VDict [ (VStr "v", VInt slot) ]);
                          (VStr "ClevisConfig", VDict [ (VStr "v", VStr config) ]) ]))
    /\ (forall slot, ~ In slot ints ->
          slots_find slot (slots st') = slots_find slot (slots st))
    /\ version st' = version st /\ max_slots st' = max_slots st
    /\ (forall (after : list bytes) (st_end : scan_state) (w2 w3 : W),
          Forall (fun l => fullmatch_number "  " ": clevis" l = None) after ->
          mfor_each (info_line dev) after st' w2 = (Ok st_end, w3) ->
          forall slot, In slot ints ->
            slots_find slot (slots st_end)
            = Some (VDict [ (VStr "Index", VDict [ (VStr "v", VInt slot) ]);
                            (VStr "ClevisConfig", VDict [ (VStr "v", VStr config) ]) ])).
Proof.
  intros Hsec Hm Hrun Hrc Hu Hj Hty Hjwe Hpr Hconf Hdump Hks Hiter Hints.
  destruct (assign_slots_spec config members ints Hints (slots st)) as (d' & Hd' & Hin & Hout).
  exists (Scan d' (version st) (max_slots st)
               (in_luks2_slot_section st) (in_luks2_token_section st)).
  split; [|split; [|split; [|split; [|split]]]]; cbn [slots version max_slots]; auto.
  - unfold info_token_line. rewrite Hsec, Hm.
    rewrite (mbind_ok _ _ _ _ _ Hrun). rewrite Hrc. cbn [Z.eqb].
    rewrite (lift_ok _ _ _ _ Hu), (lift_ok _ _ _ _ Hj), (lift_ok _ _ _ _ Hty).
    rewrite py_eq_str_refl.
    rewrite (lift_ok _ _ _ _ Hjwe), (lift_ok _ _ _ _ Hpr), (lift_ok _ _ _ _ Hconf).
    rewrite (lift_ok _ _ _ _ Hdump), (lift_ok _ _ _ _ Hks), (lift_ok _ _ _ _ Hiter).
    rewrite (lift_ok _ _ _ _ Hd'). reflexivity.
  - intros after st_end w2 w3 Hafter Hscan slot Hslot.
    apply (idle_lines_keep_entries dev after Hafter _ _ _ _ Hscan).
    cbn [slots]. exact (Hin slot Hslot).
Qed.

End TokenFacts.

(** C4, witness: the dump with key slots 0 and 2 and a tang token over
    key slot 2.  The token line gives slot 2 the tang policy, and the state
    [info] returns has slot 0 without policy and slot 2 with it. *)
Lemma token_entry_overwrites_slot_witness :
  let config := Sim.json_text "{'pin': 'tang', 'tang': {'url': 'http://tang1.example'}}" in
  let slot0 := VDict [ (VStr "Index", VDict [ (VStr "v", VInt 0) ]) ] in
  let slot2 := VDict [ (VStr "Index", VDict [ (VStr "v", VInt 2) ]);
                       (VStr "ClevisConfig", VDict [ (VStr "v", VStr config) ]) ] in
  let st := Scan [ (0, slot0); (2, VDict [ (VStr "Index", VDict [ (VStr "v", VInt 2) ]) ]) ]
                 2 32 false true in
  (exists st' : scan_state,
     @info_token_line Ref.lib _ Sim.host Examples.dev "  0: clevis" st Examples.world_tang
       = (Ok st', Examples.world_tang)
     /\ slots_find 2 (slots st') = Some slot2
     /\ slots_find 0 (slots st') = Some slot0)
  /\ @info Ref.lib _ Sim.host Examples.dev Examples.world_tang
     = (Ok (VDict [ (VStr "version", VInt 2);
                    (VStr "slots", VList [ slot0; slot2 ]);
                    (VStr "max_slots", VInt 32) ]),
        Examples.world_tang).
Proof.
  intros config slot0 slot2 st. split; [|vm_compute; reflexivity].
  pose (jwe := VDict [ (VStr "ciphertext", VStr "Y3Q");
                       (VStr "encrypted_key", VStr "");
                       (VStr "iv", VStr "aXY");
                       (VStr "protected", VStr Examples.tang1);
                       (VStr "tag", VStr "dGFn") ]).
  destruct (@token_entry_overwrites_slot Ref.lib _ Sim.host Examples.dev
              "  0: clevis" "0" st Examples.world_tang Examples.world_tang
              (Completed 0 (Examples.token_json Examples.tang1))
              (Examples.token_json Examples.tang1) config
              (VDict [ (VStr "type", VStr "clevis");
                       (VStr "keyslots", VList [ VStr "2" ]);
                       (VStr "jwe", jwe) ])
              jwe (VStr Examples.tang1) (VList [ VStr "2" ])
              (Some [ (VStr "pin", VStr "tang"); (VStr "tang", Examples.cfg1) ])
              [ VStr "2" ] [ 2 ])
    as (st' & Hline & Hin & Hout & _);
    [ vm_compute; reflexivity .. | | ].
  - apply Forall2_cons; [vm_compute; reflexivity|apply Forall2_nil].
  - exists st'. split; [exact Hline|]. split.
    + apply Hin. now left.
    + rewrite Hout; [reflexivity|]. intros [E|[]]. discriminate.
Defined.

(** C4, counterexample: a token of type ["clevis"] over key slot 2 whose
    protected header is not JSON.  The token line raises, and so does
    [info]: slot 2 is not overwritten, there is no state at all. *)
Lemma undecodable_token_counterexample :
  let st := Scan [ (0, VDict (bare_entry 0)); (2, VDict (bare_entry 2)) ] 2 32 false true in
  (exists token_object : value,
     @json_loads Ref.lib (Examples.token_json Examples.not_json) = Ok token_object
     /\ get token_object "type" VNone = Ok (VStr "clevis")
     /\ get token_object "keyslots" (VList []) = Ok (VList [ VStr "2" ]))
  /\ @info_token_line Ref.lib _ Sim.host Examples.dev "  0: clevis" st Examples.world_broken
     = (Raise ValueError, Examples.world_broken)
  /\ @info Ref.lib _ Sim.host Examples.dev Examples.world_broken
     = (Raise ValueError, Examples.world_broken).
Proof.
  intros st. split; [|split]; [ | vm_compute; reflexivity .. ].
  eexists. split; [vm_compute; reflexivity|]. split; vm_compute; reflexivity.
Qed.

(* ================================================================== *)
(** ** The shape of the states *)

Lemma py_eq_entry (a b : value) :
  entry_shaped a -> entry_shaped b -> py_eq a b = true -> a = b.
Proof.
  intros [k|k c] [k'|k' c']; cbn; rewrite ?andb_true_r; intros E.
  - apply Z.eqb_eq in E. now subst.
  - discriminate.
  - discriminate.
  - apply andb_true_iff in E as [E1 E2].
    apply Z.eqb_eq in E1. apply String.eqb_eq in E2. now subst.
Qed.

Lemma py_eq_entry_refl (a : value) : entry_shaped a -> py_eq a a = true.
Proof.
  intros [k|k c]; cbn; rewrite ?andb_true_r.
  - apply Z.eqb_refl.
  - now rewrite Z.eqb_refl, String.eqb_refl.
Qed.

Lemma py_eq_entries (la lb : list value) :
  Forall entry_shaped la -> Forall entry_shaped lb ->
  py_eq (VList la) (VList lb) = true -> la = lb.
Proof.
  intros Ha. revert lb. induction Ha as [|a la Hs Ha IH]; intros lb Hb E.
  - destruct lb; [reflexivity|discriminate].
  - destruct Hb as [|b lb Hsb Hb]; [discriminate|].
    cbn [py_eq] in E. apply andb_true_iff in E as [E1 E2].
    f_equal; [now apply py_eq_entry|]. now apply IH.
Qed.

Lemma py_eq_entries_refl (la : list value) :
  Forall entry_shaped la -> py_eq (VList la) (VList la) = true.
Proof.
  induction 1 as [|a la Hs Ha IH]; [reflexivity|].
  cbn [py_eq]. rewrite (py_eq_entry_refl a Hs). exact IH.
Qed.

Lemma py_eq_state (a b : value) :
  state_shaped a -> state_shaped b -> (py_eq a b = true <-> a = b).
Proof.
  intros (v & m & es & -> & Hes) (v' & m' & es' & -> & Hes'). split.
  - unfold state_dict. cbn [py_eq List.length Nat.eqb find fst andb String.eqb Ascii.eqb Bool.eqb].
    intros E.
    apply andb_true_iff in E as [E1 E]. apply andb_true_iff in E as [E2 E].
    apply andb_true_iff in E as [E3 _].
    apply Z.eqb_eq in E1. apply Z.eqb_eq in E3.
    change (py_eq (VList es) (VList es') = true) in E2.
    apply py_eq_entries in E2; auto. now subst.
  - intros E. inversion E; subst. unfold state_dict.
    cbn [py_eq List.length Nat.eqb find fst andb String.eqb Ascii.eqb Bool.eqb].
    rewrite !Z.eqb_refl.
    change (py_eq (VList es') (VList es') && true = true).
    now rewrite py_eq_entries_refl.
Qed.

Lemma slots_set_shaped (slot : Z) (e : value) (d : list (Z * value)) :
  entry_shaped e ->
  Forall (fun kv => entry_shaped (snd kv)) d ->
  Forall (fun kv => entry_shaped (snd kv)) (slots_set slot e d).
Proof.
  intros He. induction 1 as [|[k v] d Hk Hd IH]; cbn [slots_set].
  - constructor; [exact He|constructor].
  - destruct (slot =? k); constructor; auto.
Qed.

Section ShapeFacts.

Context {L : PyLib} {W : Type} {H : Host W}.

Lemma info_slot_line_shaped (dev : str) (line : bytes) (st st' : scan_state) (w w' : W) :
  Forall (fun kv => entry_shaped (snd kv)) (slots st) ->
  info_slot_line dev line st w = (Ok st', w') ->
  Forall (fun kv => entry_shaped (snd kv)) (slots st').
Proof.
  intros Hs. unfold info_slot_line. intros E. mcases_in E;
    inversion E; subst; cbn [slots]; auto;
    apply slots_set_shaped; auto;
    first [ apply shaped_bare | apply shaped_clevis ].
Qed.

Lemma assign_slots_shaped (config : str) (members : list value) :
  forall d d' : list (Z * value),
    Forall (fun kv => entry_shaped (snd kv)) d ->
    for_each (assign_slot config) members d = Ok d' ->
    Forall (fun kv => entry_shaped (snd kv)) d'.
Proof.
  induction members as [|m members IH]; intros d d' Hd.
  - cbn. intros [= <-]. exact Hd.
  - cbn [for_each]. unfold assign_slot at 1.
    destruct (int_of_value m) as [z|e]; [|discriminate]. cbn [bind].
    apply IH. apply slots_set_shaped; [apply shaped_clevis|exact Hd].
Qed.

Lemma info_token_line_shaped (dev : str) (line : bytes) (st st' : scan_state) (w w' : W) :
  Forall (fun kv => entry_shaped (snd kv)) (slots st) ->
  info_token_line dev line st w = (Ok st', w') ->
  Forall (fun kv => entry_shaped (snd kv)) (slots st').
Proof.
  intros Hs. unfold info_token_line. intros E. mcases E;
    inversion E; subst; cbn [slots]; auto.
  eapply assign_slots_shaped; eauto.
Qed.

Lemma scan_shaped (dev : str) (lines : list bytes) :
  forall (st st' : scan_state) (w w' : W),
    Forall (fun kv => entry_shaped (snd kv)) (slots st) ->
    mfor_each (info_line dev) lines st w = (Ok st', w') ->
    Forall (fun kv => entry_shaped (snd kv)) (slots st').
Proof.
  induction lines as [|line lines IH]; intros st st' w w' Hs.
  - cbn. intros E. now inversion E; subst.
  - cbn [mfor_each]. unfold mbind at 1. unfold info_line at 1. unfold mbind at 1.
    destruct (info_slot_line dev line (info_sections line st) w) as [[st1|e] w1] eqn:E1;
      [|discriminate].
    destruct (info_token_line dev line st1 w1) as [[st2|e] w2] eqn:E2; [|discriminate].
    apply IH.
    apply (info_token_line_shaped _ _ _ _ _ _ (info_slot_line_shaped _ _ _ _ _ _
             ltac:(rewrite info_sections_slots; exact Hs) E1) E2).
Qed.

(** Every state [info] returns has the shape above. *)
Lemma info_state_shaped (dev : str) (w w' : W) (state : value) :
  info dev w = (Ok state, w') -> state_shaped state.
Proof.
  unfold info, mbind.
  destruct (subprocess_run [ "cryptsetup"; "luksDump"; dev ] w) as [[dump|e] w1];
    [|discriminate].
  destruct (negb (returncode dump =? 0)).
  - intros E. inversion E; subst. exists 1, 8, []. split; [reflexivity|constructor].
  - destruct (mfor_each (info_line dev) (splitlines (stdout dump)) initial_scan w1)
      as [[st|e] w2] eqn:Hscan; [|discriminate].
    intros E. inversion E; subst.
    exists (version st), (max_slots st), (map snd (slots st)).
    split; [reflexivity|]. apply Forall_map.
    apply (scan_shaped dev _ initial_scan st w1 w' (Forall_nil _) Hscan).
Qed.

End ShapeFacts.

(* ================================================================== *)
(** ** The change monitor *)

Lemma no_repeat_snoc (states : list value) (new : value) :
  states <> [] ->
  no_repeat states ->
  py_ne new (last states VNone) = true ->
  no_repeat (states ++ [new]).
Proof.
  induction states as [|a states IH]; [congruence|].
  intros _ Hnr Hne. destruct states as [|b states].
  - cbn in *. auto.
  - cbn [app no_repeat] in *. destruct Hnr as [Hab Hnr].
    split; [exact Hab|]. apply IH; [discriminate|exact Hnr|exact Hne].
Qed.

Lemma last_snoc (states : list value) (new d : value) :
  last (states ++ [new]) d = new.
Proof. apply last_last. Qed.

(** On shaped states, [!=] is plain difference. *)
Lemma py_ne_state (a b : value) :
  state_shaped a -> state_shaped b -> (py_ne b a = true <-> b <> a).
Proof.
  intros Ha Hb. pose proof (py_eq_state b a Hb Ha) as Heq.
  unfold py_ne. rewrite negb_true_iff. split.
  - intros Hne E. apply Heq in E. congruence.
  - intros Hne. destruct (py_eq b a) eqn:E; [|reflexivity].
    exfalso. apply Hne. now apply Heq.
Qed.

Section MonitorFacts.

Context {L : PyLib} {W : Type} {H : Host W}.

Lemma lines_of_snoc (states : list value) (lines : list string) (new : value) (text : string) :
  lines_of states lines ->
  json_dumps new = Ok text ->
  lines_of (states ++ [new]) (lines ++ [emitted_line text]).
Proof.
  intros Hl Hd. apply Forall2_app; [exact Hl|].
  constructor; [|constructor]. now exists text.
Qed.

(** What [monitor] has done when its loop starts: one line written, for
    the state [info] has just built, which it keeps. *)
Lemma monitor_start_cases (dev : str) (w w1 : W) (out out1 : list string)
  (r : result monitor_state) :
  monitor_start dev (w, out) = (r, (w1, out1)) ->
  (out1 = out /\ exists e, r = Raise e)
  \/ (exists (st : monitor_state) (text : string) (wa : W),
        r = Ok st
        /\ info dev wa = (Ok (old_infos st), w1)
        /\ json_dumps (old_infos st) = Ok text
        /\ out1 = out ++ [emitted_line text]).
Proof.
  unfold monitor_start, check_output, on_world, write, emitted_line.
  cbn [fst snd].
  intros E. mcases_in E; cbn [fst snd] in *; inversion E; subst;
    try (left; split; [reflexivity|eexists; reflexivity]).
  right. do 3 eexists. split; [reflexivity|]. cbn [old_infos].
  split; [eassumption|]. split; [eassumption|reflexivity].
Qed.

(** One turn of the loop: either nothing is written and the state kept, or
    an event naming the path led to a rebuilt state different from the
    kept one, which is written and becomes the kept one. *)
Lemma monitor_turn_cases (dev : str) (st : monitor_state) (w0 w1 : W)
  (out0 out1 : list string) (r : result monitor_state) :
  monitor_turn dev st (w0, out0) = (r, (w1, out1)) ->
  (out1 = out0 /\ forall st', r = Ok st' -> st' = st)
  \/ (exists (line : bytes) (w0' : W) (new : value) (text : string),
        popen_readline w0 = (line, w0')
        /\ contains line (path st) = true
        /\ info dev w0' = (Ok new, w1)
        /\ py_ne new (old_infos st) = true
        /\ json_dumps new = Ok text
        /\ out1 = out0 ++ [emitted_line text]
        /\ r = Ok (Monitor (path st) new)).
Proof.
  unfold monitor_turn, on_world, write, emitted_line.
  cbn [fst snd].
  intros E. mcases_in E; cbn [fst snd] in *; inversion E; subst;
    try (left; split; [reflexivity|intros ? [=]; congruence]).
  right. do 4 eexists.
  repeat match goal with |- _ /\ _ => split end; try eassumption; reflexivity.
Qed.

(** The lines written up to any turn are the lines of a sequence of states
    built by [info], without two equal neighbours, and the last of these
    is the kept state. *)
Lemma monitor_loop_trace (dev : str) (n : nat) :
  forall (st : monitor_state) (w w' : W) (out out' : list string)
         (r : result monitor_state) (states : list value),
    states <> [] ->
    lines_of states out ->
    no_repeat states ->
    Forall state_shaped states ->
    last states VNone = old_infos st ->
    monitor_loop dev n st (w, out) = (r, (w', out')) ->
    exists more : list value,
      lines_of (states ++ more) out'
      /\ no_repeat (states ++ more)
      /\ Forall state_shaped (states ++ more)
      /\ (forall st', r = Ok st' -> last (states ++ more) VNone = old_infos st').
Proof.
  induction n as [|n IH]; intros st w w' out out' r states Hne Hl Hnr Hsh Hlast.
  - cbn. intros E. inversion E; subst. exists []. rewrite app_nil_r.
    split; [exact Hl|]. split; [exact Hnr|]. split; [exact Hsh|].
    intros st' [=]. now subst.
  - cbn [monitor_loop]. unfold mbind.
    destruct (monitor_turn dev st (w, out)) as [r1 [w1 out1]] eqn:E1.
    destruct (monitor_turn_cases dev st w w1 out out1 r1 E1)
      as [(-> & Hsame) | (line & w0' & new & text & _ & _ & Hinfo & Hdiff & Hd & -> & ->)].
    + destruct r1 as [st1|e].
      * rewrite (Hsame st1 eq_refl). apply IH; assumption.
      * intros E. inversion E; subst. exists []. rewrite app_nil_r.
        split; [exact Hl|]. split; [exact Hnr|]. split; [exact Hsh|].
        intros st' [=].
    + intros E.
      destruct (IH (Monitor (path st) new) w1 w' (out ++ [emitted_line text]) out' r
                   (states ++ [new]))
        as (more & Hl' & Hnr' & Hsh' & Hlast'); auto.
      * now destruct states.
      * now apply lines_of_snoc.
      * apply no_repeat_snoc; auto. now rewrite Hlast.
      * apply Forall_app. split; [exact Hsh|].
        constructor; [|constructor]. exact (info_state_shaped _ _ _ _ Hinfo).
      * apply last_snoc.
      * exists (new :: more). rewrite <- app_assoc in *. auto.
Qed.

(** A start-up that succeeds went through every step of lines 100-106:
    the path is what [udevadm info] printed, less its line ends. *)
Lemma monitor_start_ok (dev : str) (w w1 : W) (out out1 : list string) (st : monitor_state) :
  monitor_start dev (w, out) = (Ok st, (w1, out1)) ->
  exists (done : completed) (wb wa : W) (text : string),
    subprocess_run [ "udevadm"; "info"; "-q"; "path"; dev ] w = (Ok done, wb)
    /\ returncode done = 0
    /\ path st = rstrip_newline (stdout done)
    /\ subprocess_popen [ "stdbuf"; "-o"; "L"; "udevadm"; "monitor"; "-u"; "-s"; "block" ] wb
       = (Ok tt, wa)
    /\ info dev wa = (Ok (old_infos st), w1)
    /\ json_dumps (old_infos st) = Ok text
    /\ out1 = out ++ [emitted_line text].
Proof.
  unfold monitor_start, check_output, on_world, write, emitted_line, mbind, lift, ret.
  cbn [fst snd].
  destruct (subprocess_run [ "udevadm"; "info"; "-q"; "path"; dev ] w)
    as [[done|e] wb] eqn:Hrun; [|discriminate].
  destruct (returncode done =? 0) eqn:Hrc; [|discriminate]. cbn [fst snd].
  destruct (subprocess_popen _ wb) as [[[]|e] wa] eqn:Hpop; [|discriminate]. cbn [fst snd].
  destruct (info dev wa) as [[infos|e] wc] eqn:Hinfo; [|discriminate]. cbn [fst snd].
  destruct (json_dumps infos) as [text|e] eqn:Hd; [|discriminate]. cbn [fst snd].
  intros E. inversion E; subst. cbn [path old_infos].
  exists done, wb, wa, text. apply Z.eqb_eq in Hrc. auto 10.
Qed.

(** The loop never changes the path. *)
Lemma monitor_loop_path (dev : str) (n : nat) :
  forall (st st' : monitor_state) (s s' : W * list string),
    monitor_loop dev n st s = (Ok st', s') -> path st' = path st.
Proof.
  induction n as [|n IH]; intros st st' s s'.
  - cbn. intros E. now inversion E.
  - cbn [monitor_loop]. unfold mbind.
    destruct s as [w out].
    destruct (monitor_turn dev st (w, out)) as [r1 [w1 out1]] eqn:E1.
    destruct (monitor_turn_cases dev st w w1 out out1 r1 E1)
      as [(-> & Hsame) | (line & w0' & new & text & _ & _ & _ & _ & _ & -> & ->)].
    + destruct r1 as [st1|e]; [|discriminate].
      rewrite (Hsame st1 eq_refl). apply IH.
    + intros E. now rewrite (IH _ _ _ _ E).
Qed.

(** C6 (amended).  When the start-up succeeds ([udevadm info] exits with
    0, the event monitor starts, [info] returns a state and the state has a
    JSON text), [monitor] writes exactly one line before its loop, the line
    of that state, and the path it keeps is what [udevadm info] printed,
    less its line ends; when the start-up raises, nothing is written.  A
    turn of the loop writes nothing, or writes one line when the event read
    contains the kept path and the state built for it differs ([!=]) from
    the one written last, which it then replaces; the path is never
    changed.  In every run, finished or ended by an exception, either the
    start-up raised and nothing is written, or the lines written are those
    of a sequence of states built by [info] in which no two neighbours are
    equal: two rebuilds in a row that give the same state give one line.
    On such states [!=] is structural difference. *)
Theorem monitor_emits_once_then_on_change (dev : str) (w : W) :
  (forall (st : monitor_state) (w1 : W) (out1 : list string),
     monitor_start dev (w, []) = (Ok st, (w1, out1)) ->
     exists (done : completed) (wb wa : W) (text : string),
       subprocess_run [ "udevadm"; "info"; "-q"; "path"; dev ] w = (Ok done, wb)
       /\ returncode done = 0
       /\ path st = rstrip_newline (stdout done)
       /\ subprocess_popen [ "stdbuf"; "-o"; "L"; "udevadm"; "monitor"; "-u"; "-s"; "block" ] wb
          = (Ok tt, wa)
       /\ info dev wa = (Ok (old_infos st), w1)
       /\ json_dumps (old_infos st) = Ok text
       /\ out1 = [emitted_line text])
  /\
  (forall (e : exn) (w1 : W) (out1 : list string),
     monitor_start dev (w, []) = (Raise e, (w1, out1)) -> out1 = [])
  /\
  (forall (st : monitor_state) (w0 w1 : W) (out0 out1 : list string)
          (r : result monitor_state),
     monitor_turn dev st (w0, out0) = (r, (w1, out1)) ->
     (out1 = out0 /\ forall st', r = Ok st' -> st' = st)
     \/ (exists (line : bytes) (w0' : W) (new : value) (text : string),
           popen_readline w0 = (line, w0')
           /\ contains line (path st) = true
           /\ info dev w0' = (Ok new, w1)
           /\ py_ne new (old_infos st) = true
           /\ json_dumps new = Ok text
           /\ out1 = out0 ++ [emitted_line text]
           /\ r = Ok (Monitor (path st) new)))
  /\
  (forall (n : nat) (r : result monitor_state) (w1 : W) (out : list string),
     monitor dev n (w, []) = (r, (w1, out)) ->
     (out = [] /\ exists e, r = Raise e /\ fst (monitor_start dev (w, [])) = Raise e)
     \/ (exists (first : value) (more : list value),
           lines_of (first :: more) out
           /\ no_repeat (first :: more)
           /\ Forall state_shaped (first :: more)
           /\ (forall st, r = Ok st ->
                 last (first :: more) VNone = old_infos st
                 /\ exists (done : completed) (wb : W),
                      subprocess_run [ "udevadm"; "info"; "-q"; "path"; dev ] w = (Ok done, wb)
                      /\ path st = rstrip_newline (stdout done))))
  /\
  (forall a b : value,
     state_shaped a -> state_shaped b -> (py_ne b a = true <-> b <> a)).
Proof.
  split; [|split; [|split; [|split]]]; [| | | |exact py_ne_state].
  - intros st w1 out1 E.
    destruct (monitor_start_ok dev w w1 [] out1 st E)
      as (done & wb & wa & text & Hrun & Hrc & Hp & Hpop & Hi & Hd & ->).
    exists done, wb, wa, text. auto 10.
  - intros e w1 out1 E.
    destruct (monitor_start_cases dev w w1 [] out1 _ E)
      as [(-> & _) | (st' & text & wa & [=] & _)].
    reflexivity.
  - intros st w0 w1 out0 out1 r. apply monitor_turn_cases.
  - intros n r w1 out. unfold monitor, mbind.
    destruct (monitor_start dev (w, [])) as [r0 [w0 out0]] eqn:E0.
    destruct (monitor_start_cases dev w w0 [] out0 r0 E0)
      as [(-> & e & ->) | (st & text & wa & -> & Hi & Hd & ->)].
    + intros E. inversion E; subst. left. split; [reflexivity|]. now exists e.
    + intros E. right.
      destruct (monitor_start_ok dev w w0 [] _ st E0)
        as (done & wb & _ & _ & Hrun & _ & Hp & _).
      destruct (monitor_loop_trace dev n st w0 w1 [emitted_line text] out r
                  [old_infos st])
        as (more & Hl & Hnr & Hsh & Hlast); auto.
      * discriminate.
      * constructor; [|constructor]. now exists text.
      * cbn. exact I.
      * constructor; [|constructor]. exact (info_state_shaped _ _ _ _ Hi).
      * exists (old_infos st), more.
        split; [exact Hl|]. split; [exact Hnr|]. split; [exact Hsh|].
        intros st' ->. split; [now apply Hlast|].
        exists done, wb. split; [exact Hrun|].
        now rewrite (monitor_loop_path dev n _ _ _ _ E).
Qed.

End MonitorFacts.

(** C6, witness: a session of six turns.  The device starts with two bare
    key slots; an event for another disk, an event for this disk with
    nothing changed, two events after a token was added, then end of file.
    Two lines are written: the initial state, and the state with the
    token.  The path kept to the end is the one [udevadm info] printed. *)
Lemma monitor_session_witness :
  let run := @monitor Ref.lib _ Sim.host Examples.dev 6 (Examples.world_session, []) in
  snd (snd run) =
    [ emitted_line (Sim.json_text
        "{'version': 2, 'slots': [{'Index': {'v': 0}}, {'Index': {'v': 2}}], 'max_slots': 32}");
      emitted_line (Sim.json_text
        "{'version': 2, 'slots': [{'Index': {'v': 0}}, {'Index': {'v': 2}, 'ClevisConfig': {'v': '{\'pin\': \'tang\', \'tang\': {\'url\': \'http://tang1.example\'}}'}}], 'max_slots': 32}") ]
  /\ (exists st : monitor_state, fst run = Ok st /\ path st = Examples.sys_path)
  /\ ((snd (snd run) = []
       /\ exists e, fst run = Raise e
                    /\ fst (@monitor_start Ref.lib _ Sim.host Examples.dev
                               (Examples.world_session, [])) = Raise e)
      \/ (exists (first : value) (more : list value),
            @lines_of Ref.lib (first :: more) (snd (snd run))
            /\ no_repeat (first :: more)
            /\ Forall state_shaped (first :: more)
            /\ (forall st, fst run = Ok st ->
                  last (first :: more) VNone = old_infos st
                  /\ exists (done : completed) (wb : Sim.world),
                       @subprocess_run _ Sim.host
                         [ "udevadm"; "info"; "-q"; "path"; Examples.dev ]
                         Examples.world_session = (Ok done, wb)
                       /\ path st = rstrip_newline (stdout done)))).
Proof.
  intros run. split; [vm_compute; reflexivity|]. split.
  - eexists. split; vm_compute; reflexivity.
  - apply (proj1 (proj2 (proj2 (proj2 (@monitor_emits_once_then_on_change Ref.lib _ Sim.host
                                         Examples.dev Examples.world_session))))
             6%nat (fst run) (fst (snd run)) (snd (snd run))).
    vm_compute; reflexivity.
Defined.

(** C6, counterexample: three starts that raise.  [udevadm] does not know
    the device; [cryptsetup] cannot be run; the device has a Clevis token
    whose header is not JSON.  Each run ends with the exception and no
    line is written, at start-up or later. *)
Lemma failed_startup_counterexample :
  @monitor Ref.lib _ Sim.host Examples.dev 3 (Cases.world_no_udev, [])
    = (Raise CalledProcessError, (Cases.world_no_udev, []))
  /\ @monitor Ref.lib _ Sim.host Examples.dev 3 (Cases.world_no_cryptsetup, [])
     = (Raise OSError, (Cases.world_no_cryptsetup, []))
  /\ @monitor Ref.lib _ Sim.host Examples.dev 3 (Cases.world_broken_token, [])
     = (Raise ValueError, (Cases.world_broken_token, [])).
Proof.
  split; [|split]; vm_compute; reflexivity.
Qed.

(* ================================================================== *)
(** ** The script on concrete inputs *)

(** [e30] is [{}] without its padding. *)
Example b64_decode_unpadded :
  @b64_decode Ref.lib (VStr "e30") = Ok "{}"
  /\ @b64_decode Ref.lib (VStr "e30=") = Ok "{}"
  /\ @b64_decode Ref.lib (VStr "a") = Raise ValueError.
Proof. split; [|split]; vm_compute; reflexivity. Qed.

(** A tang header decodes to its [clevis] object, unchanged. *)
Example tang_header_decodes :
  @get_clevis_config_from_protected_header Ref.lib 1000 (VStr Examples.tang1)
  = Ok (Some [ (VStr "pin", VStr "tang"); (VStr "tang", Examples.cfg1) ]).
Proof. vm_compute; reflexivity. Qed.

(** A version 2 dump with key slots 0 and 2 and no token: two slots
    without policy. *)
Example dump_without_tokens :
  @info Ref.lib _ Sim.host Examples.dev Examples.world_slots
  = (Ok (state_dict 2 [ VDict (bare_entry 0); VDict (bare_entry 2) ] 32),
     Examples.world_slots).
Proof. vm_compute; reflexivity. Qed.

(** A version 1 dump: the policy of slot 0 comes from LUKSMeta. *)
Example legacy_slot_policy :
  @info Ref.lib _ Sim.host Examples.dev Examples.world_legacy
  = (Ok (state_dict 1
           [ VDict (clevis_entry 0
                      (Sim.json_text
                         "{'pin': 'tang', 'tang': {'url': 'http://tang1.example'}}")) ]
           8),
     Examples.world_legacy).
Proof. vm_compute; reflexivity. Qed.

(** A token whose header has no [clevis] member still overwrites its
    slot: the policy text is [null]. *)
Example token_without_policy :
  let w := Sim.World
             [ (Examples.luksDump, Ok (Completed 0 Examples.dump_token));
               (Examples.token_export,
                Ok (Completed 0 (Examples.token_json Examples.no_clevis))) ] [] in
  fst (@info Ref.lib _ Sim.host Examples.dev w)
  = Ok (state_dict 2 [ VDict (bare_entry 0); VDict (clevis_entry 2 "null") ] 32).
Proof. vm_compute; reflexivity. Qed.
(* ================================================================== *)
(** ** Further properties of the decoder *)

Lemma for_each_app {A S : Type} (body : S -> A -> result S) (xs ys : list A) (acc : S) :
  for_each body (xs ++ ys) acc = (acc' <- for_each body xs acc ;; for_each body ys acc').
Proof.
  revert acc. induction xs as [|x xs IH]; intros acc; [reflexivity|].
  cbn [app for_each]. destruct (body acc x) as [acc'|e]; cbn [bind]; [apply IH|reflexivity].
Qed.

Lemma split_first_dotless (header rest : string) :
  dotless header = true ->
  split_first "." (header ++ String "." rest) = header
  /\ split_first "." header = header.
Proof.
  induction header as [|c header IH]; cbn [dotless append split_first].
  - intros _. split; reflexivity.
  - intros E. apply andb_true_iff in E as [Ec Eh].
    apply negb_true_iff in Ec. rewrite Ec.
    destruct (IH Eh) as [-> ->]. split; reflexivity.
Qed.

Section DecoderMore.

Context {L : PyLib}.

(** X1.  A header that is valid JSON but not an object makes the decoder
    raise [AttributeError], and so does a header object whose [clevis]
    member is truthy without being an object (a number, a string, a
    non-empty list, [true]): [.get] is a method of dicts only. *)
Theorem non_object_header_raises (n : nat) (h v : value) :
  header_object h = Ok v ->
  (is_dict v = false ->
   get_clevis_config_from_protected_header (S n) h = Raise AttributeError)
  /\ (forall (items : list (value * value)) (clevis : value),
        v = VDict items ->
        dict_find (VStr "clevis") items = Some clevis ->
        truthy clevis = true ->
        is_dict clevis = false ->
        get_clevis_config_from_protected_header (S n) h = Raise AttributeError).
Proof.
  intros Hh. rewrite (decoder_reads_header n h v Hh). split.
  - intros Hv. destruct v; try reflexivity. discriminate Hv.
  - intros items clevis -> Hc Ht Hd. unfold get at 1. rewrite Hc. cbn [bind].
    rewrite Ht. destruct clevis; try reflexivity. discriminate Hd.
Qed.

(** X2.  Of a compact JWE the decoder reads the part before the first
    ["."] and nothing else: whatever follows the protected header does not
    change the result, and a text without ["."] is taken as the header
    itself. *)
Theorem jwe_first_segment_only (n : nat) (header rest : str) :
  dotless header = true ->
  get_clevis_config_from_jwe (S n) (VStr (header ++ String "." rest))
  = get_clevis_config_from_protected_header n (VStr header)
  /\ get_clevis_config_from_jwe (S n) (VStr header)
     = get_clevis_config_from_protected_header n (VStr header).
Proof.
  intros Hd. destruct (split_first_dotless header rest Hd) as [E1 E2].
  cbn [get_clevis_config_from_jwe split_dot_first bind].
  now rewrite E1, E2.
Qed.

(** X3.  In an [sss] policy the children are decoded in order and the
    first one that fails ends the decoding: a child whose header holds no
    policy (it decodes to [None]) raises [TypeError], and a child whose
    decoding raises makes the whole policy raise the same exception.  The
    children after it are not looked at. *)
Theorem sss_child_failure_aborts (n : nat) (h : value) (items clevis : list (value * value))
  (sss jwes : value) (before after : list value) (jwe : value) (children : list child) :
  header_object h = Ok (VDict items) ->
  dict_find (VStr "clevis") items = Some (VDict clevis) ->
  dict_find (VStr "pin") clevis = Some (VStr "sss") ->
  dict_find (VStr "sss") clevis = Some sss ->
  getitem sss "jwe" = Ok jwes ->
  iter jwes = Ok (before ++ jwe :: after) ->
  Forall2 (decodes_to n) before children ->
  (get_clevis_config_from_jwe n jwe = Ok None ->
   get_clevis_config_from_protected_header (S n) h = Raise TypeError)
  /\ (forall e : exn,
        get_clevis_config_from_jwe n jwe = Raise e ->
        get_clevis_config_from_protected_header (S n) h = Raise e).
Proof.
  intros Hh Hc Hpin Hsss Hjwe Hiter Hch.
  rewrite (decoder_reads_header n h _ Hh).
  unfold get. rewrite Hc. cbn [bind].
  assert (Htr : truthy (VDict clevis) = true).
  { destruct clevis; [discriminate|reflexivity]. }
  rewrite Htr, Hpin. cbn [bind].
  change (py_eq (VStr "sss") (VStr "tang")) with false.
  change (py_eq (VStr "sss") (VStr "sss")) with true.
  cbn iota.
  assert (Hg : getitem (VDict clevis) "sss" = Ok sss).
  { unfold getitem. now rewrite Hsss. }
  rewrite Hg. cbn [bind]. rewrite Hjwe. cbn [bind]. rewrite Hiter. cbn [bind].
  rewrite for_each_app.
  change (@nil (value * value)) with (group_by_pin []).
  rewrite (for_each_groups n before children Hch []). cbn [bind app for_each].
  split.
  - intros ->. reflexivity.
  - intros e ->. reflexivity.
Qed.

(** X13.  For the pin ["tang"] the decoder returns the [clevis] object of
    the header as it is, with every member it has, whatever the depth left:
    nothing is copied, checked or dropped, and a missing ["tang"] member is
    not noticed. *)
Theorem tang_policy_is_returned_whole (n : nat) (h : value) (items clevis : list (value * value)) :
  header_object h = Ok (VDict items) ->
  dict_find (VStr "clevis") items = Some (VDict clevis) ->
  dict_find (VStr "pin") clevis = Some (VStr "tang") ->
  get_clevis_config_from_protected_header (S n) h = Ok (Some clevis).
Proof.
  intros Hh Hc Hpin. rewrite (decoder_reads_header n h _ Hh).
  unfold get. rewrite Hc. cbn [bind].
  assert (Htr : truthy (VDict clevis) = true).
  { destruct clevis; [discriminate|reflexivity]. }
  rewrite Htr, Hpin. cbn [bind]. now rewrite py_eq_str_refl.
Qed.

End DecoderMore.

(** X1, witness: the headers [[1]] and [{"clevis":"abc"}]. *)
Lemma non_object_header_raises_witness :
  @get_clevis_config_from_protected_header Ref.lib 1000 (VStr Cases.json_list)
    = Raise AttributeError
  /\ @get_clevis_config_from_protected_header Ref.lib 1000 (VStr Cases.clevis_text)
     = Raise AttributeError.
Proof.
  split.
  - apply (proj1 (@non_object_header_raises Ref.lib 999 (VStr Cases.json_list)
                    (VList [ VInt 1 ]) ltac:(vm_compute; reflexivity))).
    reflexivity.
  - apply (proj2 (@non_object_header_raises Ref.lib 999 (VStr Cases.clevis_text)
                    (VDict [ (VStr "clevis", VStr "abc") ]) ltac:(vm_compute; reflexivity))
             [ (VStr "clevis", VStr "abc") ] (VStr "abc"));
      reflexivity.
Defined.

(** X2, witness: the JWE [jwe1] gives what its protected header [tang1]
    gives. *)
Lemma jwe_first_segment_only_witness :
  @get_clevis_config_from_jwe Ref.lib 1000 (VStr Examples.jwe1)
  = @get_clevis_config_from_protected_header Ref.lib 999 (VStr Examples.tang1).
Proof.
  apply (proj1 (@jwe_first_segment_only Ref.lib 999 Examples.tang1 ".aXY.Y3Q.dGFn"
                  ltac:(vm_compute; reflexivity))).
Defined.

(** X3, witness: an [sss] policy whose only child has the header
    [{"alg":"dir"}]. *)
Lemma sss_child_failure_aborts_witness :
  @get_clevis_config_from_protected_header Ref.lib 1000 (VStr Cases.sss_child_none)
  = Raise TypeError.
Proof.
  pose (child := VStr (Examples.no_clevis ++ "..aXY.Y3Q.dGFn")%string).
  pose (sss := VDict [ (VStr "t", VInt 1); (VStr "jwe", VList [ child ]) ]).
  pose (clevis := [ (VStr "pin", VStr "sss"); (VStr "sss", sss) ]).
  apply (proj1 (@sss_child_failure_aborts Ref.lib 999 (VStr Cases.sss_child_none)
                  [ (VStr "clevis", VDict clevis) ] clevis sss (VList [ child ])
                  [] [] child []
                  ltac:(vm_compute; reflexivity) ltac:(vm_compute; reflexivity)
                  ltac:(vm_compute; reflexivity) ltac:(vm_compute; reflexivity)
                  ltac:(vm_compute; reflexivity) ltac:(vm_compute; reflexivity)
                  (Forall2_nil _))).
  vm_compute; reflexivity.
Defined.

(** X13, witness: a tang policy without ["tang"] member, at depth 1. *)
Lemma tang_policy_is_returned_whole_witness :
  @get_clevis_config_from_protected_header Ref.lib 1 (VStr Cases.tang_alone)
  = Ok (Some [ (VStr "pin", VStr "tang"); (VStr "note", VInt 1) ]).
Proof.
  apply (@tang_policy_is_returned_whole Ref.lib 0 (VStr Cases.tang_alone)
           [ (VStr "clevis", VDict [ (VStr "pin", VStr "tang"); (VStr "note", VInt 1) ]) ]);
    vm_compute; reflexivity.
Defined.

(* ================================================================== *)
(** ** Counting the children of an sss policy *)

Lemma list_sum_cons (a : nat) (l : list nat) : list_sum (a :: l) = (a + list_sum l)%nat.
Proof. reflexivity. Qed.

(** Among names without repetition, [q] is met once. *)
Lemma count_once (q : string) (names : list string) :
  NoDup names -> In q names ->
  list_sum (map (fun p => if String.eqb q p then 1%nat else 0%nat) names) = 1%nat.
Proof.
  induction 1 as [|p names Hp Hnd IH]; [contradiction|].
  cbn [map]; rewrite ?list_sum_cons. intros [->|Hq].
  - rewrite String.eqb_refl.
    assert (Hz : list_sum (map (fun p => if String.eqb q p then 1%nat else 0%nat) names) = 0%nat).
    { clear IH Hnd. induction names as [|p names IH]; [reflexivity|].
      cbn [map]; rewrite ?list_sum_cons.
      destruct (String.eqb_spec q p) as [->|_].
      - exfalso. apply Hp. now left.
      - rewrite IH; [reflexivity|]. intros Hin. apply Hp. now right. }
    now rewrite Hz.
  - destruct (String.eqb_spec q p) as [->|_]; [contradiction|].
    now rewrite IH.
Qed.

(** Over names without repetition that cover the pins of the children,
    the groups hold every child once. *)
Lemma payloads_partition (names : list string) (l : list child) :
  NoDup names ->
  (forall c, In c l -> In (fst c) names) ->
  list_sum (map (fun p => List.length (payloads_of p l)) names) = List.length l.
Proof.
  intros Hnd. induction l as [|c l IH]; intros Hcov.
  - cbn. induction names as [|p names IHn]; [reflexivity|].
    cbn [map]; rewrite ?list_sum_cons. inversion Hnd; subst. now rewrite IHn.
  - assert (Hstep : list_sum (map (fun p => List.length (payloads_of p (c :: l))) names)
                    = (list_sum (map (fun p => if String.eqb (fst c) p then 1%nat else 0%nat)
                                     names)
                       + list_sum (map (fun p => List.length (payloads_of p l)) names))%nat).
    { clear IH Hcov Hnd. induction names as [|p names IHn]; [reflexivity|].
      cbn [map]. rewrite !list_sum_cons, IHn.
      unfold payloads_of at 1. cbn [filter].
      destruct (String.eqb (fst c) p); cbn [map List.length]; unfold payloads_of; lia. }
    rewrite Hstep, (count_once (fst c) names Hnd (Hcov c (or_introl eq_refl))).
    rewrite (IH (fun c' Hc' => Hcov c' (or_intror Hc'))). reflexivity.
Qed.

Lemma payload_count_keyed (l : list child) (names : list string) :
  payload_count (map (fun p => (VStr p, VList (payloads_of p l))) names)
  = list_sum (map (fun p => List.length (payloads_of p l)) names).
Proof.
  induction names as [|p names IH]; [reflexivity|].
  cbn [map payload_count]; rewrite ?list_sum_cons. now rewrite IH.
Qed.

Lemma payload_count_groups (l : list child) :
  payload_count (group_by_pin l) = List.length l.
Proof.
  unfold group_by_pin. rewrite payload_count_keyed.
  apply payloads_partition.
  - apply first_occurrences_NoDup.
  - intros c Hc. apply existsb_eqb_In.
    rewrite first_occurrences_mem. cbn [existsb negb]. rewrite andb_true_r.
    apply existsb_exists. exists (fst c). split; [|apply String.eqb_refl].
    now apply in_map.
Qed.

Lemma NoDup_map_VStr (names : list string) : NoDup names -> NoDup (map VStr names).
Proof.
  induction 1 as [|p names Hp _ IH]; cbn [map]; constructor; [|exact IH].
  rewrite in_map_iff. intros (q & E & Hq). inversion E; subst. contradiction.
Qed.

Section Counting.

Context {L : PyLib}.

(** X4.  The grouping of an [sss] policy loses and repeats nothing: when
    every member of [clevis.sss.jwe] decodes to a descriptor with a pin
    name and a payload under it, the lists under ["pins"] hold as many
    payloads, in all, as the policy has members, and no pin name occurs
    twice among the keys. *)
Theorem sss_keeps_every_child (n : nat) (h : value) (items clevis : list (value * value))
  (sss jwes t : value) (members : list value) (children : list child) :
  header_object h = Ok (VDict items) ->
  dict_find (VStr "clevis") items = Some (VDict clevis) ->
  dict_find (VStr "pin") clevis = Some (VStr "sss") ->
  dict_find (VStr "sss") clevis = Some sss ->
  getitem sss "jwe" = Ok jwes ->
  iter jwes = Ok members ->
  Forall2 (decodes_to n) members children ->
  getitem sss "t" = Ok t ->
  exists pins : list (value * value),
    get_clevis_config_from_protected_header (S n) h = Ok (Some (sss_descriptor t pins))
    /\ payload_count pins = List.length members
    /\ NoDup (map fst pins).
Proof.
  intros Hh Hc Hpin Hsss Hjwe Hiter Hch Ht.
  exists (group_by_pin children). split; [|split].
  - rewrite (decoder_reads_header n h _ Hh).
    unfold get. rewrite Hc. cbn [bind].
    assert (Htr : truthy (VDict clevis) = true).
    { destruct clevis; [discriminate|reflexivity]. }
    rewrite Htr, Hpin. cbn [bind].
    change (py_eq (VStr "sss") (VStr "tang")) with false.
    change (py_eq (VStr "sss") (VStr "sss")) with true.
    cbn iota.
    assert (Hg : getitem (VDict clevis) "sss" = Ok sss).
    { unfold getitem. now rewrite Hsss. }
    rewrite Hg. cbn [bind]. rewrite Hjwe. cbn [bind]. rewrite Hiter. cbn [bind].
    change (@nil (value * value)) with (group_by_pin []).
    rewrite (for_each_groups n members children Hch []). cbn [bind app].
    rewrite Ht. reflexivity.
  - rewrite payload_count_groups. symmetry. exact (Forall2_length Hch).
  - unfold group_by_pin. rewrite map_map. cbn [fst].
    apply NoDup_map_VStr, first_occurrences_NoDup.
Qed.

End Counting.

(** X4, witness: the policy over two tang servers has two payloads under
    one pin name. *)
Lemma sss_keeps_every_child_witness :
  exists pins : list (value * value),
    @get_clevis_config_from_protected_header Ref.lib 1000 (VStr Examples.sss12)
      = Ok (Some (sss_descriptor (VInt 2) pins))
    /\ payload_count pins = 2%nat
    /\ NoDup (map fst pins).
Proof.
  pose (sss := VDict [ (VStr "t", VInt 2);
                       (VStr "jwe", VList [ VStr Examples.jwe1; VStr Examples.jwe2 ]) ]).
  pose (clevis := [ (VStr "pin", VStr "sss"); (VStr "sss", sss) ]).
  apply (@sss_keeps_every_child Ref.lib 999 (VStr Examples.sss12)
           [ (VStr "alg", VStr "dir"); (VStr "clevis", VDict clevis) ]
           clevis sss (VList [ VStr Examples.jwe1; VStr Examples.jwe2 ]) (VInt 2)
           [ VStr Examples.jwe1; VStr Examples.jwe2 ]
           [ ("tang", Examples.cfg1); ("tang", Examples.cfg2) ]);
    [ vm_compute; reflexivity .. | idtac | vm_compute; reflexivity ].
  apply Forall2_cons; [|apply Forall2_cons; [|apply Forall2_nil]].
  - exists [ (VStr "pin", VStr "tang"); (VStr "tang", Examples.cfg1) ].
    split; [|split]; vm_compute; reflexivity.
  - exists [ (VStr "pin", VStr "tang"); (VStr "tang", Examples.cfg2) ].
    split; [|split]; vm_compute; reflexivity.
Defined.

(* ================================================================== *)
(** ** Further properties of the slot-state builder *)

Lemma strip_prefix_app (pre rest : string) : strip_prefix pre (pre ++ rest) = Some rest.
Proof.
  induction pre as [|c pre IH]; [reflexivity|].
  cbn [append strip_prefix]. now rewrite Ascii.eqb_refl.
Qed.

Lemma span_digits_app (ds post : string) :
  digits_only ds = true ->
  span_digits post = (EmptyString, post) ->
  span_digits (ds ++ post) = (ds, post).
Proof.
  intros Hd Hp. induction ds as [|c ds IH]; cbn [append]; [exact Hp|].
  cbn [digits_only] in Hd. apply andb_true_iff in Hd as [Hc Hd].
  cbn [span_digits]. now rewrite Hc, (IH Hd).
Qed.

(** A line made of [pre], a non-empty run of digits and [post] matches,
    and the group is the run. *)
Lemma fullmatch_number_built (pre post ds : string) :
  digits_only ds = true -> ds <> EmptyString ->
  span_digits post = (EmptyString, post) ->
  fullmatch_number pre post (pre ++ ds ++ post) = Some ds.
Proof.
  intros Hd Hne Hp. unfold fullmatch_number.
  rewrite strip_prefix_app, (span_digits_app ds post Hd Hp).
  destruct ds as [|c ds]; [congruence|]. cbn [String.length Nat.eqb].
  now rewrite String.eqb_refl.
Qed.

Lemma with_new_slot_set {S : Type} (slot : Z) (entry : value) (st : scan_state) (s : S) :
  (if negb (slots_mem slot (slots st))
   then ret (Scan (slots_set slot entry (slots st)) (version st) (max_slots st)
                  (in_luks2_slot_section st) (in_luks2_token_section st))
   else ret st) s = (Ok (with_new_slot slot entry st), s).
Proof.
  unfold with_new_slot, ret.
  destruct (slots_mem slot (slots st)) eqn:Hm; cbn [negb]; [reflexivity|].
  now rewrite (slots_set_absent slot entry (slots st) Hm).
Qed.

Section BuilderMore.

Context {L : PyLib} {W : Type} {H : Host W}.

(** X5.  In the [Keyslots:] section of a version 2 dump, a line made of
    two spaces, a run of digits and [: luks2] records the key slot of that
    number, without policy and without running any program: the slot gets
    the entry [{"Index": {"v": slot}}] at the end of the table unless it
    has an entry, and the world is as before. *)
Theorem luks2_slot_line_adds_bare_entry (dev : str) (ds : bytes) (slot : Z)
  (st : scan_state) (w : W) :
  in_luks2_slot_section st = true ->
  version st = 2 ->
  digits_only ds = true -> ds <> EmptyString ->
  int_of_digits ds = Ok slot ->
  info_slot_line dev ("  " ++ ds ++ ": luks2") st w
    = (Ok (with_new_slot slot (VDict (bare_entry slot)) st), w)
  /\ slot = decimal ds.
Proof.
  intros Hsec Hv Hd Hne Hi. split.
  - assert (Hm : slot_match ("  " ++ ds ++ ": luks2") st = Some ds).
    { unfold slot_match. rewrite Hsec.
      apply (fullmatch_number_built "  " ": luks2" ds Hd Hne eq_refl). }
    assert (Hv1 : (version st =? 1) = false) by now rewrite Hv.
    unfold info_slot_line. rewrite Hm, (lift_ok _ _ _ _ Hi), Hv1.
    unfold mbind, ret. apply with_new_slot_set.
  - unfold int_of_digits in Hi. destruct (_ && _)%bool; now inversion Hi.
Qed.

(** X6.  For a version 1 slot the exit status of [luksmeta load] decides
    whether the slot has a policy.  A non-zero status (the slot holds no
    Clevis data) is no error: the slot gets the entry without
    [ClevisConfig].  With status 0 and a JWE that decodes, the slot gets
    [{"Index": {"v": slot}, "ClevisConfig": {"v": text}}], [text] being the
    JSON text of the decoded policy.  In both cases a slot that already has
    an entry keeps it. *)
Theorem luksmeta_status_decides_policy (dev : str) (line ds : bytes) (slot : Z)
  (st : scan_state) (w w1 : W) (luksmeta : completed) :
  version st = 1 ->
  slot_match line st = Some ds ->
  int_of_digits ds = Ok slot ->
  subprocess_run [ "luksmeta"; "load"; "-d"; dev; "-s"; str_of_int slot; "-u"; clevis_uuid ] w
    = (Ok luksmeta, w1) ->
  (returncode luksmeta <> 0 ->
   info_slot_line dev line st w = (Ok (with_new_slot slot (VDict (bare_entry slot)) st), w1))
  /\ (forall (jwe text : str) (conf : option (list (value * value))),
        returncode luksmeta = 0 ->
        utf8_decode (stdout luksmeta) = Ok jwe ->
        get_clevis_config_from_jwe recursion_limit (VStr jwe) = Ok conf ->
        json_dumps (value_of_opt conf) = Ok text ->
        info_slot_line dev line st w
          = (Ok (with_new_slot slot (VDict (clevis_entry slot text)) st), w1)).
Proof.
  intros Hv Hm Hi Hrun. unfold info_slot_line. rewrite Hm.
  assert (Hv1 : (version st =? 1) = true) by now rewrite Hv.
  rewrite (lift_ok _ _ _ _ Hi), Hv1.
  split.
  - intros Hrc. apply Z.eqb_neq in Hrc.
    unfold mbind at 1. unfold mbind at 1. rewrite Hrun, Hrc.
    unfold ret. apply with_new_slot_set.
  - intros jwe text conf Hrc Hu Hc Hj.
    unfold mbind at 1. unfold mbind at 1. rewrite Hrun, Hrc. cbn [Z.eqb].
    rewrite (lift_ok _ _ _ _ Hu), (lift_ok _ _ _ _ Hc), (lift_ok _ _ _ _ Hj).
    unfold mbind, ret. cbn [dict_set bare_entry py_eq String.eqb Ascii.eqb Bool.eqb].
    apply with_new_slot_set.
Qed.

(** X7.  A token line whose token cannot be exported (non-zero exit
    status), or whose exported object has a type other than ["clevis"],
    is skipped: the state is unchanged and nothing is raised, even when
    the object has no ["jwe"] member. *)
Theorem failed_or_foreign_token_is_skipped (dev : str) (line id : bytes) (st : scan_state)
  (w w1 : W) (token : completed) :
  in_luks2_token_section st = true ->
  fullmatch_number "  " ": clevis" line = Some id ->
  subprocess_run [ "cryptsetup"; "token"; "export"; dev; "--token-id"; id ] w
    = (Ok token, w1) ->
  (returncode token <> 0 -> info_token_line dev line st w = (Ok st, w1))
  /\ (forall (text : str) (token_object type : value),
        returncode token = 0 ->
        utf8_decode (stdout token) = Ok text ->
        json_loads text = Ok token_object ->
        get token_object "type" VNone = Ok type ->
        py_eq type (VStr "clevis") = false ->
        info_token_line dev line st w = (Ok st, w1)).
Proof.
  intros Hsec Hm Hrun. unfold info_token_line. rewrite Hsec, Hm.
  rewrite (mbind_ok _ _ _ _ _ Hrun). split.
  - intros Hrc. apply Z.eqb_neq in Hrc. now rewrite Hrc.
  - intros text token_object type Hrc Hu Hj Hty Hne. rewrite Hrc. cbn [Z.eqb].
    rewrite (lift_ok _ _ _ _ Hu), (lift_ok _ _ _ _ Hj), (lift_ok _ _ _ _ Hty).
    now rewrite Hne.
Qed.

(** The section flags after a line: never both set, and the slot section
    only in version 2. *)
Lemma info_sections_flags (line : bytes) (st : scan_state) :
  in_luks2_slot_section st && in_luks2_token_section st = false ->
  (in_luks2_slot_section st = true -> version st = 2 /\ max_slots st = 32) ->
  in_luks2_slot_section (info_sections line st)
    && in_luks2_token_section (info_sections line st) = false
  /\ (in_luks2_slot_section (info_sections line st) = true ->
      version (info_sections line st) = 2 /\ max_slots (info_sections line st) = 32).
Proof.
  intros Hx Hv. unfold info_sections.
  destruct (String.eqb_spec line "Keyslots:") as [->|_].
  { cbn. split; [reflexivity|]. intros _. split; reflexivity. }
  destruct (String.eqb_spec line "Tokens:") as [->|_].
  { cbn. split; [reflexivity|]. discriminate. }
  destruct (negb _); cbn; [split; [reflexivity|discriminate]|].
  split; assumption.
Qed.

(** X8.  While [info] scans a dump the two section flags are never set
    together, and the [Keyslots:] section is only ever entered with
    [version] 2 and [max_slots] 32: a line is read as a version 2 slot
    line or as a token line, never as both, and [luksmeta] is not asked
    about a slot listed under [Keyslots:]. *)
Theorem sections_exclude_each_other (dev : str) (lines : list bytes)
  (st : scan_state) (w w' : W) :
  mfor_each (info_line dev) lines initial_scan w = (Ok st, w') ->
  in_luks2_slot_section st && in_luks2_token_section st = false
  /\ (in_luks2_slot_section st = true -> version st = 2 /\ max_slots st = 32).
Proof.
  assert (Hgen : forall st0 w0,
             in_luks2_slot_section st0 && in_luks2_token_section st0 = false ->
             (in_luks2_slot_section st0 = true -> version st0 = 2 /\ max_slots st0 = 32) ->
             mfor_each (info_line dev) lines st0 w0 = (Ok st, w') ->
             in_luks2_slot_section st && in_luks2_token_section st = false
             /\ (in_luks2_slot_section st = true -> version st = 2 /\ max_slots st = 32)).
  { induction lines as [|line lines IH]; intros st0 w0 Hx Hv.
    - cbn. intros E. inversion E; subst. split; assumption.
    - cbn [mfor_each]. unfold mbind at 1. unfold info_line at 1. unfold mbind at 1.
      destruct (info_slot_line dev line (info_sections line st0) w0) as [[st1|e] w1] eqn:E1;
        [|discriminate].
      destruct (info_token_line dev line st1 w1) as [[st2|e] w2] eqn:E2; [|discriminate].
      destruct (info_sections_flags line st0 Hx Hv) as [Hx0 Hv0].
      destruct (info_slot_line_frame _ _ _ _ _ _ E1) as (V1 & M1 & S1 & T1 & _).
      destruct (info_token_line_frame _ _ _ _ _ _ E2) as (V2 & M2 & S2 & T2).
      apply IH.
      + now rewrite S2, T2, S1, T1.
      + rewrite S2, V2, M2, S1, V1, M1. exact Hv0. }
  apply Hgen; [reflexivity|discriminate].
Qed.

End BuilderMore.

(** X5, witness: the line for key slot 7 in a table that has slot 0. *)
Lemma luks2_slot_line_adds_bare_entry_witness :
  let st := Scan [ (0, VDict (bare_entry 0)) ] 2 32 true false in
  @info_slot_line Ref.lib _ Sim.host Examples.dev "  7: luks2" st Examples.world_slots
    = (Ok (Scan [ (0, VDict (bare_entry 0)); (7, VDict (bare_entry 7)) ] 2 32 true false),
       Examples.world_slots).
Proof.
  intros st.
  apply (proj1 (@luks2_slot_line_adds_bare_entry Ref.lib _ Sim.host Examples.dev "7" 7 st
                  Examples.world_slots eq_refl eq_refl eq_refl
                  ltac:(discriminate) ltac:(vm_compute; reflexivity))).
Defined.

(** X6, witness: slot 0 of a version 1 device without Clevis data, and
    with the JWE [jwe1]. *)
Lemma luksmeta_status_decides_policy_witness :
  @info_slot_line Ref.lib _ Sim.host Examples.dev "Key Slot 0: ENABLED" initial_scan
     Cases.world_legacy_empty
    = (Ok (Scan [ (0, VDict (bare_entry 0)) ] 1 8 false false), Cases.world_legacy_empty)
  /\ @info_slot_line Ref.lib _ Sim.host Examples.dev "Key Slot 0: ENABLED" initial_scan
       Examples.world_legacy
     = (Ok (Scan [ (0, VDict (clevis_entry 0
                      (Sim.json_text
                         "{'pin': 'tang', 'tang': {'url': 'http://tang1.example'}}"))) ]
                 1 8 false false),
        Examples.world_legacy).
Proof.
  split.
  - apply (proj1 (@luksmeta_status_decides_policy Ref.lib _ Sim.host Examples.dev
                    "Key Slot 0: ENABLED" "0" 0 initial_scan
                    Cases.world_legacy_empty Cases.world_legacy_empty
                    (Completed 2 EmptyString)
                    eq_refl ltac:(vm_compute; reflexivity) ltac:(vm_compute; reflexivity)
                    ltac:(vm_compute; reflexivity))).
    cbn. discriminate.
  - apply (proj2 (@luksmeta_status_decides_policy Ref.lib _ Sim.host Examples.dev
                    "Key Slot 0: ENABLED" "0" 0 initial_scan
                    Examples.world_legacy Examples.world_legacy
                    (Completed 0 Examples.jwe1)
                    eq_refl ltac:(vm_compute; reflexivity) ltac:(vm_compute; reflexivity)
                    ltac:(vm_compute; reflexivity))
             Examples.jwe1
             (Sim.json_text "{'pin': 'tang', 'tang': {'url': 'http://tang1.example'}}")
             (Some [ (VStr "pin", VStr "tang"); (VStr "tang", Examples.cfg1) ]));
      vm_compute; reflexivity.
Defined.

(** X7, witness: a token that cannot be exported, and a token of type
    [luks2-keyring]. *)
Lemma failed_or_foreign_token_is_skipped_witness :
  let st := Scan [ (2, VDict (bare_entry 2)) ] 2 32 false true in
  @info_token_line Ref.lib _ Sim.host Examples.dev "  0: clevis" st Cases.world_token_lost
    = (Ok st, Cases.world_token_lost)
  /\ @info_token_line Ref.lib _ Sim.host Examples.dev "  0: clevis" st Cases.world_token_foreign
     = (Ok st, Cases.world_token_foreign).
Proof.
  intros st. split.
  - apply (proj1 (@failed_or_foreign_token_is_skipped Ref.lib _ Sim.host Examples.dev
                    "  0: clevis" "0" st Cases.world_token_lost Cases.world_token_lost
                    (Completed 1 EmptyString)
                    eq_refl ltac:(vm_compute; reflexivity) ltac:(vm_compute; reflexivity))).
    cbn. discriminate.
  - apply (proj2 (@failed_or_foreign_token_is_skipped Ref.lib _ Sim.host Examples.dev
                    "  0: clevis" "0" st Cases.world_token_foreign Cases.world_token_foreign
                    (Completed 0 (Sim.json_text "{'type':'luks2-keyring','keyslots':['2']}"))
                    eq_refl ltac:(vm_compute; reflexivity) ltac:(vm_compute; reflexivity))
             (Sim.json_text "{'type':'luks2-keyring','keyslots':['2']}")
             (VDict [ (VStr "type", VStr "luks2-keyring");
                      (VStr "keyslots", VList [ VStr "2" ]) ])
             (VStr "luks2-keyring"));
      vm_compute; reflexivity.
Defined.

(** X8, witness: the scan stopped inside the [Keyslots:] section. *)
Lemma sections_exclude_each_other_witness :
  let lines := [ "LUKS header information"; "Keyslots:"; "  0: luks2" ] in
  let st := Scan [ (0, VDict (bare_entry 0)) ] 2 32 true false in
  @mfor_each _ _ _ (@info_line Ref.lib _ Sim.host Examples.dev) lines initial_scan
     Examples.world_slots = (Ok st, Examples.world_slots)
  /\ in_luks2_slot_section st && in_luks2_token_section st = false
  /\ (in_luks2_slot_section st = true -> version st = 2 /\ max_slots st = 32).
Proof.
  intros lines st. split; [vm_compute; reflexivity|].
  apply (@sections_exclude_each_other Ref.lib _ Sim.host Examples.dev lines st
           Examples.world_slots Examples.world_slots).
  vm_compute; reflexivity.
Defined.

(* ================================================================== *)
(** ** The slot numbers of a state *)

Lemma slots_mem_In (k : Z) (d : list (Z * value)) :
  slots_mem k d = true <-> In k (map fst d).
Proof.
  induction d as [|[k' v] d IH]; cbn [slots_mem map fst In].
  - split; [discriminate|contradiction].
  - rewrite orb_true_iff, IH, Z.eqb_eq. split; intros [E|E]; auto.
Qed.

Lemma slots_set_keys (k : Z) (e : value) (d : list (Z * value)) :
  map fst (slots_set k e d) = if slots_mem k d then map fst d else map fst d ++ [k].
Proof.
  induction d as [|[k' v] d IH]; cbn [slots_set slots_mem map fst app]; [reflexivity|].
  destruct (k =? k') eqn:E; cbn [orb map fst]; [reflexivity|].
  rewrite IH. now destruct (slots_mem k d).
Qed.

(** Storing an entry that carries its slot number keeps the table one
    where every entry carries the number it is stored under, each number
    once. *)
Lemma slots_set_indexed (k : Z) (e : value) (d : list (Z * value)) :
  entry_index e = Some k ->
  Forall (fun kv => entry_index (snd kv) = Some (fst kv)) d /\ NoDup (map fst d) ->
  Forall (fun kv => entry_index (snd kv) = Some (fst kv)) (slots_set k e d)
  /\ NoDup (map fst (slots_set k e d)).
Proof.
  intros He [Hf Hn]. split.
  - clear Hn. induction Hf as [|[k' v] d Hk Hd IH]; cbn [slots_set].
    + constructor; [exact He|constructor].
    + destruct (k =? k') eqn:E; constructor; auto.
      apply Z.eqb_eq in E. now subst.
  - rewrite slots_set_keys. destruct (slots_mem k d) eqn:Hm; [exact Hn|].
    apply NoDup_app; [exact Hn|constructor; [intros []|constructor]|].
    intros x Hx [<-|[]]. apply slots_mem_In in Hx. congruence.
Qed.

Section IndexFacts.

Context {L : PyLib} {W : Type} {H : Host W}.

Lemma info_slot_line_indexed (dev : str) (line : bytes) (st st' : scan_state) (w w' : W) :
  Forall (fun kv => entry_index (snd kv) = Some (fst kv)) (slots st)
    /\ NoDup (map fst (slots st)) ->
  info_slot_line dev line st w = (Ok st', w') ->
  Forall (fun kv => entry_index (snd kv) = Some (fst kv)) (slots st')
    /\ NoDup (map fst (slots st')).
Proof.
  intros Hs. unfold info_slot_line. intros E. mcases_in E;
    inversion E; subst; cbn [slots]; auto;
    apply slots_set_indexed; auto.
Qed.

Lemma assign_slots_indexed (config : str) (members : list value) :
  forall d d' : list (Z * value),
    Forall (fun kv => entry_index (snd kv) = Some (fst kv)) d /\ NoDup (map fst d) ->
    for_each (assign_slot config) members d = Ok d' ->
    Forall (fun kv => entry_index (snd kv) = Some (fst kv)) d' /\ NoDup (map fst d').
Proof.
  induction members as [|m members IH]; intros d d' Hd.
  - cbn. intros [= <-]. exact Hd.
  - cbn [for_each]. unfold assign_slot at 1.
    destruct (int_of_value m) as [z|e]; [|discriminate]. cbn [bind].
    apply IH. apply slots_set_indexed; [reflexivity|exact Hd].
Qed.

Lemma info_token_line_indexed (dev : str) (line : bytes) (st st' : scan_state) (w w' : W) :
  Forall (fun kv => entry_index (snd kv) = Some (fst kv)) (slots st)
    /\ NoDup (map fst (slots st)) ->
  info_token_line dev line st w = (Ok st', w') ->
  Forall (fun kv => entry_index (snd kv) = Some (fst kv)) (slots st')
    /\ NoDup (map fst (slots st')).
Proof.
  intros Hs. unfold info_token_line. intros E. mcases E;
    inversion E; subst; cbn [slots]; auto.
  eapply assign_slots_indexed; eauto.
Qed.

Lemma scan_indexed (dev : str) (lines : list bytes) :
  forall (st st' : scan_state) (w w' : W),
    Forall (fun kv => entry_index (snd kv) = Some (fst kv)) (slots st)
      /\ NoDup (map fst (slots st)) ->
    mfor_each (info_line dev) lines st w = (Ok st', w') ->
    Forall (fun kv => entry_index (snd kv) = Some (fst kv)) (slots st')
      /\ NoDup (map fst (slots st')).
Proof.
  induction lines as [|line lines IH]; intros st st' w w' Hs.
  - cbn. intros E. now inversion E; subst.
  - cbn [mfor_each]. unfold mbind at 1. unfold info_line at 1. unfold mbind at 1.
    destruct (info_slot_line dev line (info_sections line st) w) as [[st1|e] w1] eqn:E1;
      [|discriminate].
    destruct (info_token_line dev line st1 w1) as [[st2|e] w2] eqn:E2; [|discriminate].
    apply IH.
    apply (info_token_line_indexed _ _ _ _ _ _ (info_slot_line_indexed _ _ _ _ _ _
             ltac:(rewrite info_sections_slots; exact Hs) E1) E2).
Qed.

(** X9.  In every state [info] returns, each entry of ["slots"] carries a
    slot number under ["Index"]["v"], and no two entries carry the same
    number: a key slot is listed once, however often the dump or the tokens
    name it. *)
Theorem slot_numbers_are_distinct (dev : str) (w w' : W) (state : value) :
  info dev w = (Ok state, w') ->
  exists (v m : Z) (entries : list value) (numbers : list Z),
    state = state_dict v entries m
    /\ map entry_index entries = map Some numbers
    /\ NoDup numbers.
Proof.
  unfold info, mbind.
  destruct (subprocess_run [ "cryptsetup"; "luksDump"; dev ] w) as [[dump|e] w1];
    [|discriminate].
  destruct (negb (returncode dump =? 0)).
  - intros E. inversion E; subst. exists 1, 8, [], [].
    split; [reflexivity|]. split; [reflexivity|constructor].
  - destruct (mfor_each (info_line dev) (splitlines (stdout dump)) initial_scan w1)
      as [[st|e] w2] eqn:Hscan; [|discriminate].
    intros E. inversion E; subst.
    destruct (scan_indexed dev _ initial_scan st w1 w'
                (conj (Forall_nil _) (NoDup_nil _)) Hscan) as [Hf Hn].
    exists (version st), (max_slots st), (map snd (slots st)), (map fst (slots st)).
    split; [reflexivity|]. split; [|exact Hn].
    rewrite !map_map. apply map_ext_in. intros kv Hkv.
    rewrite Forall_forall in Hf. exact (Hf kv Hkv).
Qed.

End IndexFacts.

(** X9, witness: key slot 2 is named by the dump and by a token, and is
    listed once. *)
Lemma slot_numbers_are_distinct_witness :
  let config := Sim.json_text "{'pin': 'tang', 'tang': {'url': 'http://tang1.example'}}" in
  exists (v m : Z) (entries : list value) (numbers : list Z),
    state_dict 2 [ VDict (bare_entry 0); VDict (clevis_entry 2 config) ] 32
      = state_dict v entries m
    /\ map entry_index entries = map Some numbers
    /\ NoDup numbers.
Proof.
  intros config.
  apply (@slot_numbers_are_distinct Ref.lib _ Sim.host Examples.dev
           Examples.world_tang Examples.world_tang).
  vm_compute; reflexivity.
Defined.

(* ================================================================== *)
(** ** Further properties of the change monitor *)

Section MonitorMore.

Context {L : PyLib} {W : Type} {H : Host W}.

(** The turns of the loop compose. *)
Lemma monitor_loop_add (dev : str) (n k : nat) :
  forall (st : monitor_state) (s : W * list str),
    monitor_loop dev (n + k) st s
    = mbind (monitor_loop dev n st) (fun st' => monitor_loop dev k st') s.
Proof.
  induction n as [|n IH]; intros st s; [reflexivity|].
  cbn [Nat.add monitor_loop]. unfold mbind.
  destruct (monitor_turn dev st s) as [[st1|e] s1]; [|reflexivity].
  rewrite IH. reflexivity.
Qed.

(** The loop only appends to what was written, at most one line a turn,
    and keeps the path. *)
Lemma monitor_loop_grows (dev : str) (n : nat) :
  forall (st : monitor_state) (w w' : W) (out out' : list str) (r : result monitor_state),
    monitor_loop dev n st (w, out) = (r, (w', out')) ->
    exists more : list str,
      out' = out ++ more
      /\ (List.length more <= n)%nat
      /\ (forall st', r = Ok st' -> path st' = path st).
Proof.
  induction n as [|n IH]; intros st w w' out out' r.
  - cbn. intros E. inversion E; subst. exists []. rewrite app_nil_r.
    split; [reflexivity|]. split; [apply Nat.le_refl|]. now intros st' [= <-].
  - cbn [monitor_loop]. unfold mbind.
    destruct (monitor_turn dev st (w, out)) as [r1 [w1 out1]] eqn:E1.
    destruct (monitor_turn_cases dev st w w1 out out1 r1 E1)
      as [(-> & Hsame) | (line & w0' & new & text & _ & _ & _ & _ & _ & -> & ->)].
    + destruct r1 as [st1|e].
      * rewrite (Hsame st1 eq_refl). intros E.
        destruct (IH _ _ _ _ _ _ E) as (more & -> & Hlen & Hp).
        exists more. split; [reflexivity|]. split; [lia|exact Hp].
      * intros E. inversion E; subst. exists []. rewrite app_nil_r.
        split; [reflexivity|]. split; [cbn; lia|]. intros st' [=].
    + intros E. destruct (IH _ _ _ _ _ _ E) as (more & -> & Hlen & Hp).
      exists (emitted_line text :: more). rewrite <- app_assoc.
      split; [reflexivity|]. split; [cbn [List.length]; lia|exact Hp].
Qed.

(** X10.  What [monitor] has written is never taken back and grows by at
    most one line for each event read: after [n] events at most [n + 1]
    lines are out, and the output after more events extends the output
    after fewer.  The path the events are matched against is the one
    resolved at start-up, in every turn. *)
Theorem monitor_output_only_grows (dev : str) (w : W) :
  (forall (n : nat) (r : result monitor_state) (w1 : W) (out : list str),
     monitor dev n (w, []) = (r, (w1, out)) -> (List.length out <= S n)%nat)
  /\
  (forall (n k : nat) (st : monitor_state) (w1 : W) (out : list str),
     monitor dev n (w, []) = (Ok st, (w1, out)) ->
     exists more : list str,
       snd (snd (monitor dev (n + k) (w, []))) = out ++ more
       /\ (List.length more <= k)%nat
       /\ (forall st', fst (monitor dev (n + k) (w, [])) = Ok st' -> path st' = path st)).
Proof.
  split.
  - intros n r w1 out. unfold monitor, mbind.
    destruct (monitor_start dev (w, [])) as [r0 [w0 out0]] eqn:E0.
    destruct (monitor_start_cases dev w w0 [] out0 r0 E0)
      as [(-> & e & ->) | (st & text & wa & -> & _ & _ & ->)].
    + intros E. inversion E; subst. cbn. lia.
    + intros E. destruct (monitor_loop_grows dev n _ _ _ _ _ _ E) as (more & -> & Hlen & _).
      rewrite length_app. cbn [app List.length]. lia.
  - intros n k st w1 out. unfold monitor. unfold mbind at 1 2 3.
    destruct (monitor_start dev (w, [])) as [[st0|e] [w0 out0]]; [|discriminate].
    rewrite monitor_loop_add. unfold mbind.
    intros E. rewrite E.
    destruct (monitor_loop dev k st (w1, out)) as [r2 [w2 out2]] eqn:E2.
    destruct (monitor_loop_grows dev k _ _ _ _ _ _ E2) as (more & -> & Hlen & Hp).
    exists more. cbn [fst snd]. auto.
Qed.

(** Lines 108-109: an event that does not contain the path leaves the
    turn after the read. *)
Lemma monitor_turn_quiet (dev : str) (st : monitor_state) (w : W) (out : list str) :
  contains (fst (popen_readline w)) (path st) = false ->
  monitor_turn dev st (w, out) = (Ok st, (snd (popen_readline w), out)).
Proof.
  unfold monitor_turn, on_world, mbind, ret. cbn [fst snd].
  destruct (popen_readline w) as [line w1]. cbn [fst snd]. now intros ->.
Qed.

(** X11.  Events that do not contain the device's path cost nothing but
    the read: the state is not rebuilt (no program is run, the world only
    moves along the event feed), nothing is written and the kept state
    stays.  After start-up and [n] such events the output is the one line
    written at start-up. *)
Theorem quiet_events_change_nothing (dev : str) (n : nat) (w w1 : W)
  (st : monitor_state) (out1 : list str) :
  monitor_start dev (w, []) = (Ok st, (w1, out1)) ->
  quiet n (path st) w1 ->
  monitor dev n (w, []) = (Ok st, (after_reads n w1, out1))
  /\ List.length out1 = 1%nat.
Proof.
  intros Hstart Hq. split.
  - unfold monitor. rewrite (mbind_ok _ _ _ _ _ Hstart).
    clear Hstart. revert w1 Hq. induction n as [|n IH]; intros w1 Hq; [reflexivity|].
    cbn [quiet] in Hq. cbn [monitor_loop after_reads].
    pose proof (monitor_turn_quiet dev st w1 out1) as Ht.
    destruct (popen_readline w1) as [line w2]. cbn [fst snd] in *.
    destruct Hq as [Hline Hq].
    rewrite (mbind_ok _ _ _ _ _ (Ht Hline)). now apply IH.
  - destruct (monitor_start_cases dev w w1 [] out1 _ Hstart)
      as [(_ & e & [=]) | (st' & text & wa & _ & _ & _ & ->)].
    reflexivity.
Qed.

(** X12.  When [udevadm info] exits with a non-zero status, [monitor]
    ends with [CalledProcessError] before anything else is done: no event
    monitor is started, no state is built and nothing is written. *)
Theorem unknown_device_stops_monitor (dev : str) (n : nat) (w w1 : W)
  (out : list str) (done : completed) :
  subprocess_run [ "udevadm"; "info"; "-q"; "path"; dev ] w = (Ok done, w1) ->
  returncode done <> 0 ->
  monitor dev n (w, out) = (Raise CalledProcessError, (w1, out)).
Proof.
  intros Hrun Hrc. apply Z.eqb_neq in Hrc.
  unfold monitor, monitor_start, check_output, on_world, mbind, lift. cbn [fst snd].
  now rewrite Hrun, Hrc.
Qed.

End MonitorMore.

(** X10, witness: the session of the example, after two events and after
    six. *)
Lemma monitor_output_only_grows_witness :
  let run n := @monitor Ref.lib _ Sim.host Examples.dev n (Examples.world_session, []) in
  (List.length (snd (snd (run 6%nat))) <= 7)%nat
  /\ exists more : list str,
       snd (snd (run (2 + 4)%nat)) = snd (snd (run 2%nat)) ++ more
       /\ (List.length more <= 4)%nat
       /\ (forall st', fst (run (2 + 4)%nat) = Ok st' -> path st' = Examples.sys_path).
Proof.
  intros run. split.
  - apply (proj1 (@monitor_output_only_grows Ref.lib _ Sim.host Examples.dev
                    Examples.world_session)
             6%nat (fst (run 6%nat)) (fst (snd (run 6%nat)))).
    vm_compute; reflexivity.
  - apply (proj2 (@monitor_output_only_grows Ref.lib _ Sim.host Examples.dev
                    Examples.world_session)
             2%nat 4%nat (Monitor Examples.sys_path (state_dict 2 [ VDict (bare_entry 0); VDict (bare_entry 2) ] 32))
             (fst (snd (run 2%nat)))).
    vm_compute; reflexivity.
Defined.

(** X11, witness: three events for other disks. *)
Lemma quiet_events_change_nothing_witness :
  let start := @monitor_start Ref.lib _ Sim.host Examples.dev (Cases.world_elsewhere, []) in
  exists st : monitor_state,
    fst start = Ok st
    /\ @monitor Ref.lib _ Sim.host Examples.dev 3 (Cases.world_elsewhere, [])
       = (Ok st, (Sim.World Examples.table_tang [], snd (snd start)))
    /\ List.length (snd (snd start)) = 1%nat.
Proof.
  intros start.
  exists (Monitor Examples.sys_path
            (state_dict 2 [ VDict (bare_entry 0); VDict (bare_entry 2) ] 32)).
  split; [vm_compute; reflexivity|].
  apply (@quiet_events_change_nothing Ref.lib _ Sim.host Examples.dev 3%nat
           Cases.world_elsewhere Cases.world_elsewhere).
  - vm_compute; reflexivity.
  - cbn. repeat split.
Defined.

(** X12, witness: a device that [udevadm] does not know. *)
Lemma unknown_device_stops_monitor_witness :
  @monitor Ref.lib _ Sim.host Examples.dev 5 (Cases.world_no_udev, [])
  = (Raise CalledProcessError, (Cases.world_no_udev, [])).
Proof.
  apply (@unknown_device_stops_monitor Ref.lib _ Sim.host Examples.dev 5%nat
           Cases.world_no_udev Cases.world_no_udev [] (Completed 4 EmptyString)).
  - reflexivity.
  - cbn. discriminate.
Defined.
